(** * WhatsApp RSVP webhook service: model and verified properties

    The development embeds the two JavaScript sources of the repository:

    - [src/app.js], the Express entry point (modules [App] and [Routes]
      below): the outbound helper [sendTextMessage], the single-send,
      bulk-send and schedule routes, the webhook verification route and
      the webhook delivery route with its inline RSVP classification;
      and, from the source appended to it, the CORS helper (module
      [Utils]);
    - the shared WhatsApp module (modules [Lib] and [Templates] below):
      its own [sendTextMessage], [sendTemplateMessage] and
      [parseWebhookPayload].

    JavaScript values are a tagged union, property access follows the
    language (reading a property of [undefined] or [null] throws), and
    the handlers run in a state-and-exception monad whose state records
    every call made to a collaborator (HTTP, datastore, console, timer). *)

From Stdlib Require Import String Ascii List ZArith Bool Arith Lia DecimalString.
Set Warnings "-register-all".
Import ListNotations.
Local Open Scope char_scope.
Local Open Scope string_scope.

(** ** Strings *)

Module Str.

(** [s.length = 0]. *)
Definition isEmpty (s : string) : bool :=
  match s with EmptyString => true | String _ _ => false end.

Definition firstChar (s : string) : option ascii :=
  match s with EmptyString => None | String c _ => Some c end.

Fixpoint lastChar (s : string) : option ascii :=
  match s with
  | EmptyString => None
  | String c s' => match lastChar s' with Some d => Some d | None => Some c end
  end.

(** The character left of a position that lies [pre] after a position
    whose left neighbour is [prev]. *)
Definition lastCharOr (prev : option ascii) (pre : string) : option ascii :=
  match lastChar pre with Some d => Some d | None => prev end.

(** [stripPrefix p s] is [Some rest] when [s = p ++ rest]. *)
Fixpoint stripPrefix (p s : string) : option string :=
  match p with
  | EmptyString => Some s
  | String a p' =>
      match s with
      | EmptyString => None
      | String b s' => if Ascii.eqb a b then stripPrefix p' s' else None
      end
  end.

(** [String.prototype.replace] with a string pattern: only the first
    occurrence of [pat] is replaced.  (The replacement strings of the
    sources are empty, so no [$] pattern is ever interpreted.) *)
Fixpoint replace (pat rep s : string) : string :=
  match stripPrefix pat s with
  | Some rest => rep ++ rest
  | None =>
      match s with
      | EmptyString => EmptyString
      | String c s' => String c (replace pat rep s')
      end
  end.

(** [s] has the character [c] somewhere. *)
Fixpoint contains (c : ascii) (s : string) : bool :=
  match s with
  | EmptyString => false
  | String d s' => Ascii.eqb c d || contains c s'
  end.

Definition isUpper (c : ascii) : bool :=
  let n := nat_of_ascii c in ((65 <=? n) && (n <=? 90))%nat.

Definition lowerChar (c : ascii) : ascii :=
  if isUpper c then ascii_of_nat (nat_of_ascii c + 32) else c.

(** Texts are kept in UTF-8, the form in which a request body arrives:
    an ASCII character is one byte below 128, and every other character
    is a run of bytes from 128 up, none of which is an ASCII character or
    a word character of a regular expression. *)

(** U+0130, capital I with a dot above. *)
Definition capitalDottedI : string := String "196" (String "176" EmptyString).

(** Its lower case: [i] followed by U+0307, the combining dot above. *)
Definition smallDottedI : string :=
  String "i" (String "204" (String "135" EmptyString)).

(** U+212A, the Kelvin sign, whose lower case is [k]. *)
Definition kelvinSign : string :=
  String "226" (String "132" (String "170" EmptyString)).

(** A byte put in front of a text that is in lower case already: the
    two characters above are lowered as a whole once their first byte
    arrives (their later bytes are kept by [lowerChar], so they are still
    there), and any other byte by itself. *)
Definition lowerCons (c : ascii) (t : string) : string :=
  match stripPrefix capitalDottedI (String c t) with
  | Some t' => smallDottedI ++ t'
  | None =>
      match stripPrefix kelvinSign (String c t) with
      | Some t' => String "k" t'
      | None => String (lowerChar c) t
      end
  end.

(** [String.prototype.toLowerCase].  The letters [A]-[Z] go to [a]-[z].
    Outside ASCII exactly two characters have a lower case with an ASCII
    letter in it: U+0130 goes to [i] and U+0307, the Kelvin sign to [k].
    The lower case of any other character outside ASCII lies outside
    ASCII as well; such a character is kept as it is written, which no
    ASCII pattern can tell from its lower case. *)
Fixpoint toLowerCase (s : string) : string :=
  match s with
  | EmptyString => EmptyString
  | String c rest => lowerCons c (toLowerCase rest)
  end.

(** A byte that continues a character of several bytes. *)
Definition isContinuation (c : ascii) : bool :=
  let n := nat_of_ascii c in ((128 <=? n) && (n <=? 191))%nat.

(** The characters of a text, one by one, as [for...of] visits them: a
    character's first byte together with the bytes that continue it. *)
Fixpoint characters (s : string) : list string :=
  match s with
  | EmptyString => []
  | String c rest =>
      match characters rest with
      | String d g :: more =>
          if isContinuation d then String c (String d g) :: more
          else String c EmptyString :: String d g :: more
      | others => String c EmptyString :: others
      end
  end.

(** All ways to write [t] as [pre ++ kw ++ post]. *)
Fixpoint occurrences (kw t : string) : list (string * string) :=
  (match stripPrefix kw t with Some post => [(EmptyString, post)] | None => [] end)
  ++ match t with
     | EmptyString => []
     | String c t' =>
         map (fun pp => (String c (fst pp), snd pp)) (occurrences kw t')
     end.

End Str.

(** ** Regular expressions

    The fragment of JavaScript regular expressions used by the
    classifier: [^], [$], [\b], literals, alternation and sequence (no
    flags).  A cursor is the character left of the position (if any) and
    the text right of it. *)

Module Regex.

Inductive regex : Type :=
| Bol                         (* ^  *)
| Eol                         (* $  *)
| WordB                       (* \b *)
| Lit (s : string)
| Alt (a b : regex)           (* a|b *)
| Seq (a b : regex).

Definition cursor : Type := (option ascii * string)%type.

(** [\w] without flags is [[A-Za-z0-9_]]. *)
Definition isWordChar (c : ascii) : bool :=
  let n := nat_of_ascii c in
  (((97 <=? n) && (n <=? 122)) || ((65 <=? n) && (n <=? 90))
   || ((48 <=? n) && (n <=? 57)) || (n =? 95))%nat.

Definition isWordOpt (o : option ascii) : bool :=
  match o with Some c => isWordChar c | None => false end.

(** [\b] holds where exactly one side is a word character; the outside
    of the text counts as a non-word character. *)
Definition wordBoundary (prev next : option ascii) : bool :=
  xorb (isWordOpt prev) (isWordOpt next).

(** Every cursor at which a match of [r] started at [c] can end. *)
Fixpoint matchFrom (r : regex) (c : cursor) : list cursor :=
  match r with
  | Bol => match fst c with None => [c] | Some _ => [] end
  | Eol => if Str.isEmpty (snd c) then [c] else []
  | WordB => if wordBoundary (fst c) (Str.firstChar (snd c)) then [c] else []
  | Lit s =>
      match Str.stripPrefix s (snd c) with
      | Some rest => [(Str.lastCharOr (fst c) s, rest)]
      | None => []
      end
  | Alt a b => matchFrom a c ++ matchFrom b c
  | Seq a b => flat_map (matchFrom b) (matchFrom a c)
  end.

Definition matchesAt (r : regex) (c : cursor) : bool :=
  match matchFrom r c with [] => false | _ :: _ => true end.

(** The search of [RegExp.prototype.test]: try every start position from
    left to right. *)
Fixpoint searchFrom (r : regex) (prev : option ascii) (rest : string) : bool :=
  matchesAt r (prev, rest)
  || match rest with
     | EmptyString => false
     | String c rest' => searchFrom r (Some c) rest'
     end.

(** [r.test(t)]. *)
Definition test (r : regex) (t : string) : bool := searchFrom r None t.

(** [(k1|k2|...)]. *)
Fixpoint alts (kw : string) (kws : list string) : regex :=
  match kws with
  | [] => Lit kw
  | k :: ks => Alt (Lit kw) (alts k ks)
  end.

(** [/(^|\b)(k1|k2|...)(\b|$)/]. *)
Definition wordRegex (kw : string) (kws : list string) : regex :=
  Seq (Alt Bol WordB) (Seq (alts kw kws) (Alt WordB Eol)).

(** A keyword that starts and ends with a word character. *)
Definition wordy (kw : string) : bool :=
  isWordOpt (Str.firstChar kw) && isWordOpt (Str.lastChar kw).

(** [kw] occurs in [t] with no word character on either side. *)
Definition onWordBoundaries (kw t : string) : Prop :=
  exists pre post,
    t = pre ++ kw ++ post
    /\ isWordOpt (Str.lastChar pre) = false
    /\ isWordOpt (Str.firstChar post) = false.

(** Every occurrence of [kw] in [t] lies inside a longer word: a word
    character stands right before it or right after it. *)
Definition onlyInsideWords (kw t : string) : Prop :=
  forall pre post,
    t = pre ++ kw ++ post ->
    isWordOpt (Str.lastChar pre) = true \/ isWordOpt (Str.firstChar post) = true.

(** The decidable form of [onlyInsideWords]. *)
Definition onlyInsideWordsb (kw t : string) : bool :=
  forallb
    (fun pp => isWordOpt (Str.lastChar (fst pp)) || isWordOpt (Str.firstChar (snd pp)))
    (Str.occurrences kw t).

End Regex.

(** ** The RSVP classifier ([src/app.js], lines 228-234) *)

Inductive RsvpOutcome : Type := Confirmed | Declined | Maybe | Pending.

Module Classifier.
Import Regex.

(** [/(^|\b)(yes|attending|will attend)(\b|$)/] *)
Definition confirmedRegex : regex :=
  Seq (Alt Bol WordB)
      (Seq (Alt (Lit "yes") (Alt (Lit "attending") (Lit "will attend")))
           (Alt WordB Eol)).

(** [/(^|\b)(no|not attending|cannot attend)(\b|$)/] *)
Definition declinedRegex : regex :=
  Seq (Alt Bol WordB)
      (Seq (Alt (Lit "no") (Alt (Lit "not attending") (Lit "cannot attend")))
           (Alt WordB Eol)).

(** [/(^|\b)(maybe|possibly)(\b|$)/] *)
Definition maybeRegex : regex :=
  Seq (Alt Bol WordB)
      (Seq (Alt (Lit "maybe") (Lit "possibly")) (Alt WordB Eol)).

(** The [if / else if / else if] chain on the lower-cased text [t]. *)
Definition classifyLowered (t : string) : RsvpOutcome :=
  if test confirmedRegex t then Confirmed
  else if test declinedRegex t then Declined
  else if test maybeRegex t then Maybe
  else Pending.

(** [let rsvpStatus = "pending"; const t = messageText.toLowerCase(); ...] *)
Definition rsvpStatus (messageText : string) : RsvpOutcome :=
  classifyLowered (Str.toLowerCase messageText).

(** The three pattern groups, by the outcome they assign. *)
Inductive group : Type := GConfirmed | GDeclined | GMaybe.

Definition keywords (g : group) : list string :=
  match g with
  | GConfirmed => ["yes"; "attending"; "will attend"]
  | GDeclined => ["no"; "not attending"; "cannot attend"]
  | GMaybe => ["maybe"; "possibly"]
  end.

Definition regexOf (g : group) : regex :=
  match g with
  | GConfirmed => confirmedRegex
  | GDeclined => declinedRegex
  | GMaybe => maybeRegex
  end.

Definition outcomeOf (g : group) : RsvpOutcome :=
  match g with
  | GConfirmed => Confirmed
  | GDeclined => Declined
  | GMaybe => Maybe
  end.

(** The name of an outcome as stored in [rsvp_status]. *)
Definition outcomeName (o : RsvpOutcome) : string :=
  match o with
  | Confirmed => "confirmed"
  | Declined => "declined"
  | Maybe => "maybe"
  | Pending => "pending"
  end.

End Classifier.

(** ** JavaScript values

    Request bodies, query strings and collaborator replies are JSON-like
    values.  Numbers are the integers (the sources only test numbers for
    truthiness and read [length]); an object is the list of its own
    properties, a name's first binding being its value.  Properties
    inherited from the built-in prototypes are not modelled: none of the
    names the sources read ([entry], [changes], [value], [messages],
    [statuses], [text], [body], ...) is one, [length] apart. *)

Module Js.

Inductive value : Type :=
| VUndefined
| VNull
| VBool (b : bool)
| VNum (n : Z)
| VStr (s : string)
| VArr (items : list value)
| VObj (props : list (string * value)).

(** [!!v] *)
Definition truthy (v : value) : bool :=
  match v with
  | VUndefined | VNull => false
  | VBool b => b
  | VNum n => negb (n =? 0)%Z
  | VStr s => negb (Str.isEmpty s)
  | VArr _ | VObj _ => true
  end.

(** [v == null] *)
Definition nullish (v : value) : bool :=
  match v with VUndefined | VNull => true | _ => false end.

Fixpoint lookup (k : string) (ps : list (string * value)) : value :=
  match ps with
  | [] => VUndefined
  | (k', v) :: ps' => if String.eqb k k' then v else lookup k ps'
  end.

(** [v.k] for a [v] that is neither [undefined] nor [null]. *)
Definition prop (v : value) (k : string) : value :=
  match v with
  | VObj ps => lookup k ps
  | VArr l => if String.eqb k "length" then VNum (Z.of_nat (List.length l)) else VUndefined
  | VStr s => if String.eqb k "length" then VNum (Z.of_nat (String.length s)) else VUndefined
  | _ => VUndefined
  end.

(** [v[0]] for a [v] that is neither [undefined] nor [null]. *)
Definition first (v : value) : value :=
  match v with
  | VArr l => hd VUndefined l
  | VStr (String c _) => VStr (String c EmptyString)
  | VObj ps => lookup "0" ps
  | _ => VUndefined
  end.

(** [v?.k] *)
Definition optProp (v : value) (k : string) : value :=
  if nullish v then VUndefined else prop v k.

(** [v?.[0]] *)
Definition optFirst (v : value) : value :=
  if nullish v then VUndefined else first v.

(** [a || b] *)
Definition orElse (a b : value) : value := if truthy a then a else b.

(** [a === b] when one side is a primitive.  Arrays and objects compare
    by identity, and the sources only compare against strings and
    environment values, so a structured operand is never equal. *)
Definition strictEq (a b : value) : bool :=
  match a, b with
  | VUndefined, VUndefined => true
  | VNull, VNull => true
  | VBool x, VBool y => Bool.eqb x y
  | VNum x, VNum y => (x =? y)%Z
  | VStr x, VStr y => String.eqb x y
  | _, _ => false
  end.

(** The value of an environment variable: a string, or [undefined]. *)
Definition ofEnv (o : option string) : value :=
  match o with Some s => VStr s | None => VUndefined end.

Definition newline : string := String (ascii_of_nat 10) EmptyString.

(** The string a template literal makes of a value ([ToString]): an
    array is its items joined by commas, [null] and [undefined] items
    left empty; a plain object is shown by its placeholder.  Numbers are
    the integers a double holds exactly, which print with all their
    digits. *)
Fixpoint display (v : value) : string :=
  match v with
  | VUndefined => "undefined"
  | VNull => "null"
  | VBool true => "true"
  | VBool false => "false"
  | VNum n => NilZero.string_of_int (Z.to_int n)
  | VStr s => s
  | VArr items =>
      (fix join (l : list value) : string :=
         match l with
         | [] => ""
         | x :: rest =>
             (match x with VUndefined | VNull => "" | _ => display x end)
             ++ match rest with [] => "" | _ :: _ => "," ++ join rest end
         end) items
  | VObj _ => "[object Object]"
  end.

(** Exceptions: the [Error] objects the sources throw and catch. *)
Record JsError : Type := mkError {
  errName : string;
  errMessage : string;
  errResponseData : value   (* error.response?.data *)
}.

Definition Error (msg : string) : JsError := mkError "Error" msg VUndefined.
Definition TypeError (msg : string) : JsError := mkError "TypeError" msg VUndefined.

(** The message of V8 for [v.k] on [undefined] or [null]. *)
Definition cannotRead (v : value) (k : string) : JsError :=
  TypeError ("Cannot read properties of " ++ display v ++ " (reading '" ++ k ++ "')").

(** How an error object appears among the arguments of [console.error]. *)
Definition errorValue (e : JsError) : value :=
  VObj [("name", VStr (errName e)); ("message", VStr (errMessage e));
        ("response", VObj [("data", errResponseData e)])].

End Js.
Import Js.

(** ** Collaborators, effects and the handler monad *)

Inductive Result (A : Type) : Type :=
| Ok (a : A)
| Throw (e : JsError).
Arguments Ok {A} a.
Arguments Throw {A} e.

(** [axios.post(url, data, {headers})] *)
Record HttpRequest : Type := mkRequest {
  url : string;
  data : value;
  headers : list (string * string)
}.

(** The datastore calls the sources make through the Supabase client. *)
Inductive DbQuery : Type :=
| DbInsert (table : string) (rows : list value) (returning : bool)
    (* from(table).insert(rows), with .select() when [returning] *)
| DbSelectEq (table columns column : string) (v : value) (limit : Z)
    (* from(table).select(columns).eq(column, v).limit(limit) *)
| DbUpdateEq (table : string) (patch : value) (column : string) (v : value).
    (* from(table).update(patch).eq(column, v) *)

(** [{ data, error }] *)
Record DbReply : Type := mkReply { replyData : value; replyError : value }.

(** What a handler does to the outside, in order. *)
Inductive Event : Type :=
| EHttpPost (r : HttpRequest)
| EDb (q : DbQuery)
| ELog (level : string) (args : list value)   (* console.log / console.error *)
| ESleep (ms : Z).                            (* setTimeout *)

(** [res.status(status).send(body)] and [res.status(status).json(body)] *)
Record Response : Type := mkResponse { status : Z; body : value }.

(** [process.env] *)
Record Env : Type := mkEnv {
  WHATSAPP_PHONE_NUMBER_ID : option string;
  WHATSAPP_ACCESS_TOKEN : option string;
  WHATSAPP_BUSINESS_ACCOUNT_ID : option string;
  WHATSAPP_WEBHOOK_VERIFY_TOKEN : option string
}.

(** [getWhatsAppConfig()], the same in both sources. *)
Record Config : Type := mkConfig {
  phoneNumberId : value;
  accessToken : value;
  wabaId : value;
  webhookVerifyToken : value
}.

Definition getWhatsAppConfig (env : Env) : Config :=
  {| phoneNumberId := ofEnv (WHATSAPP_PHONE_NUMBER_ID env);
     accessToken := ofEnv (WHATSAPP_ACCESS_TOKEN env);
     wabaId := ofEnv (WHATSAPP_BUSINESS_ACCOUNT_ID env);
     webhookVerifyToken := ofEnv (WHATSAPP_WEBHOOK_VERIFY_TOKEN env) |}.

(** The outside world: the messaging provider, the datastore and the
    clock answer from a state of their own, which their answers may
    change.  A promise that rejects is a [Throw]. *)
Record Collaborators (World : Type) : Type := mkCollaborators {
  axiosPost : HttpRequest -> World -> Result value * World;
  supabase : DbQuery -> World -> Result DbReply * World;
  clock : World -> string * World      (* new Date().toISOString() *)
}.
Arguments axiosPost {World} _ _ _.
Arguments supabase {World} _ _ _.
Arguments clock {World} _ _.

Record State (World : Type) : Type := mkState {
  world : World;
  trace : list Event;
  sent : option Response       (* the response, once [res.send] has run *)
}.
Arguments mkState {World} _ _ _.
Arguments world {World} _.
Arguments trace {World} _.
Arguments sent {World} _.

Definition M (World A : Type) : Type := State World -> Result A * State World.

Section Monad.
Context {World : Type}.

Definition ret {A} (a : A) : M World A := fun st => (Ok a, st).

Definition bind {A B} (m : M World A) (k : A -> M World B) : M World B :=
  fun st =>
    match m st with
    | (Ok a, st') => k a st'
    | (Throw e, st') => (Throw e, st')
    end.

Definition throw {A} (e : JsError) : M World A := fun st => (Throw e, st).

(** [try { m } catch (e) { h e }]: what [m] did before it threw stays done. *)
Definition tryCatch {A} (m : M World A) (h : JsError -> M World A) : M World A :=
  fun st =>
    match m st with
    | (Ok a, st') => (Ok a, st')
    | (Throw e, st') => h e st'
    end.

Definition emit (e : Event) : M World unit :=
  fun st => (Ok tt, mkState (world st) (trace st ++ [e]) (sent st)).

Definition consoleLog (args : list value) : M World unit := emit (ELog "log" args).
Definition consoleError (args : list value) : M World unit := emit (ELog "error" args).

(** [await new Promise((r) => setTimeout(r, ms))] *)
Definition sleep (ms : Z) : M World unit := emit (ESleep ms).

(** [res.status(s).send(b)]; Express refuses a second response. *)
Definition send (s : Z) (b : value) : M World unit :=
  fun st =>
    match sent st with
    | None => (Ok tt, mkState (world st) (trace st) (Some (mkResponse s b)))
    | Some _ =>
        (Throw (Error "Cannot set headers after they are sent to the client"), st)
    end.

(** [res.headersSent] *)
Definition headersSent : M World bool :=
  fun st => (Ok (match sent st with Some _ => true | None => false end), st).

(** [v.k]: throws on [undefined] and [null]. *)
Definition getProp (v : value) (k : string) : M World value :=
  if nullish v then throw (cannotRead v k) else ret (prop v k).

(** [v[0]]: throws on [undefined] and [null]. *)
Definition getFirst (v : value) : M World value :=
  if nullish v then throw (cannotRead v "0") else ret (first v).

(** The items [for (const x of v)] visits; [what] is the source text of
    [v], for the message. *)
Definition iterate (what : string) (v : value) : M World (list value) :=
  match v with
  | VArr l => ret l
  | VStr s => ret (map VStr (Str.characters s))
  | _ => throw (TypeError (what ++ " is not iterable"))
  end.

Fixpoint forEach {A} (l : list A) (f : A -> M World unit) : M World unit :=
  match l with
  | [] => ret tt
  | x :: l' => bind (f x) (fun _ => forEach l' f)
  end.

(** [v.replace(pat, rep)] *)
Definition strReplace (what : string) (v : value) (pat rep : string) : M World string :=
  match v with
  | VStr s => ret (Str.replace pat rep s)
  | VUndefined | VNull => throw (cannotRead v "replace")
  | _ => throw (TypeError (what ++ ".replace is not a function"))
  end.

(** [v.toLowerCase()] *)
Definition strToLowerCase (what : string) (v : value) : M World string :=
  match v with
  | VStr s => ret (Str.toLowerCase s)
  | VUndefined | VNull => throw (cannotRead v "toLowerCase")
  | _ => throw (TypeError (what ++ ".toLowerCase is not a function"))
  end.

Variable ext : Collaborators World.

(** [await axios.post(...)], giving [response.data]. *)
Definition httpPost (r : HttpRequest) : M World value :=
  fun st =>
    let '(res, w) := axiosPost ext r (world st) in
    (res, mkState w (trace st ++ [EHttpPost r]) (sent st)).

(** [await supabase.from(...)...] *)
Definition dbQuery (q : DbQuery) : M World DbReply :=
  fun st =>
    let '(res, w) := supabase ext q (world st) in
    (res, mkState w (trace st ++ [EDb q]) (sent st)).

(** [new Date()], kept as its ISO string. *)
Definition newDate : M World string :=
  fun st =>
    let '(iso, w) := clock ext (world st) in
    (Ok iso, mkState w (trace st) (sent st)).

End Monad.

Notation "x <- m ;; k" := (bind m (fun x => k))
  (at level 61, m at next level, right associativity).
Notation "m ;;; k" := (bind m (fun _ => k))
  (at level 61, right associativity).

(** A handler run on a fresh request: nothing logged, nothing sent. *)
Definition fresh {World : Type} (w : World) : State World := mkState w [] None.

(** [entry?.[0]?.changes?.[0]?.value] below [body.entry], written the
    same way in both sources ([src/app.js] lines 193-195, the shared
    module lines 141-143). *)
Definition descend (entries : value) : value :=
  let entry := optFirst entries in
  let changes := optFirst (optProp entry "changes") in
  optProp changes "value".

(** [body.entry?.[0]?.changes?.[0]?.value] for a [body] that is neither
    [undefined] nor [null]. *)
Definition webhookValue (body : value) : value := descend (prop body "entry").

(** ** The HTTP entry point ([src/app.js]) *)

Module App.

Definition WHATSAPP_API_URL : string := "https://graph.facebook.com/v18.0".

Definition configMissing : JsError :=
  Error "WhatsApp configuration missing: phoneNumberId or accessToken".

Section Handlers.
Context {World : Type}.
Variable ext : Collaborators World.
Variable env : Env.

(** [sendTextMessage(to, message)], lines 33-57. *)
Definition sendTextMessage (to message : value) : M World value :=
  let config := getWhatsAppConfig env in
  if negb (truthy (phoneNumberId config)) || negb (truthy (accessToken config))
  then throw configMissing
  else
    stripped <- strReplace "to" to "whatsapp:" "" ;;
    let cleanPhoneNumber := Str.replace "+" "" stripped in
    let payload :=
      VObj [("messaging_product", VStr "whatsapp");
            ("to", VStr cleanPhoneNumber);
            ("text", VObj [("body", message)])] in
    httpPost ext
      (mkRequest
         (WHATSAPP_API_URL ++ "/" ++ display (phoneNumberId config) ++ "/messages")
         payload
         [("Authorization", "Bearer " ++ display (accessToken config));
          ("Content-Type", "application/json")]).

(** The body of the inner [try] of the bulk route, lines 115-137: send
    one message, record it, and give the entry pushed on [results]. *)
Definition sendAndRecord (msgData : value) : M World value :=
  to <- getProp msgData "to" ;;
  text <- getProp msgData "body" ;;
  whatsappResponse <- sendTextMessage to text ;;
  inviteeId <- getProp msgData "inviteeId" ;;
  templateId <- getProp msgData "templateId" ;;
  messageBody <- getProp msgData "body" ;;
  sentAt <- newDate ext ;;
  messages <- getProp whatsappResponse "messages" ;;
  reply <- dbQuery ext
    (DbInsert "message_history"
       [VObj [("invitee_id", orElse inviteeId VNull);
              ("template_id", orElse templateId VNull);
              ("message_body", messageBody);
              ("sent_at", VStr sentAt);
              ("status", VStr "sent");
              ("whatsapp_message_id",
               orElse (optProp (optFirst messages) "id") VNull)]]
       true) ;;
  (if truthy (replyError reply)
   then consoleError [VStr "DB insert error:"; replyError reply]
   else ret tt) ;;;
  to' <- getProp msgData "to" ;;
  messages' <- getProp whatsappResponse "messages" ;;
  ret (VObj [("to", to');
             ("whatsappMessageId", optProp (optFirst messages') "id");
             ("messageHistoryId", optProp (optFirst (replyData reply)) "id")]).

(** The [catch] of the inner [try], line 139: the entry pushed on [errors]. *)
Definition errorEntry (msgData : value) (e : JsError) : M World value :=
  to <- getProp msgData "to" ;;
  ret (VObj [("to", to); ("error", VStr (errMessage e))]).

(** The [for ... of] loop of the bulk route, lines 113-142, with the two
    arrays it pushes on. *)
Fixpoint bulkLoop (messages results errors : list value)
  : M World (list value * list value) :=
  match messages with
  | [] => ret (results, errors)
  | msgData :: rest =>
      acc <- tryCatch
               (entry <- sendAndRecord msgData ;; ret ((results ++ [entry])%list, errors))
               (fun e => entry <- errorEntry msgData e ;; ret (results, (errors ++ [entry])%list)) ;;
      sleep 1000 ;;;
      bulkLoop rest (fst acc) (snd acc)
  end.

(** [POST /api/send-bulk-messages], lines 108-147. *)
Definition postSendBulkMessages (reqBody : value) : M World unit :=
  tryCatch
    (messages <- getProp reqBody "messages" ;;
     items <- iterate "messages" messages ;;
     acc <- bulkLoop items [] [] ;;
     send 200 (VObj [("success", VBool true);
                     ("results", VArr (fst acc));
                     ("errors", VArr (snd acc))]))
    (fun e =>
       send 500 (VObj [("success", VBool false); ("error", VStr (errMessage e))])).

(** [GET /api/webhook-response], lines 174-184. *)
Definition getWebhookResponse (query : value) : M World unit :=
  mode <- getProp query "hub.mode" ;;
  token <- getProp query "hub.verify_token" ;;
  challenge <- getProp query "hub.challenge" ;;
  let config := getWhatsAppConfig env in
  if strictEq mode (VStr "subscribe") && strictEq token (webhookVerifyToken config)
  then consoleLog [VStr "Webhook verified successfully"] ;;; send 200 challenge
  else send 403 (VStr "Forbidden").

(** The object logged for one status entry, lines 199-206. *)
Definition statusRecord (s : value) : M World value :=
  id <- getProp s "id" ;;
  st <- getProp s "status" ;;
  timestamp <- getProp s "timestamp" ;;
  conversation <- getProp s "conversation" ;;
  pricing <- getProp s "pricing" ;;
  errors <- getProp s "errors" ;;
  ret (VObj [("id", id); ("status", st); ("timestamp", timestamp);
             ("conversation", conversation); ("pricing", pricing);
             ("errors", errors)]).

Definition logStatus (s : value) : M World unit :=
  r <- statusRecord s ;; consoleLog [VStr "WA status:"; r].

(** Lines 196-213: the status branch.  It answers [true] when it has
    sent the response and returned, [false] when control goes on to
    line 214. *)
Definition statusBranch (value : Js.value) : M World bool :=
  if negb (truthy value) || negb (truthy (prop value "messages")) then
    if truthy (optProp (optProp value "statuses") "length") then
      statuses <- iterate "value.statuses" (prop value "statuses") ;;
      forEach statuses logStatus ;;;
      send 200 (VStr "OK") ;;;
      ret true
    else ret false
  else ret false.

(** Lines 236-249: the update of the invitee, issued only for an
    outcome other than pending. *)
Definition updateInvitee (invitee : value) (rsvp : RsvpOutcome) (messageText : string)
  : M World unit :=
  match rsvp with
  | Pending => ret tt
  | _ =>
      info <- getProp invitee "additional_info" ;;
      note <- (if truthy info then
                 info' <- getProp invitee "additional_info" ;;
                 iso <- newDate ext ;;
                 ret (display info' ++ newline ++ iso ++ ": " ++ messageText)
               else
                 iso <- newDate ext ;;
                 ret (iso ++ ": " ++ messageText)) ;;
      updatedAt <- newDate ext ;;
      inviteeId <- getProp invitee "id" ;;
      dbQuery ext
        (DbUpdateEq "invitees"
           (VObj [("rsvp_status", VStr (Classifier.outcomeName rsvp));
                  ("additional_info", VStr note);
                  ("updated_at", VStr updatedAt)])
           "id" inviteeId) ;;;
      ret tt
  end.

(** Lines 214-265: the message branch. *)
Definition messageBranch (value : Js.value) : M World unit :=
  messages <- getProp value "messages" ;;
  message <- getFirst messages ;;
  contacts <- getProp value "contacts" ;;
  let contact := optFirst contacts in
  text <- getProp message "text" ;;
  let messageText := orElse (optProp text "body") (VStr "") in
  from <- getProp message "from" ;;
  messageId <- getProp message "id" ;;
  reply <- dbQuery ext (DbSelectEq "invitees" "*" "phone_number" from 1) ;;
  (if negb (truthy (replyError reply)) && truthy (optFirst (replyData reply)) then
     invitee <- getFirst (replyData reply) ;;
     t <- strToLowerCase "messageText" messageText ;;
     let rsvpStatus := Classifier.classifyLowered t in
     updateInvitee invitee rsvpStatus (display messageText) ;;;
     inviteeId <- getProp invitee "id" ;;
     sentAt <- newDate ext ;;
     receivedAt <- newDate ext ;;
     dbQuery ext
       (DbInsert "message_history"
          [VObj [("invitee_id", inviteeId);
                 ("message_body", messageText);
                 ("sent_at", VStr sentAt);
                 ("status", VStr "delivered");
                 ("response_received", VBool true);
                 ("response_text", messageText);
                 ("response_received_at", VStr receivedAt);
                 ("whatsapp_message_id", messageId)]]
          false) ;;;
     ret tt
   else ret tt) ;;;
  send 200 (VStr "OK").

(** [POST /api/webhook-response], lines 186-269. *)
Definition postWebhookResponse (reqBody : value) : M World unit :=
  iso <- newDate ext ;;
  let timestamp := String.substring 0 19 (Str.replace "T" " " iso) in
  consoleLog [VStr (newline ++ newline ++ "Webhook received " ++ timestamp ++ newline)] ;;;
  consoleLog [reqBody] ;;;
  tryCatch
    (if negb (truthy reqBody) then send 400 (VStr "Bad Request: Empty body")
     else
       let value := webhookValue reqBody in
       returned <- statusBranch value ;;
       if returned then ret tt else messageBranch value)
    (fun e =>
       already <- headersSent ;;
       if already then ret tt else send 500 (VStr "Error processing webhook")).

End Handlers.
End App.

(** ** The shared WhatsApp module *)

Module Lib.

Definition WHATSAPP_API_URL : string := "https://graph.facebook.com/v22.0".

Definition configMissing : JsError :=
  Error "WhatsApp configuration missing: phoneNumberId or accessToken".

(** The record [parseWebhookPayload] returns. *)
Record InboundMessage : Type := mkInbound {
  messageId : value;
  from : value;
  timestamp : value;
  type : value;
  text : value;
  contactName : value;
  waId : value
}.

Section Functions.
Context {World : Type}.
Variable ext : Collaborators World.
Variable env : Env.

(** [sendTextMessage(to, message)], lines 22-60. *)
Definition sendTextMessage (to message : value) : M World value :=
  let config := getWhatsAppConfig env in
  if negb (truthy (phoneNumberId config)) || negb (truthy (accessToken config))
  then throw configMissing
  else
    cleanPhoneNumber <- strReplace "to" to "whatsapp:" "" ;;
    let payload :=
      VObj [("messaging_product", VStr "whatsapp");
            ("to", VStr cleanPhoneNumber);
            ("type", VStr "text");
            ("text", VObj [("body", message)])] in
    (* the payload is logged as JSON text; the trace keeps the value *)
    consoleLog [VStr "Sending WhatsApp message:"; payload] ;;;
    tryCatch
      (httpPost ext
         (mkRequest
            (WHATSAPP_API_URL ++ "/" ++ display (phoneNumberId config) ++ "/messages")
            payload
            [("Authorization", "Bearer " ++ display (accessToken config));
             ("Content-Type", "application/json")]))
      (fun error =>
         consoleError
           [VStr "WhatsApp API Error:";
            orElse (errResponseData error) (VStr (errMessage error))] ;;;
         throw error).

(** [parseWebhookPayload(body)], lines 138-165; [null] is [None]. *)
Definition parseWebhookPayload (body : value) : M World (option InboundMessage) :=
  tryCatch
    (entries <- getProp body "entry" ;;
     let value := descend entries in
     if negb (truthy value) || negb (truthy (prop value "messages")) then ret None
     else
       messages <- getProp value "messages" ;;
       message <- getFirst messages ;;
       contacts <- getProp value "contacts" ;;
       let contact := optFirst contacts in
       id <- getProp message "id" ;;
       sender <- getProp message "from" ;;
       time <- getProp message "timestamp" ;;
       kind <- getProp message "type" ;;
       messageText <- getProp message "text" ;;
       ret (Some
              {| messageId := id;
                 from := sender;
                 timestamp := time;
                 type := kind;
                 text := orElse (optProp messageText "body") (VStr "");
                 contactName := orElse (optProp (optProp contact "profile") "name") (VStr "");
                 waId := orElse (optProp contact "wa_id") (prop message "from") |}))
    (fun error =>
       consoleError [VStr "Error parsing webhook payload:"; errorValue error] ;;;
       ret None).

End Functions.
End Lib.

(** ** Vocabulary of the statements *)

(** An environment variable that is not set, or set to the empty string:
    what [!config.x] accepts as missing. *)
Definition unset (o : option string) : Prop := o = None \/ o = Some "".

(** Both credentials pass the test of [sendTextMessage]. *)
Definition configured (env : Env) : bool :=
  truthy (phoneNumberId (getWhatsAppConfig env))
  && truthy (accessToken (getWhatsAppConfig env)).

(** Some link of [body.entry[0].changes[0].value] is [undefined] or
    [null]. *)
Definition linkMissing (body : value) : bool :=
  let entries := prop body "entry" in
  let entry := first entries in
  let changes := first (prop entry "changes") in
  nullish entries || nullish entry || nullish (prop entry "changes")
  || nullish changes || nullish (prop changes "value").

(** [messages[0]] of a webhook body, and the text the delivery route
    reads from it (line 216: [message.text?.body], or the empty string). *)
Definition inboundMessage (body : value) : value :=
  first (prop (webhookValue body) "messages").

Definition inboundText (body : value) : value :=
  orElse (optProp (prop (inboundMessage body) "text") "body") (VStr "").

(** The record of one status entry: the object logged at lines 199-206. *)
Definition statusUpdate (s : value) : value :=
  VObj [("id", prop s "id"); ("status", prop s "status");
        ("timestamp", prop s "timestamp");
        ("conversation", prop s "conversation");
        ("pricing", prop s "pricing"); ("errors", prop s "errors")].

(** The event [console.log("WA status:", r)]. *)
Definition statusLog (r : value) : Event := ELog "log" [VStr "WA status:"; r].

(** The status record an event logs, if it logs one. *)
Definition statusOf (e : Event) : option value :=
  match e with
  | ELog level [label; r] =>
      if String.eqb level "log" && strictEq label (VStr "WA status:")
      then Some r else None
  | _ => None
  end.

Definition requestOf (e : Event) : option HttpRequest :=
  match e with EHttpPost r => Some r | _ => None end.

Definition queryOf (e : Event) : option DbQuery :=
  match e with EDb q => Some q | _ => None end.

(** The events of a trace that [pick] selects, in order. *)
Definition picked {A : Type} (pick : Event -> option A) (tr : list Event) : list A :=
  flat_map (fun e => match pick e with Some a => [a] | None => [] end) tr.

(** The status records a trace logged, its HTTP requests and its
    datastore calls. *)
Definition statusUpdates (tr : list Event) : list value := picked statusOf tr.
Definition httpRequests (tr : list Event) : list HttpRequest := picked requestOf tr.
Definition dbQueries (tr : list Event) : list DbQuery := picked queryOf tr.

(** A datastore call that writes the [invitees] table. *)
Definition writesInvitees (e : Event) : bool :=
  match e with
  | EDb (DbUpdateEq table _ _ _) => String.eqb table "invitees"
  | EDb (DbInsert table _ _) => String.eqb table "invitees"
  | _ => false
  end.

(** An event that leaves the [invitees] table alone. *)
Definition noInviteeWrite (e : Event) : Prop := writesInvitees e = false.

(** The two request logs that open every run of the delivery route
    (lines 187-189). *)
Definition requestLogs {World : Type} (ext : Collaborators World)
  (body : value) (w : World) : list Event :=
  [ELog "log"
     [VStr (newline ++ newline ++ "Webhook received "
            ++ String.substring 0 19 (Str.replace "T" " " (fst (clock ext w)))
            ++ newline)];
   ELog "log" [body]].

(** The state a handler leaves, and the response it has sent. *)
Definition after {World A : Type} (m : M World A) (st : State World) : State World :=
  snd (m st).

Definition responseOf {World A : Type} (m : M World A) (w : World) : option Response :=
  sent (after m (fresh w)).

Definition eventsOf {World A : Type} (m : M World A) (w : World) : list Event :=
  trace (after m (fresh w)).

(** [m] keeps every state in relation [R] with the state it leaves. *)
Definition respects {World A : Type}
  (R : State World -> State World -> Prop) (m : M World A) : Prop :=
  forall st, R st (after m st).

(** [st'] has the trace of [st] and, after it, only events in [P]. *)
Definition extendsWith {World : Type} (P : Event -> Prop) (st st' : State World) : Prop :=
  exists evs, trace st' = (trace st ++ evs)%list /\ Forall P evs.

(** No response was sent between [st] and [st']. *)
Definition sameResponse {World : Type} (st st' : State World) : Prop :=
  sent st' = sent st.

(** A value returned by [m] from some state. *)
Definition returns {World A : Type} (m : M World A) (a : A) : Prop :=
  exists st st', m st = (Ok a, st').

Section BulkOutcomes.
Context {World : Type}.
Variable ext : Collaborators World.
Variable env : Env.

(** The fate of every message of a bulk request: each is sent and
    recorded in the state its predecessors left, one second after the
    previous one. *)
Fixpoint attempts (messages : list value) (st : State World)
  : list (value * Result value) :=
  match messages with
  | [] => []
  | msgData :: rest =>
      let '(r, st1) := App.sendAndRecord ext env msgData st in
      (msgData, r)
        :: attempts rest (mkState (world st1) (trace st1 ++ [ESleep 1000]) (sent st1))
  end.

End BulkOutcomes.

(** The entries of [results]: one per message that was sent. *)
Definition successes (outs : list (value * Result value)) : list value :=
  flat_map (fun o => match snd o with Ok entry => [entry] | Throw _ => [] end) outs.

(** The entries of [errors]: one per message whose sending threw. *)
Definition failures (outs : list (value * Result value)) : list value :=
  flat_map
    (fun o =>
       match snd o with
       | Ok _ => []
       | Throw e => [VObj [("to", prop (fst o) "to"); ("error", VStr (errMessage e))]]
       end)
    outs.

(** ** Sample collaborators and payloads *)

Module Sample.

Definition env : Env :=
  mkEnv (Some "1055") (Some "token-1") (Some "waba-1") (Some "s3cret").

(** The provider accepts every message but those for [15550000]; the
    datastore knows one invitee, whatever the phone number asked for. *)
Definition provider (r : HttpRequest) (w : unit) : Result value * unit :=
  match prop (data r) "to" with
  | VStr "15550000" =>
      (Throw (mkError "AxiosError" "Request failed with status code 400"
                (VObj [("error", VObj [("code", VNum 131026)])])), w)
  | _ => (Ok (VObj [("messages", VArr [VObj [("id", VStr "wamid.1")]])]), w)
  end.

Definition datastore (q : DbQuery) (w : unit) : Result DbReply * unit :=
  match q with
  | DbSelectEq _ _ _ _ _ =>
      (Ok (mkReply (VArr [VObj [("id", VNum 7); ("additional_info", VNull)]]) VNull), w)
  | DbInsert _ _ true => (Ok (mkReply (VArr [VObj [("id", VNum 41)]]) VNull), w)
  | _ => (Ok (mkReply VNull VNull), w)
  end.

Definition ext : Collaborators unit :=
  mkCollaborators unit provider datastore
    (fun w => ("2024-05-01T10:20:30.000Z", w)).

(** A webhook body around one [value] object. *)
Definition envelope (value : Js.value) : Js.value :=
  VObj [("object", VStr "whatsapp_business_account");
        ("entry", VArr [VObj [("id", VStr "1");
                              ("changes", VArr [VObj [("field", VStr "messages");
                                                      ("value", value)]])]])].

Definition textMessage (body : string) : Js.value :=
  envelope
    (VObj [("messaging_product", VStr "whatsapp");
           ("contacts", VArr [VObj [("profile", VObj [("name", VStr "Dana")]);
                                    ("wa_id", VStr "15551234")]]);
           ("messages", VArr [VObj [("from", VStr "15551234");
                                    ("id", VStr "wamid.9");
                                    ("timestamp", VStr "1714558830");
                                    ("type", VStr "text");
                                    ("text", VObj [("body", VStr body)])]])]).

Definition imageMessage : Js.value :=
  envelope
    (VObj [("messages", VArr [VObj [("from", VStr "15551234");
                                    ("id", VStr "wamid.10");
                                    ("timestamp", VStr "1714558831");
                                    ("type", VStr "image");
                                    ("image", VObj [("id", VStr "media-1")])]])]).

Definition statusEntry (id st : string) : Js.value :=
  VObj [("id", VStr id); ("status", VStr st); ("timestamp", VStr "1714558832");
        ("conversation", VObj [("id", VStr "c1")]);
        ("pricing", VObj [("billable", VBool true)])].

Definition twoStatuses : list Js.value :=
  [statusEntry "wamid.1" "sent"; statusEntry "wamid.1" "delivered"].

(** A status notification: [statuses], no [messages]. *)
Definition statusPayload : Js.value :=
  envelope (VObj [("statuses", VArr twoStatuses)]).

(** The same with an empty [messages] array beside [statuses]. *)
Definition statusPayloadEmptyMessages : Js.value :=
  envelope (VObj [("messages", VArr []); ("statuses", VArr twoStatuses)]).

Definition bulkRequest : Js.value :=
  VObj [("messages",
         VArr [VObj [("to", VStr "+15550000"); ("body", VStr "Hi A")];
               VObj [("to", VStr "whatsapp:+15551234"); ("body", VStr "Hi B")]])].

Definition verifyQuery (token : string) : Js.value :=
  VObj [("hub.mode", VStr "subscribe"); ("hub.verify_token", VStr token);
        ("hub.challenge", VStr "1158201444")].

End Sample.

(** ** The other routes of [src/app.js] *)

Module Routes.

Section Handlers.
Context {World : Type}.
Variable ext : Collaborators World.
Variable env : Env.

(** [error.response?.data?.error?.message || error.message], line 96. *)
Definition errorMessage (error : JsError) : value :=
  orElse (optProp (optProp (errResponseData error) "error") "message")
         (VStr (errMessage error)).

(** [error.response?.data?.error?.code || "UNKNOWN_ERROR"], line 97. *)
Definition errorCode (error : JsError) : value :=
  orElse (optProp (optProp (errResponseData error) "error") "code")
         (VStr "UNKNOWN_ERROR").

(** The body of the 500 answer of the single-send route, lines 98-103. *)
Definition failureBody (error : JsError) : value :=
  VObj [("success", VBool false);
        ("error", errorMessage error);
        ("errorCode", errorCode error);
        ("details", orElse (errResponseData error) VNull)].

(** [POST /api/send-message], lines 68-105. *)
Definition postSendMessage (reqBody : value) : M World unit :=
  tryCatch
    (to <- getProp reqBody "to" ;;
     text <- getProp reqBody "body" ;;
     whatsappResponse <- App.sendTextMessage ext env to text ;;
     inviteeId <- getProp reqBody "inviteeId" ;;
     templateId <- getProp reqBody "templateId" ;;
     sentAt <- newDate ext ;;
     messages <- getProp whatsappResponse "messages" ;;
     reply <- dbQuery ext
       (DbInsert "message_history"
          [VObj [("invitee_id", orElse inviteeId VNull);
                 ("template_id", orElse templateId VNull);
                 ("message_body", text);
                 ("sent_at", VStr sentAt);
                 ("status", VStr "delivered");
                 ("whatsapp_message_id",
                  orElse (optProp (optFirst messages) "id") VNull)]]
          true) ;;
     (if truthy (replyError reply)
      then consoleError [VStr "DB insert error:"; replyError reply]
      else ret tt) ;;;
     messages' <- getProp whatsappResponse "messages" ;;
     send 200
       (VObj [("success", VBool true);
              ("whatsappMessageId", optProp (optFirst messages') "id");
              ("messageHistoryId", optProp (optFirst (replyData reply)) "id");
              ("whatsappResponse", whatsappResponse)]))
    (fun error => send 500 (failureBody error)).

(** [throw error] of the error object of a datastore reply (line 166):
    the client's error objects carry a string [message], which is what
    the [catch] reads. *)
Definition datastoreError (error : value) : JsError :=
  mkError "PostgrestError" (display (prop error "message")) VUndefined.

(** [POST /api/schedule-message], lines 150-171. *)
Definition postScheduleMessage (reqBody : value) : M World unit :=
  tryCatch
    (to <- getProp reqBody "to" ;;
     text <- getProp reqBody "body" ;;
     scheduledDate <- getProp reqBody "scheduledDate" ;;
     inviteeId <- getProp reqBody "inviteeId" ;;
     templateId <- getProp reqBody "templateId" ;;
     createdAt <- newDate ext ;;
     reply <- dbQuery ext
       (DbInsert "scheduled_messages"
          [VObj [("to", to);
                 ("body", text);
                 ("invitee_id", orElse inviteeId VNull);
                 ("template_id", orElse templateId VNull);
                 ("scheduled_date", scheduledDate);
                 ("created_at", VStr createdAt)]]
          true) ;;
     if truthy (replyError reply) then throw (datastoreError (replyError reply))
     else
       row <- getFirst (replyData reply) ;;
       id <- getProp row "id" ;;
       send 200 (VObj [("success", VBool true); ("scheduledMessageId", id)]))
    (fun e =>
       send 500 (VObj [("success", VBool false); ("error", VStr (errMessage e))])).

End Handlers.
End Routes.

(** ** Template messages (the shared module, lines 65-120) *)

Module Templates.

Section Functions.
Context {World : Type}.
Variable ext : Collaborators World.
Variable env : Env.

(** [templateParams.map((param) => ({ type: "text", text: param }))] *)
Definition textParameter (param : value) : value :=
  VObj [("type", VStr "text"); ("text", param)].

(** The [components] of the payload, lines 85-96. *)
Definition components (templateParams : list value) : value :=
  if (0 <? Z.of_nat (List.length templateParams))%Z
  then VArr [VObj [("type", VStr "body");
                   ("parameters", VArr (map textParameter templateParams))]]
  else VArr [].

(** [sendTemplateMessage(to, templateName, templateParams = [])].  The
    third argument is an array, or is left out ([None]). *)
Definition sendTemplateMessage (to templateName : value)
  (templateParams : option (list value)) : M World value :=
  let templateParams := match templateParams with Some ps => ps | None => [] end in
  let config := getWhatsAppConfig env in
  if negb (truthy (phoneNumberId config)) || negb (truthy (accessToken config))
  then throw Lib.configMissing
  else
    cleanPhoneNumber <- strReplace "to" to "whatsapp:" "" ;;
    let payload :=
      VObj [("messaging_product", VStr "whatsapp");
            ("to", VStr cleanPhoneNumber);
            ("type", VStr "template");
            ("template",
             VObj [("name", templateName);
                   ("language", VObj [("code", VStr "en_US")]);
                   ("components", components templateParams)])] in
    tryCatch
      (httpPost ext
         (mkRequest
            (Lib.WHATSAPP_API_URL ++ "/" ++ display (phoneNumberId config) ++ "/messages")
            payload
            [("Authorization", "Bearer " ++ display (accessToken config));
             ("Content-Type", "application/json")]))
      (fun error =>
         consoleError
           [VStr "WhatsApp Template API Error:";
            orElse (errResponseData error) (VStr (errMessage error))] ;;;
         throw error).

End Functions.
End Templates.

(** ** The CORS helper ([src/app.js], appended source, lines 275-308)

    The response object here is its own small state: the headers set
    through [res.setHeader], kept under their lower-cased names as Node
    does, and the response once sent.  Headers the framework adds on its
    own when it sends are not part of it. *)

Module Utils.

Record Res : Type := mkRes {
  resHeaders : list (string * string);
  resSent : option Response
}.

Definition corsHeaders : list (string * string) :=
  [("Access-Control-Allow-Origin", "*");
   ("Access-Control-Allow-Methods", "GET, POST, PUT, DELETE, OPTIONS");
   ("Access-Control-Allow-Headers", "Content-Type, Authorization")].

Definition headersAlreadySent : JsError :=
  Error "Cannot set headers after they are sent to the client".

Fixpoint findHeader (key : string) (hs : list (string * string)) : option string :=
  match hs with
  | [] => None
  | (k, v) :: hs' => if String.eqb key k then Some v else findHeader key hs'
  end.

(** [res.getHeader(name)] *)
Definition getHeader (name : string) (res : Res) : option string :=
  findHeader (Str.toLowerCase name) (resHeaders res).

(** [res.setHeader(name, value)]: replaces the header of that name. *)
Definition setHeader (name value : string) (res : Res) : Result unit * Res :=
  match resSent res with
  | Some _ => (Throw headersAlreadySent, res)
  | None =>
      (Ok tt,
       mkRes ((Str.toLowerCase name, value)
                :: filter (fun h => negb (String.eqb (Str.toLowerCase name) (fst h)))
                     (resHeaders res))
             None)
  end.

Section Framework.

(** The headers the framework adds of its own when it sends a JSON
    body (content type, length and the like). *)
Variable framing : list (string * string) -> list (string * string).

(** [res.status(s).json(b)] *)
Definition json (s : Z) (b : value) (res : Res) : Result unit * Res :=
  match resSent res with
  | Some _ => (Throw headersAlreadySent, res)
  | None => (Ok tt, mkRes (framing (resHeaders res)) (Some (mkResponse s b)))
  end.

(** [Object.keys(headers).forEach((key) => res.setHeader(key, headers[key]))] *)
Fixpoint setHeaders (headers : list (string * string)) (res : Res) : Result unit * Res :=
  match headers with
  | [] => (Ok tt, res)
  | (key, v) :: rest =>
      match setHeader key v res with
      | (Ok _, res') => setHeaders rest res'
      | (Throw e, res') => (Throw e, res')
      end
  end.

(** [handleCors(req, res)], on [req.method]. *)
Definition handleCors (method : value) (res : Res) : Result bool * Res :=
  if strictEq method (VStr "OPTIONS") then
    match json 200 (VObj []) res with
    | (Ok _, res') => (Ok true, res')
    | (Throw e, res') => (Throw e, res')
    end
  else
    match setHeaders corsHeaders res with
    | (Ok _, res') => (Ok false, res')
    | (Throw e, res') => (Throw e, res')
    end.

End Framework.

(** The names of the CORS headers, as the response stores them. *)
Definition corsNames : list string :=
  map (fun h => Str.toLowerCase (fst h)) corsHeaders.

(** A framework that leaves the CORS headers alone. *)
Definition keepsCors (framing : list (string * string) -> list (string * string)) : Prop :=
  forall hs key, In key corsNames -> findHeader key (framing hs) = findHeader key hs.

End Utils.

(** ** More vocabulary *)

(** A response has been sent, with a status among [codes]. *)
Definition answered {World : Type} (codes : list Z) (st : State World) : Prop :=
  exists r, sent st = Some r /\ In (status r) codes.

(** Between [st] and [st'] the response is untouched, or one with a
    status among [codes] has been sent. *)
Definition mayAnswer {World : Type} (codes : list Z) (st st' : State World) : Prop :=
  sent st' = sent st \/ answered codes st'.

Definition isHttp (e : Event) : bool :=
  match e with EHttpPost _ => true | _ => false end.

Definition isDb (e : Event) : bool :=
  match e with EDb _ => true | _ => false end.

Definition isSleep (e : Event) : bool :=
  match e with ESleep _ => true | _ => false end.

(** What a bulk run does towards the provider, in order: the
    destination of a request, or the length of a pause. *)
Definition dispatchOf (e : Event) : option (value + Z) :=
  match e with
  | EHttpPost r => Some (inl (prop (data r) "to"))
  | ESleep ms => Some (inr ms)
  | _ => None
  end.

Definition dispatches (tr : list Event) : list (value + Z) := picked dispatchOf tr.

(** The entry of [errors] for a message that could not be sent because
    the credentials are missing. *)
Definition unconfiguredEntry (msgData : value) : value :=
  VObj [("to", prop msgData "to"); ("error", VStr (errMessage App.configMissing))].

(** A request body with the given [messages]. *)
Definition bulkOf (messages : list value) : value :=
  VObj [("messages", VArr messages)].

(** Some keyword of the group [g] occurs in [t] on word boundaries. *)
Definition mentions (g : Classifier.group) (t : string) : Prop :=
  exists k, In k (Classifier.keywords g) /\ Regex.onWordBoundaries k t.

(** From a state in which nothing was sent, [m] either returns with [Q]
    or throws with still nothing sent. *)
Definition ensures {World A : Type} (m : M World A) (Q : A -> State World -> Prop) : Prop :=
  forall st,
    sent st = None ->
    match m st with
    | (Ok a, st') => Q a st'
    | (Throw _, st') => sent st' = None
    end.

(** The destination the entry point's [sendTextMessage] posts for a
    message whose [to] is a string. *)
Definition cleanedTo (msgData : value) : value :=
  match prop msgData "to" with
  | VStr s => VStr (Str.replace "+" "" (Str.replace "whatsapp:" "" s))
  | _ => VUndefined
  end.

(** A message of a bulk request whose [to] is a string. *)
Definition addressed (msgData : value) : Prop := exists s, prop msgData "to" = VStr s.


(** The datastore call of the single-send route after a send that the
    provider answered with [whatsappResponse], made at [sentAt]. *)
Definition recordInsert (reqBody whatsappResponse : value) (sentAt : string) : DbQuery :=
  DbInsert "message_history"
    [VObj [("invitee_id", orElse (prop reqBody "inviteeId") VNull);
           ("template_id", orElse (prop reqBody "templateId") VNull);
           ("message_body", prop reqBody "body");
           ("sent_at", VStr sentAt);
           ("status", VStr "delivered");
           ("whatsapp_message_id",
            orElse (optProp (optFirst (prop whatsappResponse "messages")) "id") VNull)]]
    true.

(** The datastore call of the schedule route for a request received at
    [createdAt]. *)
Definition scheduleInsert (reqBody : value) (createdAt : string) : DbQuery :=
  DbInsert "scheduled_messages"
    [VObj [("to", prop reqBody "to");
           ("body", prop reqBody "body");
           ("invitee_id", orElse (prop reqBody "inviteeId") VNull);
           ("template_id", orElse (prop reqBody "templateId") VNull);
           ("scheduled_date", prop reqBody "scheduledDate");
           ("created_at", VStr createdAt)]]
    true.

(** More sample collaborators. *)
Module Sample2.

(** A datastore that knows no invitee. *)
Definition strangers (q : DbQuery) (w : unit) : Result DbReply * unit :=
  match q with
  | DbSelectEq _ _ _ _ _ => (Ok (mkReply (VArr []) VNull), w)
  | _ => (Ok (mkReply VNull VNull), w)
  end.

Definition extStrangers : Collaborators unit :=
  mkCollaborators unit Sample.provider strangers
    (fun w => ("2024-05-01T10:20:30.000Z", w)).

(** A datastore that answers every call with an error. *)
Definition refusing (q : DbQuery) (w : unit) : Result DbReply * unit :=
  (Ok (mkReply VNull (VObj [("message", VStr "permission denied")])), w).

Definition extRefusing : Collaborators unit :=
  mkCollaborators unit Sample.provider refusing
    (fun w => ("2024-05-01T10:20:30.000Z", w)).

Definition noCredentials : Env := mkEnv None None None (Some "s3cret").

Definition sendRequest (to : string) : value :=
  VObj [("to", VStr to); ("body", VStr "See you there"); ("inviteeId", VNum 7)].

Definition scheduleRequest : value :=
  VObj [("to", VStr "+15551234"); ("body", VStr "Reminder");
        ("scheduledDate", VStr "2024-06-01T09:00:00Z")].

Definition textMessageNoContact : value :=
  Sample.envelope
    (VObj [("messages", VArr [VObj [("from", VStr "15551234");
                                    ("id", VStr "wamid.11");
                                    ("timestamp", VStr "1714558833");
                                    ("type", VStr "text");
                                    ("text", VObj [("body", VStr "maybe")])]])]).

Definition emptyMessages : value :=
  Sample.envelope (VObj [("messages", VArr [])]).

(** A framework that adds the content type to a JSON answer. *)
Definition jsonFraming (hs : list (string * string)) : list (string * string) :=
  ("content-type", "application/json; charset=utf-8") :: hs.

End Sample2.

(** * Properties *)

(** ** Strings *)

Lemma stripPrefix_sound :
  forall p s r, Str.stripPrefix p s = Some r -> s = p ++ r.
Proof.
  induction p as [|a p IH]; intros s r H; simpl in *.
  - now inversion H.
  - destruct s as [|b s]; [discriminate|].
    destruct (Ascii.eqb_spec a b); [|discriminate].
    subst b. f_equal. now apply IH.
Qed.

Lemma stripPrefix_app :
  forall p r, Str.stripPrefix p (p ++ r) = Some r.
Proof.
  induction p as [|a p IH]; intros r; simpl; [reflexivity|].
  rewrite Ascii.eqb_refl. apply IH.
Qed.

Lemma lastCharOr_cons :
  forall prev c pre,
    Str.lastCharOr prev (String c pre) = Str.lastCharOr (Some c) pre.
Proof.
  intros prev c pre. unfold Str.lastCharOr. simpl.
  now destruct (Str.lastChar pre).
Qed.

Lemma lastChar_nonempty :
  forall c s, exists d, Str.lastChar (String c s) = Some d.
Proof.
  intros c s. revert c.
  induction s as [|e s IH]; intros c; simpl.
  - now exists c.
  - destruct (IH e) as [d Hd]. simpl in Hd. rewrite Hd. now exists d.
Qed.

Lemma occurrences_complete :
  forall kw pre post, In (pre, post) (Str.occurrences kw (pre ++ kw ++ post)).
Proof.
  intros kw pre post. induction pre as [|c pre IH].
  - simpl "++" at 1. destruct kw as [|a kw]; simpl.
    + destruct post; simpl; now left.
    + rewrite Ascii.eqb_refl, stripPrefix_app. now left.
  - change (String c pre ++ kw ++ post) with (String c (pre ++ kw ++ post)).
    cbn [Str.occurrences]. apply in_or_app. right.
    apply in_map_iff. exists (pre, post). split; [reflexivity | exact IH].
Qed.

Lemma onlyInsideWordsb_sound :
  forall kw t, Regex.onlyInsideWordsb kw t = true -> Regex.onlyInsideWords kw t.
Proof.
  intros kw t H pre post E. subst t.
  unfold Regex.onlyInsideWordsb in H. rewrite forallb_forall in H.
  specialize (H _ (occurrences_complete kw pre post)). simpl in H.
  now apply orb_true_iff in H.
Qed.

(** ** Regular expressions *)

Section RegexFacts.
Import Regex.

Lemma nonempty_iff :
  forall (A : Type) (l : list A),
    match l with [] => false | _ :: _ => true end = true <-> exists x, In x l.
Proof.
  intros A [|x l]; split.
  - discriminate.
  - intros [x []].
  - intros _. exists x. now left.
  - reflexivity.
Qed.

Lemma searchFrom_true_iff :
  forall r rest prev,
    searchFrom r prev rest = true <->
    exists pre post,
      rest = pre ++ post /\ matchesAt r (Str.lastCharOr prev pre, post) = true.
Proof.
  intros r. induction rest as [|c rest IH]; intros prev; cbn [searchFrom].
  - rewrite orb_false_r. split.
    + intros H. now exists "", "".
    + intros (pre & post & E & H).
      destruct pre; [|discriminate]. simpl in E. now subst post.
  - rewrite orb_true_iff, IH. split.
    + intros [H | (pre & post & E & H)].
      * now exists "", (String c rest).
      * exists (String c pre), post. split; [simpl; now rewrite E|].
        now rewrite lastCharOr_cons.
    + intros (pre & post & E & H). destruct pre as [|d pre].
      * left. simpl in E. now subst post.
      * right. simpl in E. inversion E; subst.
        exists pre, post. split; [reflexivity|].
        now rewrite <- lastCharOr_cons with (prev := prev).
Qed.

Lemma matchesAt_Seq :
  forall a b c,
    matchesAt (Seq a b) c = true <->
    exists c', In c' (matchFrom a c) /\ matchesAt b c' = true.
Proof.
  intros a b c. unfold matchesAt. cbn [matchFrom]. rewrite nonempty_iff. split.
  - intros [x Hx]. apply in_flat_map in Hx. destruct Hx as (c' & H1 & H2).
    exists c'. split; [exact H1|]. apply nonempty_iff. now exists x.
  - intros (c' & H1 & H2). apply nonempty_iff in H2. destruct H2 as [x Hx].
    exists x. apply in_flat_map. now exists c'.
Qed.

Lemma matchFrom_start :
  forall c c',
    In c' (matchFrom (Alt Bol WordB) c) <->
    c' = c /\ (fst c = None \/ wordBoundary (fst c) (Str.firstChar (snd c)) = true).
Proof.
  intros [p s] c'. cbn [matchFrom fst snd]. rewrite in_app_iff. split.
  - intros [H | H].
    + destruct p; [destruct H|]. destruct H as [<- | []]. auto.
    + destruct (wordBoundary p (Str.firstChar s)) eqn:E; [|destruct H].
      destruct H as [<- | []]. auto.
  - intros [-> [-> | H]].
    + left. now left.
    + right. rewrite H. now left.
Qed.

Lemma matchFrom_alts :
  forall kws kw c c',
    In c' (matchFrom (alts kw kws) c) <->
    exists k rest,
      In k (kw :: kws) /\ Str.stripPrefix k (snd c) = Some rest
      /\ c' = (Str.lastCharOr (fst c) k, rest).
Proof.
  assert (L : forall k c c',
             In c' (matchFrom (Lit k) c) <->
             exists rest, Str.stripPrefix k (snd c) = Some rest
                          /\ c' = (Str.lastCharOr (fst c) k, rest)).
  { intros k c c'. cbn [matchFrom].
    destruct (Str.stripPrefix k (snd c)) as [rest|]; split.
    - intros [<- | []]. now exists rest.
    - intros (rest' & E & ->). inversion E. now left.
    - intros [].
    - intros (rest' & E & _). discriminate. }
  induction kws as [|k' kws IH]; intros kw c c'.
  - cbn [alts]. rewrite L. split.
    + intros (rest & H1 & H2). exists kw, rest. split; [now left | auto].
    + intros (k & rest & [<- | []] & H1 & H2). now exists rest.
  - cbn [alts].
    change (matchFrom (Alt (Lit kw) (alts k' kws)) c)
      with (matchFrom (Lit kw) c ++ matchFrom (alts k' kws) c)%list.
    rewrite in_app_iff, L, IH. split.
    + intros [(rest & H1 & H2) | (k & rest & Hin & H1 & H2)].
      * exists kw, rest. split; [now left | auto].
      * exists k, rest. split; [now right | auto].
    + intros (k & rest & [<- | Hin] & H1 & H2).
      * left. now exists rest.
      * right. now exists k, rest.
Qed.

Lemma matchesAt_end :
  forall c,
    matchesAt (Alt WordB Eol) c = true <->
    wordBoundary (fst c) (Str.firstChar (snd c)) = true \/ snd c = "".
Proof.
  intros [p s]. unfold matchesAt. cbn [matchFrom fst snd].
  destruct (wordBoundary p (Str.firstChar s)); simpl.
  - split; auto.
  - destruct s; simpl; split; auto; intros [H | H]; discriminate.
Qed.

(** A keyword pattern matches at a cursor exactly when a keyword stands
    there with no word character on either side. *)
Lemma matchesAt_wordRegex :
  forall kw kws p s,
    Forall (fun k => wordy k = true) (kw :: kws) ->
    (matchesAt (wordRegex kw kws) (p, s) = true <->
     isWordOpt p = false
     /\ exists k post,
         In k (kw :: kws) /\ s = k ++ post
         /\ isWordOpt (Str.firstChar post) = false).
Proof.
  intros kw kws p s W. rewrite Forall_forall in W.
  assert (K : forall k, In k (kw :: kws) ->
                exists a k' b, k = String a k' /\ isWordChar a = true
                               /\ Str.lastChar k = Some b /\ isWordChar b = true).
  { intros k Hk. specialize (W k Hk). unfold wordy in W.
    apply andb_true_iff in W. destruct W as [W1 W2].
    destruct k as [|a k']; [discriminate|].
    destruct (lastChar_nonempty a k') as [b Hb].
    exists a, k', b. rewrite Hb in W2. auto. }
  unfold wordRegex. rewrite matchesAt_Seq. split.
  - intros (c1 & H1 & H2). apply matchFrom_start in H1. destruct H1 as [-> H1].
    apply matchesAt_Seq in H2. destruct H2 as (c2 & H2 & H3).
    apply matchFrom_alts in H2. destruct H2 as (k & rest & Hin & Hs & ->).
    cbn [fst snd] in *. apply stripPrefix_sound in Hs. subst s.
    destruct (K k Hin) as (a & k' & b & -> & Ha & Hb & Hb').
    apply matchesAt_end in H3. cbn [fst snd] in H3.
    unfold Str.lastCharOr in H3. rewrite Hb in H3.
    unfold wordBoundary in *. cbn [Str.firstChar String.append isWordOpt] in *.
    rewrite Ha in H1. rewrite Hb' in H3. split.
    + destruct H1 as [-> | H1]; [reflexivity|].
      now destruct (isWordOpt p).
    + exists (String a k'), rest. repeat split; [exact Hin|].
      destruct H3 as [H3 | ->]; [|reflexivity].
      now destruct (isWordOpt (Str.firstChar rest)).
  - intros (Hp & k & post & Hin & -> & Hpost).
    destruct (K k Hin) as (a & k' & b & -> & Ha & Hb & Hb').
    exists (p, String a k' ++ post). split.
    + apply matchFrom_start. split; [reflexivity|]. right.
      unfold wordBoundary. cbn [fst snd Str.firstChar String.append isWordOpt].
      now rewrite Hp, Ha.
    + apply matchesAt_Seq. exists (Str.lastCharOr p (String a k'), post). split.
      * apply matchFrom_alts. exists (String a k'), post.
        repeat split; [exact Hin|]. cbn [fst snd]. apply stripPrefix_app.
      * apply matchesAt_end. left. cbn [fst snd].
        unfold Str.lastCharOr. rewrite Hb. unfold wordBoundary.
        cbn [isWordOpt]. now rewrite Hb', Hpost.
Qed.

(** [test] on a keyword pattern: some keyword occurs on word boundaries. *)
Lemma test_wordRegex :
  forall kw kws t,
    Forall (fun k => wordy k = true) (kw :: kws) ->
    (test (wordRegex kw kws) t = true <->
     exists k, In k (kw :: kws) /\ onWordBoundaries k t).
Proof.
  intros kw kws t W. unfold test. rewrite searchFrom_true_iff. split.
  - intros (pre & post & -> & H). apply (matchesAt_wordRegex kw kws _ _ W) in H.
    destruct H as (Hp & k & post' & Hin & -> & Hpost).
    exists k. split; [exact Hin|]. exists pre, post'.
    unfold Str.lastCharOr in Hp. split; [reflexivity|]. split; [|exact Hpost].
    now destruct (Str.lastChar pre).
  - intros (k & Hin & pre & post & -> & Hpre & Hpost).
    exists pre, (k ++ post). split; [reflexivity|].
    apply (matchesAt_wordRegex kw kws _ _ W). split.
    + unfold Str.lastCharOr. now destruct (Str.lastChar pre).
    + now exists k, post.
Qed.

End RegexFacts.

(** ** The classifier *)

(** Each pattern of the classifier matches exactly the texts in which
    one of its keywords occurs on word boundaries. *)
Lemma test_group :
  forall g t,
    Regex.test (Classifier.regexOf g) t = true <->
    exists k, In k (Classifier.keywords g) /\ Regex.onWordBoundaries k t.
Proof.
  intros g t. destruct g; cbn [Classifier.keywords].
  - apply (test_wordRegex "yes" ["attending"; "will attend"]); repeat constructor.
  - apply (test_wordRegex "no" ["not attending"; "cannot attend"]); repeat constructor.
  - apply (test_wordRegex "maybe" ["possibly"]); repeat constructor.
Qed.

(** The sample classifications of the four outcomes. *)
Example classify_examples :
  Classifier.rsvpStatus "Yes I will be there" = Confirmed
  /\ Classifier.rsvpStatus "no thanks" = Declined
  /\ Classifier.rsvpStatus "maybe next time" = Maybe
  /\ Classifier.rsvpStatus "see you soon" = Pending
  /\ Classifier.rsvpStatus "" = Pending.
Proof. repeat split. Qed.

(** A text is visited character by character, and an array is shown
    item by item. *)
Lemma characters_example :
  Str.characters ("a" ++ Str.capitalDottedI ++ "b" ++ Str.kelvinSign)
  = ["a"; Str.capitalDottedI; "b"; Str.kelvinSign].
Proof. reflexivity. Qed.

Lemma display_array_example :
  display (VArr [VNum 1; VArr [VStr "a"; VNull]; VUndefined; VObj []])
  = "1,a,,,[object Object]".
Proof. reflexivity. Qed.

(** Lower-casing goes through a text from left to right: an ASCII
    character is lowered by itself, the two characters whose lower case
    has an ASCII letter are lowered as a whole. *)
Lemma toLowerCase_ascii :
  forall c s,
    (nat_of_ascii c < 128)%nat ->
    Str.toLowerCase (String c s) = String (Str.lowerChar c) (Str.toLowerCase s).
Proof.
  intros c s H. cbn [Str.toLowerCase]. unfold Str.lowerCons.
  cbn [Str.stripPrefix Str.capitalDottedI Str.kelvinSign].
  destruct (Ascii.eqb_spec "196" c) as [<- | _]; [vm_compute in H; lia|].
  destruct (Ascii.eqb_spec "226" c) as [<- | _]; [vm_compute in H; lia|].
  reflexivity.
Qed.

Lemma toLowerCase_capitalDottedI :
  forall s,
    Str.toLowerCase (Str.capitalDottedI ++ s) = Str.smallDottedI ++ Str.toLowerCase s.
Proof. intros s. reflexivity. Qed.

Lemma toLowerCase_kelvinSign :
  forall s, Str.toLowerCase (Str.kelvinSign ++ s) = String "k" (Str.toLowerCase s).
Proof. intros s. reflexivity. Qed.

(** Lower-casing can put a letter right after a keyword: the capital
    dotted I after "yes" leaves "no" to decide, the Kelvin sign after
    "yes" leaves nothing. *)
Lemma lowering_can_join_a_keyword :
  Classifier.rsvpStatus ("yes" ++ Str.capitalDottedI ++ " no") = Declined
  /\ Classifier.rsvpStatus ("yes" ++ Str.kelvinSign) = Pending
  /\ Classifier.rsvpStatus ("not attending" ++ Str.capitalDottedI) = Pending.
Proof. repeat split. Qed.

(** C3. A text whose lower-cased form has a confirmed keyword and a
    declined keyword, each on word boundaries, is classified confirmed:
    the declined pattern matches too, but the confirmed pattern is tested
    first; "yes but no" is such a text. *)
Theorem confirm_wins_over_decline :
  forall text kc kd,
    In kc (Classifier.keywords Classifier.GConfirmed) ->
    Regex.onWordBoundaries kc (Str.toLowerCase text) ->
    In kd (Classifier.keywords Classifier.GDeclined) ->
    Regex.onWordBoundaries kd (Str.toLowerCase text) ->
    Regex.test Classifier.declinedRegex (Str.toLowerCase text) = true
    /\ Classifier.rsvpStatus text = Confirmed.
Proof.
  intros text kc kd Hc Oc Hd Od. split.
  - apply (test_group Classifier.GDeclined). now exists kd.
  - unfold Classifier.rsvpStatus, Classifier.classifyLowered.
    assert (T : Regex.test Classifier.confirmedRegex (Str.toLowerCase text) = true).
    { apply (test_group Classifier.GConfirmed). now exists kc. }
    now rewrite T.
Qed.

Lemma confirm_wins_over_decline_example :
  Regex.onWordBoundaries "yes" (Str.toLowerCase "yes but no")
  /\ Regex.onWordBoundaries "no" (Str.toLowerCase "yes but no")
  /\ Classifier.rsvpStatus "yes but no" = Confirmed.
Proof.
  assert (Oc : Regex.onWordBoundaries "yes" (Str.toLowerCase "yes but no")).
  { exists "", " but no". repeat split. }
  assert (Od : Regex.onWordBoundaries "no" (Str.toLowerCase "yes but no")).
  { exists "yes but ", "". repeat split. }
  split; [exact Oc|]. split; [exact Od|].
  apply (confirm_wins_over_decline "yes but no" "yes" "no").
  - simpl. auto.
  - exact Oc.
  - simpl. auto.
  - exact Od.
Defined.

(** C4. A pattern group whose keywords occur in the lower-cased text
    only inside longer words (a word character right before or right
    after every occurrence) does not match, so the text does not get that
    group's outcome; in "yesterday is a day" the keyword "yes" only
    occurs that way, and the text ends pending. *)
Theorem keyword_inside_word_no_match :
  forall g text,
    (forall kw, In kw (Classifier.keywords g) ->
                Regex.onlyInsideWords kw (Str.toLowerCase text)) ->
    Regex.test (Classifier.regexOf g) (Str.toLowerCase text) = false
    /\ Classifier.rsvpStatus text <> Classifier.outcomeOf g.
Proof.
  intros g text H.
  assert (T : Regex.test (Classifier.regexOf g) (Str.toLowerCase text) = false).
  { apply not_true_is_false. intros M. apply test_group in M.
    destruct M as (k & Hin & pre & post & E & Hpre & Hpost).
    destruct (H k Hin pre post E) as [W | W]; congruence. }
  split; [exact T|].
  unfold Classifier.rsvpStatus, Classifier.classifyLowered.
  destruct g; cbn [Classifier.regexOf Classifier.outcomeOf] in *.
  - rewrite T.
    destruct (Regex.test Classifier.declinedRegex _);
      [|destruct (Regex.test Classifier.maybeRegex _)]; discriminate.
  - rewrite T.
    destruct (Regex.test Classifier.confirmedRegex _);
      [|destruct (Regex.test Classifier.maybeRegex _)]; discriminate.
  - rewrite T.
    destruct (Regex.test Classifier.confirmedRegex _);
      [|destruct (Regex.test Classifier.declinedRegex _)]; discriminate.
Qed.

Lemma keyword_inside_word_example :
  (forall kw, In kw (Classifier.keywords Classifier.GConfirmed) ->
              Regex.onlyInsideWords kw (Str.toLowerCase "yesterday is a day"))
  /\ Regex.test Classifier.confirmedRegex (Str.toLowerCase "yesterday is a day") = false
  /\ Classifier.rsvpStatus "yesterday is a day" = Pending.
Proof.
  assert (H : forall kw, In kw (Classifier.keywords Classifier.GConfirmed) ->
                Regex.onlyInsideWords kw (Str.toLowerCase "yesterday is a day")).
  { intros kw Hin. apply onlyInsideWordsb_sound.
    simpl in Hin. destruct Hin as [<- | [<- | [<- | []]]]; reflexivity. }
  split; [exact H|]. split; [|reflexivity].
  exact (proj1 (keyword_inside_word_no_match
                  Classifier.GConfirmed "yesterday is a day" H)).
Defined.

(** ** Values *)

Lemma strictEq_VStr :
  forall a s, strictEq a (VStr s) = true <-> a = VStr s.
Proof.
  intros a s. destruct a; simpl; split; try discriminate.
  - intros H. apply String.eqb_eq in H. now subst.
  - intros H. inversion H. apply String.eqb_refl.
Qed.

Lemma strictEq_ofEnv :
  forall a o, strictEq a (ofEnv o) = true <-> a = ofEnv o.
Proof.
  intros a [s|]; [apply strictEq_VStr|].
  destruct a; simpl; split; congruence.
Qed.

Lemma unset_falsy :
  forall o, unset o -> truthy (ofEnv o) = false.
Proof. intros o [-> | ->]; reflexivity. Qed.

Lemma prop_nullish :
  forall v k, nullish v = true -> prop v k = VUndefined.
Proof. intros [] k H; try discriminate; reflexivity. Qed.

Lemma first_nullish :
  forall v, nullish v = true -> first v = VUndefined.
Proof. intros [] H; try discriminate; reflexivity. Qed.

Lemma optProp_prop :
  forall v k, optProp v k = prop v k.
Proof.
  intros v k. unfold optProp. destruct (nullish v) eqn:E; [|reflexivity].
  symmetry. now apply prop_nullish.
Qed.

Lemma optFirst_first :
  forall v, optFirst v = first v.
Proof.
  intros v. unfold optFirst. destruct (nullish v) eqn:E; [|reflexivity].
  symmetry. now apply first_nullish.
Qed.

(** A link is missing exactly when the descent ends in [undefined] or
    [null]. *)
Lemma linkMissing_webhookValue :
  forall body, linkMissing body = nullish (webhookValue body).
Proof.
  intros body. unfold linkMissing, webhookValue, descend.
  rewrite !optProp_prop, !optFirst_first.
  set (entries := prop body "entry").
  destruct (nullish entries) eqn:E1.
  { now rewrite (first_nullish _ E1). }
  destruct (nullish (first entries)) eqn:E2.
  { now rewrite (prop_nullish _ "changes" E2). }
  destruct (nullish (prop (first entries) "changes")) eqn:E3.
  { now rewrite (first_nullish _ E3). }
  destruct (nullish (first (prop (first entries) "changes"))) eqn:E4.
  { now rewrite (prop_nullish _ "value" E4). }
  reflexivity.
Qed.

Lemma nullish_falsy :
  forall v, nullish v = true -> truthy v = false.
Proof. intros [] H; try discriminate; reflexivity. Qed.

(** ** Running the monad *)

Section Running.
Context {World : Type}.
Variable ext : Collaborators World.

Lemma bind_Ok :
  forall {A B} (m : M World A) (k : A -> M World B) st a st',
    m st = (Ok a, st') -> bind m k st = k a st'.
Proof. intros A B m k st a st' H. unfold bind. now rewrite H. Qed.

Lemma bind_Throw :
  forall {A B} (m : M World A) (k : A -> M World B) st e st',
    m st = (Throw e, st') -> bind m k st = (Throw e, st').
Proof. intros A B m k st e st' H. unfold bind. now rewrite H. Qed.

Lemma getProp_Ok :
  forall v k (st : State World),
    nullish v = false -> getProp v k st = (Ok (prop v k), st).
Proof. intros v k st H. unfold getProp. now rewrite H. Qed.

Lemma getFirst_Ok :
  forall v (st : State World),
    nullish v = false -> getFirst v st = (Ok (first v), st).
Proof. intros v st H. unfold getFirst. now rewrite H. Qed.

Lemma getProp_Throw :
  forall v k (st : State World),
    nullish v = true -> getProp v k st = (Throw (cannotRead v k), st).
Proof. intros v k st H. unfold getProp. now rewrite H. Qed.

Lemma newDate_run :
  forall st : State World,
    newDate ext st
    = (Ok (fst (clock ext (world st))),
       mkState (snd (clock ext (world st))) (trace st) (sent st)).
Proof. intros st. unfold newDate. now destruct (clock ext (world st)). Qed.

Lemma dbQuery_run :
  forall q (st : State World),
    dbQuery ext q st
    = (fst (supabase ext q (world st)),
       mkState (snd (supabase ext q (world st))) (trace st ++ [EDb q]) (sent st)).
Proof. intros q st. unfold dbQuery. now destruct (supabase ext q (world st)). Qed.

Lemma httpPost_run :
  forall r (st : State World),
    httpPost ext r st
    = (fst (axiosPost ext r (world st)),
       mkState (snd (axiosPost ext r (world st))) (trace st ++ [EHttpPost r]) (sent st)).
Proof. intros r st. unfold httpPost. now destruct (axiosPost ext r (world st)). Qed.

End Running.

(** ** Outbound send *)

(** C8. When the phone-number id or the access token is missing, both
    copies of [sendTextMessage] throw the configuration error at once:
    the state, and with it the trace of requests, is left as it was. *)
Theorem send_fails_fast_without_config :
  forall (World : Type) (ext : Collaborators World) (env : Env)
         (to message : value) (st : State World),
    unset (WHATSAPP_PHONE_NUMBER_ID env) \/ unset (WHATSAPP_ACCESS_TOKEN env) ->
    App.sendTextMessage ext env to message st = (Throw App.configMissing, st)
    /\ Lib.sendTextMessage ext env to message st = (Throw Lib.configMissing, st)
    /\ errMessage App.configMissing
       = "WhatsApp configuration missing: phoneNumberId or accessToken"
    /\ errMessage Lib.configMissing
       = "WhatsApp configuration missing: phoneNumberId or accessToken".
Proof.
  intros World ext env to message st H.
  assert (G : negb (truthy (phoneNumberId (getWhatsAppConfig env)))
              || negb (truthy (accessToken (getWhatsAppConfig env))) = true).
  { cbn [getWhatsAppConfig phoneNumberId accessToken].
    destruct H as [H | H]; rewrite (unset_falsy _ H); simpl;
      [reflexivity | apply orb_true_r]. }
  unfold App.sendTextMessage, Lib.sendTextMessage.
  rewrite G. repeat split.
Qed.

Lemma send_fails_fast_without_config_example :
  let env := mkEnv None (Some "token-1") None None in
  (unset (WHATSAPP_PHONE_NUMBER_ID env) \/ unset (WHATSAPP_ACCESS_TOKEN env))
  /\ App.sendTextMessage Sample.ext env (VStr "+15551234") (VStr "hi") (fresh tt)
     = (Throw App.configMissing, fresh tt)
  /\ httpRequests
       (eventsOf (Lib.sendTextMessage Sample.ext env (VStr "+15551234") (VStr "hi")) tt)
     = [].
Proof.
  assert (H : unset (WHATSAPP_PHONE_NUMBER_ID (mkEnv None (Some "token-1") None None))
              \/ unset (WHATSAPP_ACCESS_TOKEN (mkEnv None (Some "token-1") None None))).
  { left. left. reflexivity. }
  split; [exact H|]. split.
  - exact (proj1 (send_fails_fast_without_config unit Sample.ext _
                    (VStr "+15551234") (VStr "hi") (fresh tt) H)).
  - reflexivity.
Defined.

Lemma contains_app :
  forall c a b, Str.contains c (a ++ b) = Str.contains c a || Str.contains c b.
Proof.
  intros c a b. induction a as [|d a IH]; simpl; [reflexivity|].
  now rewrite IH, orb_assoc.
Qed.

(** Removing a pattern that lacks [c] keeps every [c] of the string. *)
Lemma contains_remove :
  forall c pat s,
    Str.contains c pat = false ->
    Str.contains c (Str.replace pat "" s) = Str.contains c s.
Proof.
  intros c pat s Hpat. induction s as [|d s IH].
  - cbn [Str.replace]. destruct (Str.stripPrefix pat "") as [rest|] eqn:E; [|reflexivity].
    apply stripPrefix_sound in E. destruct pat; [|discriminate].
    simpl in E. now subst rest.
  - cbn [Str.replace]. destruct (Str.stripPrefix pat (String d s)) as [rest|] eqn:E.
    + apply stripPrefix_sound in E. rewrite E, !contains_app, Hpat. reflexivity.
    + simpl. now rewrite IH.
Qed.

(** Removing the first [c] shortens a string that has one. *)
Lemma length_remove_char :
  forall c s,
    Str.contains c s = true ->
    S (String.length (Str.replace (String c "") "" s)) = String.length s.
Proof.
  intros c s. induction s as [|d s IH]; intros H; [discriminate|].
  cbn [Str.replace Str.stripPrefix]. simpl in H.
  destruct (Ascii.eqb c d); simpl.
  - reflexivity.
  - f_equal. now apply IH.
Qed.

Lemma cleaned_numbers_differ :
  forall to,
    Str.contains "+" to = true ->
    Str.replace "+" "" (Str.replace "whatsapp:" "" to) <> Str.replace "whatsapp:" "" to.
Proof.
  intros to H E.
  assert (C : Str.contains "+" (Str.replace "whatsapp:" "" to) = true).
  { rewrite contains_remove; [exact H | reflexivity]. }
  apply length_remove_char in C. rewrite E in C. lia.
Qed.

(** C9. The two copies of [sendTextMessage] are not the same function.
    With the credentials configured and a destination that has a [+],
    each copy issues one HTTP request; the copy of the entry point
    removes the first [+] from the destination and the shared module
    keeps it, so the two [to] fields differ; and the two requests go to
    different URLs, v18.0 against v22.0. *)
Theorem send_copies_differ :
  forall (World : Type) (ext : Collaborators World) (env : Env)
         (to : string) (message : value) (w : World),
    configured env = true ->
    Str.contains "+" to = true ->
    exists r1 r2,
      httpRequests (eventsOf (App.sendTextMessage ext env (VStr to) message) w) = [r1]
      /\ httpRequests (eventsOf (Lib.sendTextMessage ext env (VStr to) message) w) = [r2]
      /\ prop (data r1) "to" = VStr (Str.replace "+" "" (Str.replace "whatsapp:" "" to))
      /\ prop (data r2) "to" = VStr (Str.replace "whatsapp:" "" to)
      /\ prop (data r1) "to" <> prop (data r2) "to"
      /\ url r1 <> url r2
      /\ App.WHATSAPP_API_URL <> Lib.WHATSAPP_API_URL.
Proof.
  intros World ext env to message w Hc Hplus.
  unfold configured in Hc. apply andb_true_iff in Hc. destruct Hc as [H1 H2].
  unfold eventsOf, after, App.sendTextMessage, Lib.sendTextMessage.
  rewrite H1, H2. cbn [negb orb].
  eexists. eexists.
  split.
  { unfold bind, strReplace, ret. rewrite httpPost_run. reflexivity. }
  split.
  { unfold bind, strReplace, ret, consoleLog, emit, tryCatch.
    cbn [fresh world trace sent]. rewrite httpPost_run.
    cbn [fst snd world trace sent].
    destruct (fst (axiosPost ext _ w)); reflexivity. }
  split; [reflexivity|]. split; [reflexivity|].
  split.
  { cbn [data prop lookup String.eqb Ascii.eqb Bool.eqb].
    intros E. inversion E as [E']. revert E'. now apply cleaned_numbers_differ. }
  split.
  { cbn [url]. unfold App.WHATSAPP_API_URL, Lib.WHATSAPP_API_URL.
    simpl. intros E. inversion E. }
  unfold App.WHATSAPP_API_URL, Lib.WHATSAPP_API_URL. intros E. inversion E.
Qed.

Lemma send_copies_differ_example :
  configured Sample.env = true
  /\ Str.contains "+" "whatsapp:+15551234" = true
  /\ exists r1 r2,
      httpRequests
        (eventsOf (App.sendTextMessage Sample.ext Sample.env
                     (VStr "whatsapp:+15551234") (VStr "hi")) tt) = [r1]
      /\ httpRequests
           (eventsOf (Lib.sendTextMessage Sample.ext Sample.env
                        (VStr "whatsapp:+15551234") (VStr "hi")) tt) = [r2]
      /\ prop (data r1) "to" = VStr "15551234"
      /\ prop (data r2) "to" = VStr "+15551234"
      /\ url r1 <> url r2.
Proof.
  split; [reflexivity|]. split; [reflexivity|].
  destruct (send_copies_differ unit Sample.ext Sample.env
              "whatsapp:+15551234" (VStr "hi") tt eq_refl eq_refl)
    as (r1 & r2 & H1 & H2 & H3 & H4 & _ & H6 & _).
  exists r1, r2. repeat split; assumption.
Defined.

(** ** Webhook verification *)

(** C6. The verification route answers 200 with the [hub.challenge]
    parameter as body exactly when [hub.mode] is "subscribe" and
    [hub.verify_token] is the configured secret (the value of the
    environment variable); in every other case it answers 403. *)
Theorem webhook_verification :
  forall (World : Type) (env : Env) (query : list (string * value)) (w : World),
    let q := VObj query in
    let verified :=
      prop q "hub.mode" = VStr "subscribe"
      /\ prop q "hub.verify_token" = ofEnv (WHATSAPP_WEBHOOK_VERIFY_TOKEN env) in
    (responseOf (App.getWebhookResponse env q) w
     = Some (mkResponse 200 (prop q "hub.challenge")) <-> verified)
    /\ (~ verified ->
        responseOf (App.getWebhookResponse env q) w
        = Some (mkResponse 403 (VStr "Forbidden"))).
Proof.
  intros World env query w q verified.
  unfold responseOf, after, App.getWebhookResponse.
  rewrite (bind_Ok _ _ _ _ _ (getProp_Ok q "hub.mode" _ eq_refl)).
  rewrite (bind_Ok _ _ _ _ _ (getProp_Ok q "hub.verify_token" _ eq_refl)).
  rewrite (bind_Ok _ _ _ _ _ (getProp_Ok q "hub.challenge" _ eq_refl)).
  cbn [getWhatsAppConfig webhookVerifyToken].
  destruct (strictEq (prop q "hub.mode") (VStr "subscribe")) eqn:E1;
    [destruct (strictEq (prop q "hub.verify_token")
                 (ofEnv (WHATSAPP_WEBHOOK_VERIFY_TOKEN env))) eqn:E2|].
  - apply strictEq_VStr in E1. apply strictEq_ofEnv in E2.
    cbn [andb]. split.
    + split; [intros _; split; assumption | reflexivity].
    + intros N. destruct N. split; assumption.
  - cbn [andb]. split.
    + split; [discriminate|]. intros [_ V]. apply strictEq_ofEnv in V. congruence.
    + reflexivity.
  - cbn [andb]. split.
    + split; [discriminate|]. intros [V _]. apply strictEq_VStr in V. congruence.
    + reflexivity.
Qed.

Lemma webhook_verification_example :
  responseOf (App.getWebhookResponse Sample.env (Sample.verifyQuery "s3cret")) tt
  = Some (mkResponse 200 (VStr "1158201444"))
  /\ responseOf (App.getWebhookResponse Sample.env (Sample.verifyQuery "guess")) tt
     = Some (mkResponse 403 (VStr "Forbidden")).
Proof.
  split.
  - apply (proj1 (webhook_verification unit Sample.env
                    [("hub.mode", VStr "subscribe"); ("hub.verify_token", VStr "s3cret");
                     ("hub.challenge", VStr "1158201444")] tt)).
    split; reflexivity.
  - apply (proj2 (webhook_verification unit Sample.env
                    [("hub.mode", VStr "subscribe"); ("hub.verify_token", VStr "guess");
                     ("hub.challenge", VStr "1158201444")] tt)).
    intros [_ H]. discriminate H.
Defined.

(** ** Parsing the webhook payload *)

(** [parseWebhookPayload] never raises: whatever the body, it returns. *)
Lemma parseWebhookPayload_total :
  forall (World : Type) (body : value) (st : State World),
    exists r st', Lib.parseWebhookPayload body st = (Ok r, st').
Proof.
  intros World body st. unfold Lib.parseWebhookPayload, tryCatch.
  match goal with |- context [match ?m st with _ => _ end] => destruct (m st) as [[r|e] st'] end.
  - now exists r, st'.
  - eexists. eexists. unfold consoleError, emit, bind, ret. reflexivity.
Qed.

(** A body with a missing link parses to [null], without an exception. *)
Lemma parseWebhookPayload_missing_link :
  forall (World : Type) (body : value) (st : State World),
    linkMissing body = true ->
    fst (Lib.parseWebhookPayload body st) = Ok None.
Proof.
  intros World body st H. rewrite linkMissing_webhookValue in H.
  unfold Lib.parseWebhookPayload, tryCatch.
  destruct (nullish body) eqn:B.
  - rewrite (bind_Throw _ _ _ _ _ (getProp_Throw body "entry" st B)). reflexivity.
  - rewrite (bind_Ok _ _ _ _ _ (getProp_Ok body "entry" st B)).
    fold (webhookValue body). rewrite (nullish_falsy _ H). reflexivity.
Qed.

(** C5. For a message payload (the descent reaches a [value] whose
    [messages] is an array with an object first) with no trace of an
    error, [parseWebhookPayload] returns a record whose [text] is
    [messages[0].text.body] itself when that is a string, and the empty
    string when it is absent; the delivery route reads the same text. *)
Theorem inbound_text_verbatim :
  forall (World : Type) (body : value) (st : State World)
         (message : list (string * value)) (rest : list value),
    prop (webhookValue body) "messages" = VArr (VObj message :: rest) ->
    exists m,
      Lib.parseWebhookPayload body st = (Ok (Some m), st)
      /\ Lib.text m = inboundText body
      /\ (forall s, optProp (prop (VObj message) "text") "body" = VStr s ->
                    Lib.text m = VStr s)
      /\ (optProp (prop (VObj message) "text") "body" = VUndefined ->
          Lib.text m = VStr "").
Proof.
  intros World body st message rest H.
  assert (B : nullish body = false).
  { destruct (nullish body) eqn:B; [|reflexivity].
    unfold webhookValue in H. rewrite (prop_nullish _ "entry" B) in H. discriminate H. }
  assert (V : truthy (webhookValue body) = true).
  { destruct (webhookValue body); simpl in H; try discriminate H; reflexivity. }
  assert (N : nullish (webhookValue body) = false).
  { destruct (webhookValue body); try discriminate V; reflexivity. }
  unfold Lib.parseWebhookPayload, tryCatch.
  rewrite (bind_Ok _ _ _ _ _ (getProp_Ok body "entry" st B)).
  fold (webhookValue body). rewrite V, H. cbn [truthy negb orb].
  rewrite (bind_Ok _ _ _ _ _ (getProp_Ok _ "messages" st N)). rewrite H.
  rewrite (bind_Ok _ _ _ _ _ (getFirst_Ok (VArr (VObj message :: rest)) st eq_refl)).
  rewrite (bind_Ok _ _ _ _ _ (getProp_Ok _ "contacts" st N)).
  cbn [first hd].
  rewrite (bind_Ok _ _ _ _ _ (getProp_Ok (VObj message) "id" st eq_refl)).
  rewrite (bind_Ok _ _ _ _ _ (getProp_Ok (VObj message) "from" st eq_refl)).
  rewrite (bind_Ok _ _ _ _ _ (getProp_Ok (VObj message) "timestamp" st eq_refl)).
  rewrite (bind_Ok _ _ _ _ _ (getProp_Ok (VObj message) "type" st eq_refl)).
  rewrite (bind_Ok _ _ _ _ _ (getProp_Ok (VObj message) "text" st eq_refl)).
  eexists. split; [reflexivity|]. cbn [Lib.text].
  split; [|split].
  - unfold inboundText, inboundMessage. rewrite H. reflexivity.
  - intros s E. rewrite E. unfold orElse. now destruct s.
  - intros E. rewrite E. reflexivity.
Qed.

Lemma inbound_text_verbatim_example :
  (exists m,
      Lib.parseWebhookPayload (Sample.textMessage "Yes I will be there") (fresh tt)
      = (Ok (Some m), fresh tt)
      /\ Lib.text m = VStr "Yes I will be there")
  /\ (exists m,
         Lib.parseWebhookPayload Sample.imageMessage (fresh tt) = (Ok (Some m), fresh tt)
         /\ Lib.text m = VStr "").
Proof.
  split.
  - destruct (inbound_text_verbatim unit (Sample.textMessage "Yes I will be there")
                (fresh tt) _ _ eq_refl) as (m & H1 & _ & H2 & _).
    exists m. split; [exact H1|]. apply H2. reflexivity.
  - destruct (inbound_text_verbatim unit Sample.imageMessage
                (fresh tt) _ _ eq_refl) as (m & H1 & _ & _ & H2).
    exists m. split; [exact H1|]. apply H2. reflexivity.
Defined.

(** ** Relations every step of a handler keeps *)

Section Respects.
Context {World : Type}.
Variable R : State World -> State World -> Prop.
Hypothesis R_refl : forall st, R st st.
Hypothesis R_trans : forall a b c, R a b -> R b c -> R a c.

Lemma respects_ret : forall {A} (a : A), respects R (ret a).
Proof. intros A a st. apply R_refl. Qed.

Lemma respects_throw : forall {A} e, respects R (@throw World A e).
Proof. intros A e st. apply R_refl. Qed.

Lemma respects_bind :
  forall {A B} (m : M World A) (k : A -> M World B),
    respects R m ->
    (forall a, returns m a -> respects R (k a)) ->
    respects R (bind m k).
Proof.
  intros A B m k Hm Hk st. unfold after, bind.
  specialize (Hm st). unfold after in Hm.
  destruct (m st) as [[a|e] st1] eqn:E; cbn [snd] in *.
  - apply R_trans with st1; [exact Hm|].
    apply (Hk a). now exists st, st1.
  - exact Hm.
Qed.

Lemma respects_tryCatch :
  forall {A} (m : M World A) (h : JsError -> M World A),
    respects R m -> (forall e, respects R (h e)) -> respects R (tryCatch m h).
Proof.
  intros A m h Hm Hh st. unfold after, tryCatch.
  specialize (Hm st). unfold after in Hm.
  destruct (m st) as [[a|e] st1] eqn:E; cbn [snd] in *.
  - exact Hm.
  - apply R_trans with st1; [exact Hm | apply (Hh e)].
Qed.

Lemma respects_getProp : forall v k, respects R (@getProp World v k).
Proof.
  intros v k st. unfold after, getProp. destruct (nullish v); apply R_refl.
Qed.

Lemma respects_getFirst : forall v, respects R (@getFirst World v).
Proof.
  intros v st. unfold after, getFirst. destruct (nullish v); apply R_refl.
Qed.

Lemma respects_strReplace :
  forall what v pat rep, respects R (@strReplace World what v pat rep).
Proof. intros what v pat rep st. destruct v; apply R_refl. Qed.

Lemma respects_strToLowerCase :
  forall what v, respects R (@strToLowerCase World what v).
Proof. intros what v st. destruct v; apply R_refl. Qed.

Lemma respects_iterate : forall what v, respects R (@iterate World what v).
Proof. intros what v st. destruct v; apply R_refl. Qed.

Lemma respects_headersSent : respects R (@headersSent World).
Proof. intros st. apply R_refl. Qed.

Lemma respects_forEach :
  forall {A} (l : list A) (f : A -> M World unit),
    (forall x, respects R (f x)) -> respects R (forEach l f).
Proof.
  intros A l f Hf. induction l as [|x l IH]; cbn [forEach].
  - apply respects_ret.
  - apply respects_bind; [apply Hf | intros _ _; exact IH].
Qed.

End Respects.

Lemma returns_getProp :
  forall (World : Type) v k a,
    returns (@getProp World v k) a -> nullish v = false /\ a = prop v k.
Proof.
  intros World v k a (st & st' & H). unfold getProp in H.
  destruct (nullish v); [discriminate H|]. inversion H. auto.
Qed.

Lemma returns_getFirst :
  forall (World : Type) v a,
    returns (@getFirst World v) a -> nullish v = false /\ a = first v.
Proof.
  intros World v a (st & st' & H). unfold getFirst in H.
  destruct (nullish v); [discriminate H|]. inversion H. auto.
Qed.

Lemma returns_strToLowerCase :
  forall (World : Type) what v t,
    returns (@strToLowerCase World what v) t ->
    exists s, v = VStr s /\ t = Str.toLowerCase s.
Proof.
  intros World what v t (st & st' & H).
  destruct v; try discriminate H. inversion H. now exists s.
Qed.

(** ** The trace only grows, by events of a given kind *)

Section Extends.
Context {World : Type}.
Variable ext : Collaborators World.
Variable P : Event -> Prop.

Lemma extendsWith_refl : forall st : State World, extendsWith P st st.
Proof. intros st. exists []. split; [now rewrite app_nil_r | constructor]. Qed.

Lemma extendsWith_trans :
  forall a b c : State World,
    extendsWith P a b -> extendsWith P b c -> extendsWith P a c.
Proof.
  intros a b c (e1 & H1 & F1) (e2 & H2 & F2). exists (e1 ++ e2)%list. split.
  - now rewrite H2, H1, app_assoc.
  - apply Forall_app. now split.
Qed.

Lemma extends_emit : forall e, P e -> respects (extendsWith P) (@emit World e).
Proof.
  intros e He st. exists [e]. split; [reflexivity | now constructor].
Qed.

Lemma extends_send : forall s b, respects (extendsWith P) (@send World s b).
Proof.
  intros s b st. unfold after, send.
  destruct (sent st); cbn [snd]; exists []; (split; [now rewrite app_nil_r | constructor]).
Qed.

Lemma extends_newDate : respects (extendsWith P) (newDate ext).
Proof.
  intros st. unfold after. rewrite newDate_run. cbn [snd].
  exists []. split; [cbn [trace]; now rewrite app_nil_r | constructor].
Qed.

Lemma extends_dbQuery : forall q, P (EDb q) -> respects (extendsWith P) (dbQuery ext q).
Proof.
  intros q Hq st. unfold after. rewrite dbQuery_run. cbn [snd].
  exists [EDb q]. split; [reflexivity | now constructor].
Qed.


End Extends.

(** ** No response is sent *)

Section SameResponse.
Context {World : Type}.
Variable ext : Collaborators World.

Lemma sameResponse_refl : forall st : State World, sameResponse st st.
Proof. reflexivity. Qed.

Lemma sameResponse_trans :
  forall a b c : State World,
    sameResponse a b -> sameResponse b c -> sameResponse a c.
Proof. unfold sameResponse. intros a b c H1 H2. now rewrite H2. Qed.

Lemma same_emit : forall e, respects sameResponse (@emit World e).
Proof. intros e st. reflexivity. Qed.

Lemma same_newDate : respects sameResponse (newDate ext).
Proof. intros st. unfold after. now rewrite newDate_run. Qed.

Lemma same_dbQuery : forall q, respects sameResponse (dbQuery ext q).
Proof. intros q st. unfold after. now rewrite dbQuery_run. Qed.

Lemma same_httpPost : forall r, respects sameResponse (httpPost ext r).
Proof. intros r st. unfold after. now rewrite httpPost_run. Qed.

End SameResponse.

(** ** The delivery route does not touch an invitee it has no outcome for *)

Section InviteeFrame.
Context {World : Type}.
Variable ext : Collaborators World.

Ltac step :=
  apply (respects_bind _ (extendsWith_trans noInviteeWrite)).
Ltac pure :=
  first [ apply respects_getProp | apply respects_getFirst | apply respects_ret
        | apply respects_strToLowerCase | apply respects_iterate
        | apply respects_headersSent | apply respects_throw ];
  apply extendsWith_refl.

Lemma logStatus_quiet : forall s, respects (extendsWith noInviteeWrite) (@App.logStatus World s).
Proof.
  intros s. unfold App.logStatus, App.statusRecord.
  step.
  - repeat (step; [pure | intros ? _]). pure.
  - intros r _. apply extends_emit. reflexivity.
Qed.

Lemma statusBranch_quiet :
  forall v, respects (extendsWith noInviteeWrite) (@App.statusBranch World v).
Proof.
  intros v. unfold App.statusBranch.
  destruct (negb (truthy v) || negb (truthy (prop v "messages"))); [|pure].
  destruct (truthy (optProp (optProp v "statuses") "length")); [|pure].
  step; [pure | intros statuses _].
  step.
  { apply respects_forEach;
      [apply extendsWith_refl | apply extendsWith_trans | apply logStatus_quiet]. }
  intros _ _. step; [apply extends_send | intros _ _; pure].
Qed.

Lemma messageBranch_quiet :
  forall v,
    (forall s,
        orElse (optProp (prop (first (prop v "messages")) "text") "body") (VStr "") = VStr s ->
        Classifier.rsvpStatus s = Pending) ->
    respects (extendsWith noInviteeWrite) (App.messageBranch ext v).
Proof.
  intros v Hpending. unfold App.messageBranch.
  step; [pure | intros messages Hm]. apply returns_getProp in Hm. destruct Hm as [_ ->].
  step; [pure | intros message Hm]. apply returns_getFirst in Hm. destruct Hm as [_ ->].
  step; [pure | intros contacts _].
  step; [pure | intros text Hm]. apply returns_getProp in Hm. destruct Hm as [_ ->].
  step; [pure | intros sender _].
  step; [pure | intros messageId _].
  step; [apply extends_dbQuery; reflexivity | intros reply _].
  step; [|intros _ _; apply extends_send].
  destruct (negb (truthy (replyError reply)) && truthy (optFirst (replyData reply))); [|pure].
  step; [pure | intros invitee _].
  step; [pure | intros t Ht].
  apply returns_strToLowerCase in Ht. destruct Ht as (s & Es & ->).
  specialize (Hpending s Es). unfold Classifier.rsvpStatus in Hpending.
  rewrite Hpending. cbn [App.updateInvitee].
  step; [pure | intros _ _].
  step; [pure | intros inviteeId _].
  step; [apply extends_newDate | intros sentAt _].
  step; [apply extends_newDate | intros receivedAt _].
  step; [apply extends_dbQuery; reflexivity | intros _ _; pure].
Qed.

Lemma postWebhookResponse_quiet :
  forall body,
    (forall s, inboundText body = VStr s -> Classifier.rsvpStatus s = Pending) ->
    respects (extendsWith noInviteeWrite) (App.postWebhookResponse ext body).
Proof.
  intros body Hpending. unfold App.postWebhookResponse.
  step; [apply extends_newDate | intros iso _].
  step; [apply extends_emit; reflexivity | intros _ _].
  step; [apply extends_emit; reflexivity | intros _ _].
  apply respects_tryCatch; [apply extendsWith_trans | |].
  - destruct (negb (truthy body)); [apply extends_send|].
    step; [apply statusBranch_quiet | intros returned _].
    destruct returned; [pure|].
    apply messageBranch_quiet. exact Hpending.
  - intros e. step; [pure | intros already _].
    destruct already; [pure | apply extends_send].
Qed.

End InviteeFrame.

(** C10. In a run of the delivery route on any body: when the text read
    from the inbound message classifies as pending, no datastore call of
    the run writes the [invitees] table; and a run that does write it
    has read a text whose outcome is not pending. *)
Theorem invitee_written_only_when_not_pending :
  forall (World : Type) (ext : Collaborators World) (body : value) (w : World),
    (forall text,
        inboundText body = VStr text ->
        Classifier.rsvpStatus text = Pending ->
        Forall (fun e => writesInvitees e = false)
               (eventsOf (App.postWebhookResponse ext body) w))
    /\ (Exists (fun e => writesInvitees e = true)
               (eventsOf (App.postWebhookResponse ext body) w) ->
        exists text,
          inboundText body = VStr text /\ Classifier.rsvpStatus text <> Pending).
Proof.
  intros World ext body w.
  assert (Q : (forall s, inboundText body = VStr s -> Classifier.rsvpStatus s = Pending) ->
              Forall (fun e => writesInvitees e = false)
                     (eventsOf (App.postWebhookResponse ext body) w)).
  { intros H. destruct (postWebhookResponse_quiet ext body H (fresh w)) as (evs & E & F).
    unfold eventsOf. rewrite E. exact F. }
  split.
  - intros text E Hp. apply Q. intros s Es. congruence.
  - intros Hex.
    assert (C : ~ Forall (fun e => writesInvitees e = false)
                  (eventsOf (App.postWebhookResponse ext body) w)).
    { intros F. apply Exists_exists in Hex. destruct Hex as (e & Hin & He).
      rewrite Forall_forall in F. specialize (F e Hin). congruence. }
    destruct (inboundText body) as [ | | | | text | | ] eqn:E;
      try (exfalso; apply C, Q; intros s Es; discriminate Es).
    exists text. split; [reflexivity|]. intros Hp.
    apply C, Q. intros s Es. congruence.
Qed.

Lemma invitee_written_only_when_not_pending_example :
  inboundText (Sample.textMessage "see you soon") = VStr "see you soon"
  /\ Classifier.rsvpStatus "see you soon" = Pending
  /\ Forall (fun e => writesInvitees e = false)
            (eventsOf (App.postWebhookResponse Sample.ext
                         (Sample.textMessage "see you soon")) tt)
  /\ List.length (dbQueries (eventsOf (App.postWebhookResponse Sample.ext
                                    (Sample.textMessage "see you soon")) tt)) = 2
  /\ Exists (fun e => writesInvitees e = true)
            (eventsOf (App.postWebhookResponse Sample.ext
                         (Sample.textMessage "Yes I will be there")) tt).
Proof.
  split; [reflexivity|]. split; [reflexivity|]. split; [|split].
  - exact (proj1 (invitee_written_only_when_not_pending unit Sample.ext
                    (Sample.textMessage "see you soon") tt)
             "see you soon" eq_refl eq_refl).
  - reflexivity.
  - vm_compute. do 3 apply Exists_cons_tl. apply Exists_cons_hd. reflexivity.
Defined.

(** ** The delivery route on bodies that carry no message *)

Lemma picked_app :
  forall (A : Type) (pick : Event -> option A) (l1 l2 : list Event),
    picked pick (l1 ++ l2) = (picked pick l1 ++ picked pick l2)%list.
Proof. intros A pick l1 l2. unfold picked. apply flat_map_app. Qed.

Lemma statusUpdates_statusLogs :
  forall rs, statusUpdates (map statusLog rs) = rs.
Proof.
  induction rs as [|r rs IH]; [reflexivity|].
  unfold statusUpdates, picked in *. cbn [map flat_map]. rewrite IH. reflexivity.
Qed.

Lemma dbQueries_logs :
  forall rs, dbQueries (map statusLog rs) = [].
Proof.
  induction rs as [|r rs IH]; [reflexivity|].
  unfold dbQueries, picked in *. cbn [map flat_map]. rewrite IH. reflexivity.
Qed.

(** The record logged for a status entry keeps the entry's fields. *)
Lemma statusUpdate_preserves :
  forall s k,
    In k ["id"; "status"; "timestamp"; "conversation"; "pricing"; "errors"] ->
    prop (statusUpdate s) k = prop s k.
Proof.
  intros s k H. simpl in H.
  destruct H as [<- | [<- | [<- | [<- | [<- | [<- | []]]]]]]; reflexivity.
Qed.

(** Only an object has a descent that ends in something. *)
Lemma webhookValue_object :
  forall body,
    nullish (webhookValue body) = false -> exists ps, body = VObj ps.
Proof.
  intros body H. destruct body; try discriminate H.
  now exists props.
Qed.

Section Delivery.
Context {World : Type}.
Variable ext : Collaborators World.

Lemma emit_run :
  forall e (st : State World),
    emit e st = (Ok tt, mkState (world st) (trace st ++ [e]) (sent st)).
Proof. reflexivity. Qed.

Lemma logStatus_run :
  forall s (st : State World),
    nullish s = false ->
    App.logStatus s st
    = (Ok tt, mkState (world st) (trace st ++ [statusLog (statusUpdate s)]) (sent st)).
Proof.
  intros s st H. unfold App.logStatus, App.statusRecord.
  unfold bind. rewrite !(getProp_Ok s _ st H). reflexivity.
Qed.

Lemma forEach_logStatus :
  forall ss (st : State World),
    Forall (fun s => nullish s = false) ss ->
    forEach ss App.logStatus st
    = (Ok tt,
       mkState (world st) (trace st ++ map statusLog (map statusUpdate ss)) (sent st)).
Proof.
  induction ss as [|s ss IH]; intros st H.
  - cbn [forEach map]. rewrite app_nil_r. now destruct st.
  - inversion H as [|? ? Hs Hss]; subst. cbn [forEach map].
    rewrite (bind_Ok _ _ _ _ _ (logStatus_run s st Hs)).
    rewrite (IH _ Hss). cbn [world trace sent]. now rewrite <- app_assoc.
Qed.

(** The status branch on a [value] without messages and with status
    entries: every entry is logged, 200 is sent, the handler returns. *)
Lemma statusBranch_statuses :
  forall v ss (st : State World),
    truthy (prop v "messages") = false ->
    prop v "statuses" = VArr ss ->
    ss <> [] ->
    Forall (fun s => nullish s = false) ss ->
    sent st = None ->
    App.statusBranch v st
    = (Ok true,
       mkState (world st) (trace st ++ map statusLog (map statusUpdate ss))
               (Some (mkResponse 200 (VStr "OK")))).
Proof.
  intros v ss st Hm Hs Hne Hobj Hsent. unfold App.statusBranch.
  rewrite Hm. cbn [negb]. rewrite orb_true_r.
  rewrite (optProp_prop v), Hs.
  assert (L : truthy (optProp (VArr ss) "length") = true).
  { destruct ss; [congruence | reflexivity]. }
  rewrite L.
  rewrite (bind_Ok _ _ _ _ _ (eq_refl : iterate "value.statuses" (VArr ss) st = (Ok ss, st))).
  rewrite (bind_Ok _ _ _ _ _ (forEach_logStatus ss st Hobj)).
  unfold bind, send, ret. cbn [sent world trace]. now rewrite Hsent.
Qed.

Lemma statusBranch_nullish :
  forall v (st : State World),
    nullish v = true -> App.statusBranch v st = (Ok false, st).
Proof. intros v st H. destruct v; try discriminate H; reflexivity. Qed.

Lemma messageBranch_nullish :
  forall v (st : State World),
    nullish v = true ->
    App.messageBranch ext v st = (Throw (cannotRead v "messages"), st).
Proof.
  intros v st H. unfold App.messageBranch.
  now rewrite (bind_Throw _ _ _ _ _ (getProp_Throw v "messages" st H)).
Qed.

Lemma postWebhookResponse_start :
  forall body w,
    App.postWebhookResponse ext body (fresh w)
    = tryCatch
        (if negb (truthy body) then send 400 (VStr "Bad Request: Empty body")
         else
           returned <- App.statusBranch (webhookValue body) ;;
           if returned then ret tt else App.messageBranch ext (webhookValue body))
        (fun e =>
           already <- headersSent ;;
           if already then ret tt else send 500 (VStr "Error processing webhook"))
        (mkState (snd (clock ext w)) (requestLogs ext body w) None).
Proof.
  intros body w. unfold App.postWebhookResponse.
  rewrite (bind_Ok _ _ _ _ _ (newDate_run ext (fresh w))).
  unfold consoleLog.
  rewrite (bind_Ok _ _ _ _ _ (emit_run _ _)).
  rewrite (bind_Ok _ _ _ _ _ (emit_run _ _)).
  reflexivity.
Qed.

(** A body that is there but lacks a link of the path ends in the
    [catch] of the route: the response is 500. *)
Lemma postWebhookResponse_missing_link :
  forall body w,
    truthy body = true ->
    linkMissing body = true ->
    after (App.postWebhookResponse ext body) (fresh w)
    = mkState (snd (clock ext w)) (requestLogs ext body w)
              (Some (mkResponse 500 (VStr "Error processing webhook"))).
Proof.
  intros body w Hb Hl. rewrite linkMissing_webhookValue in Hl.
  unfold after. rewrite postWebhookResponse_start. unfold tryCatch.
  rewrite Hb. cbn [negb].
  rewrite (bind_Ok _ _ _ _ _ (statusBranch_nullish _ _ Hl)).
  rewrite (messageBranch_nullish _ _ Hl). reflexivity.
Qed.

End Delivery.

(** C1.  On the body [{}], which has no [entry], the shared module's
    [parseWebhookPayload] returns [null] without raising, but the
    delivery route falls through its status branch to line 214, throws
    there and answers from its [catch]: 500, "Error processing webhook". *)
Theorem webhook_without_entry_is_an_error :
  forall (World : Type) (ext : Collaborators World) (w : World),
    linkMissing (VObj []) = true
    /\ Lib.parseWebhookPayload (VObj []) (fresh w) = (Ok None, fresh w)
    /\ responseOf (App.postWebhookResponse ext (VObj [])) w
       = Some (mkResponse 500 (VStr "Error processing webhook")).
Proof.
  intros World ext w. split; [reflexivity|]. split; [reflexivity|].
  unfold responseOf.
  now rewrite (postWebhookResponse_missing_link ext (VObj []) w eq_refl eq_refl).
Qed.

(** C2.  An empty [messages] array is a [messages] field for the guard
    of line 196 ([!value.messages] is false for an array): with one
    beside the status entries [ss], whatever they are, the status branch
    is skipped and no status is logged; line 216 then throws on
    [messages[0]], which is [undefined], and the route answers 500 from
    its [catch].  The shared module's [parseWebhookPayload] has the same
    guard and returns [null]: no status comes out of either. *)
Theorem statuses_beside_empty_messages :
  forall (World : Type) (ext : Collaborators World) (ss : list value) (w : World),
    let body :=
      Sample.envelope (VObj [("messages", VArr []); ("statuses", VArr ss)]) in
    prop (webhookValue body) "messages" = VArr []
    /\ prop (webhookValue body) "statuses" = VArr ss
    /\ statusUpdates (eventsOf (App.postWebhookResponse ext body) w) = []
    /\ responseOf (App.postWebhookResponse ext body) w
       = Some (mkResponse 500 (VStr "Error processing webhook"))
    /\ fst (Lib.parseWebhookPayload body (fresh w)) = Ok None.
Proof.
  intros World ext ss w body.
  split; [reflexivity|]. split; [reflexivity|].
  assert (E : after (App.postWebhookResponse ext body) (fresh w)
              = mkState (snd (clock ext w)) (requestLogs ext body w)
                        (Some (mkResponse 500 (VStr "Error processing webhook")))).
  { unfold after. rewrite postWebhookResponse_start. reflexivity. }
  split; [|split].
  - unfold eventsOf. rewrite E. reflexivity.
  - unfold responseOf. now rewrite E.
  - reflexivity.
Qed.

(** X28.  When the [value] the descent reaches has no [messages]
    (absent, or otherwise falsy) and its [statuses] is a non-empty array
    of entries none of which is [null], the delivery route logs one
    status record per entry, in order, each keeping the entry's [id],
    [status], [timestamp], [conversation], [pricing] and [errors]; it
    answers 200 without any datastore call, and [parseWebhookPayload]
    returns [null]: no inbound message comes out of the payload. *)
Theorem statuses_are_logged_one_by_one :
  forall (World : Type) (ext : Collaborators World) (body : value)
         (ss : list value) (w : World),
    truthy (prop (webhookValue body) "messages") = false ->
    prop (webhookValue body) "statuses" = VArr ss ->
    ss <> [] ->
    Forall (fun s => nullish s = false) ss ->
    statusUpdates (eventsOf (App.postWebhookResponse ext body) w) = map statusUpdate ss
    /\ List.length (statusUpdates (eventsOf (App.postWebhookResponse ext body) w))
       = List.length ss
    /\ (forall s k,
           In k ["id"; "status"; "timestamp"; "conversation"; "pricing"; "errors"] ->
           prop (statusUpdate s) k = prop s k)
    /\ responseOf (App.postWebhookResponse ext body) w = Some (mkResponse 200 (VStr "OK"))
    /\ dbQueries (eventsOf (App.postWebhookResponse ext body) w) = []
    /\ Lib.parseWebhookPayload body (fresh w) = (Ok None, fresh w).
Proof.
  intros World ext body ss w Hm Hs Hne Hobj.
  assert (N : nullish (webhookValue body) = false).
  { destruct (nullish (webhookValue body)) eqn:N; [|reflexivity].
    rewrite (prop_nullish _ "statuses" N) in Hs. discriminate Hs. }
  destruct (webhookValue_object body N) as [ps ->].
  assert (E : after (App.postWebhookResponse ext (VObj ps)) (fresh w)
              = mkState (snd (clock ext w))
                        (requestLogs ext (VObj ps) w
                         ++ map statusLog (map statusUpdate ss))
                        (Some (mkResponse 200 (VStr "OK")))).
  { unfold after. rewrite postWebhookResponse_start. unfold tryCatch.
    cbn [truthy negb].
    rewrite (bind_Ok _ _ _ _ _
               (statusBranch_statuses _ ss
                  (mkState (snd (clock ext w)) (requestLogs ext (VObj ps) w) None)
                  Hm Hs Hne Hobj eq_refl)).
    reflexivity. }
  assert (U : statusUpdates (eventsOf (App.postWebhookResponse ext (VObj ps)) w)
              = map statusUpdate ss).
  { unfold eventsOf. rewrite E. cbn [trace]. unfold statusUpdates.
    rewrite picked_app. fold (statusUpdates (map statusLog (map statusUpdate ss))).
    rewrite statusUpdates_statusLogs. reflexivity. }
  split; [exact U|]. split; [now rewrite U, length_map|].
  split; [exact statusUpdate_preserves|].
  split; [unfold responseOf; now rewrite E|].
  split.
  - unfold eventsOf. rewrite E. cbn [trace]. unfold dbQueries.
    rewrite picked_app. fold (dbQueries (map statusLog (map statusUpdate ss))).
    rewrite dbQueries_logs. reflexivity.
  - unfold Lib.parseWebhookPayload, tryCatch.
    rewrite (bind_Ok _ _ _ _ _ (getProp_Ok (VObj ps) "entry" (fresh w) eq_refl)).
    fold (webhookValue (VObj ps)). rewrite Hm. now rewrite orb_true_r.
Qed.

Lemma statuses_are_logged_one_by_one_example :
  statusUpdates (eventsOf (App.postWebhookResponse Sample.ext Sample.statusPayload) tt)
  = map statusUpdate Sample.twoStatuses
  /\ List.length
       (statusUpdates (eventsOf (App.postWebhookResponse Sample.ext Sample.statusPayload) tt))
     = 2
  /\ Lib.parseWebhookPayload Sample.statusPayload (fresh tt) = (Ok None, fresh tt).
Proof.
  destruct (statuses_are_logged_one_by_one unit Sample.ext Sample.statusPayload
              Sample.twoStatuses tt eq_refl eq_refl)
    as (H1 & H2 & _ & _ & _ & H6).
  - discriminate.
  - repeat constructor.
  - split; [exact H1|]. split; [exact H2 | exact H6].
Defined.

(** ** Bulk send *)

Section Bulk.
Context {World : Type}.
Variable ext : Collaborators World.
Variable env : Env.

Ltac step := apply (respects_bind _ sameResponse_trans).
Ltac pure :=
  first [ apply respects_getProp | apply respects_ret | apply respects_throw
        | apply respects_strReplace ];
  apply sameResponse_refl.

Lemma sendTextMessage_same :
  forall to message, respects sameResponse (App.sendTextMessage ext env to message).
Proof.
  intros to message. unfold App.sendTextMessage.
  destruct (negb (truthy (phoneNumberId (getWhatsAppConfig env)))
            || negb (truthy (accessToken (getWhatsAppConfig env)))); [pure|].
  step; [pure | intros stripped _]. apply same_httpPost.
Qed.

(** Sending and recording one message sends no HTTP response. *)
Lemma sendAndRecord_same :
  forall msgData, respects sameResponse (App.sendAndRecord ext env msgData).
Proof.
  intros msgData. unfold App.sendAndRecord.
  step; [pure | intros to _].
  step; [pure | intros text _].
  step; [apply sendTextMessage_same | intros whatsappResponse _].
  step; [pure | intros inviteeId _].
  step; [pure | intros templateId _].
  step; [pure | intros messageBody _].
  step; [apply same_newDate | intros sentAt _].
  step; [pure | intros messages _].
  step; [apply same_dbQuery | intros reply _].
  step.
  { destruct (truthy (replyError reply)); [apply same_emit | pure]. }
  intros _ _.
  step; [pure | intros to' _].
  step; [pure | intros messages' _]. pure.
Qed.

(** The loop, message by message: what it pushes on [results] and on
    [errors] is what the attempts gave, and it sends no response. *)
Lemma bulkLoop_spec :
  forall messages results errors (st : State World),
    Forall (fun m => nullish m = false) messages ->
    exists st',
      App.bulkLoop ext env messages results errors st
      = (Ok ((results ++ successes (attempts ext env messages st))%list,
             (errors ++ failures (attempts ext env messages st))%list),
         st')
      /\ sent st' = sent st.
Proof.
  induction messages as [|m rest IH]; intros results errors st H.
  - exists st. cbn [App.bulkLoop attempts successes failures flat_map].
    now rewrite !app_nil_r.
  - inversion H as [|? ? Hm Hrest]; subst.
    pose proof (sendAndRecord_same m st) as S. unfold sameResponse, after in S.
    cbn [App.bulkLoop attempts].
    destruct (App.sendAndRecord ext env m st) as [[entry|e] st1] eqn:E; cbn [snd] in S.
    + assert (T : tryCatch
                    (entry <- App.sendAndRecord ext env m ;;
                     ret ((results ++ [entry])%list, errors))
                    (fun e => entry <- App.errorEntry m e ;;
                              ret (results, (errors ++ [entry])%list)) st
                  = (Ok ((results ++ [entry])%list, errors), st1)).
      { unfold tryCatch, bind. now rewrite E. }
      rewrite (bind_Ok _ _ _ _ _ T). unfold sleep.
      rewrite (bind_Ok _ _ _ _ _ (emit_run _ _)). cbn [fst snd].
      destruct (IH (results ++ [entry])%list errors
                  (mkState (world st1) (trace st1 ++ [ESleep 1000]) (sent st1)) Hrest)
        as (st' & H1 & H2).
      exists st'. rewrite H1. split; [|now rewrite H2].
      unfold successes, failures. cbn [flat_map snd app].
      now rewrite <- app_assoc.
    + assert (T : tryCatch
                    (entry <- App.sendAndRecord ext env m ;;
                     ret ((results ++ [entry])%list, errors))
                    (fun e => entry <- App.errorEntry m e ;;
                              ret (results, (errors ++ [entry])%list)) st
                  = (Ok (results,
                         (errors ++ [VObj [("to", prop m "to");
                                           ("error", VStr (errMessage e))]])%list),
                     st1)).
      { unfold tryCatch. rewrite (bind_Throw _ _ _ _ _ E).
        unfold App.errorEntry.
        rewrite (bind_Ok _ _ _ _ _
                   (bind_Ok _ _ _ _ _ (getProp_Ok m "to" st1 Hm))).
        reflexivity. }
      rewrite (bind_Ok _ _ _ _ _ T). unfold sleep.
      rewrite (bind_Ok _ _ _ _ _ (emit_run _ _)). cbn [fst snd].
      destruct (IH results
                  (errors ++ [VObj [("to", prop m "to");
                                    ("error", VStr (errMessage e))]])%list
                  (mkState (world st1) (trace st1 ++ [ESleep 1000]) (sent st1)) Hrest)
        as (st' & H1 & H2).
      exists st'. rewrite H1. split; [|now rewrite H2].
      unfold successes, failures. cbn [flat_map snd fst app].
      now rewrite <- app_assoc.
Qed.

Lemma attempts_messages :
  forall messages (st : State World),
    map fst (attempts ext env messages st) = messages.
Proof.
  induction messages as [|m rest IH]; intros st; cbn [attempts]; [reflexivity|].
  destruct (App.sendAndRecord ext env m st) as [r st1]. cbn [map fst].
  now rewrite IH.
Qed.

End Bulk.

Lemma outcomes_split :
  forall outs : list (value * Result value),
    List.length (successes outs) + List.length (failures outs) = List.length outs.
Proof.
  induction outs as [|[m [entry|e]] outs IH]; [reflexivity| |];
    unfold successes, failures in *; cbn [flat_map snd fst app List.length]; lia.
Qed.

(** X29. A bulk request whose [messages] is an array of message objects
    (none of them [null]) is answered 200 with success, results, errors,
    whatever the fate of each message: every message is attempted in
    turn; each one whose sending and recording went through contributes
    its entry to [results], each one for which the send, or the
    recording after it, threw contributes the entry with its [to] and the
    error's message to [errors], and nothing else is in either. *)
Theorem bulk_send_isolates_failures :
  forall (World : Type) (ext : Collaborators World) (env : Env)
         (reqBody : value) (messages : list value) (w : World),
    prop reqBody "messages" = VArr messages ->
    Forall (fun m => nullish m = false) messages ->
    let outs := attempts ext env messages (fresh w) in
    responseOf (App.postSendBulkMessages ext env reqBody) w
    = Some (mkResponse 200
              (VObj [("success", VBool true);
                     ("results", VArr (successes outs));
                     ("errors", VArr (failures outs))]))
    /\ map fst outs = messages
    /\ List.length (successes outs) + List.length (failures outs) = List.length messages
    /\ (forall m entry, In (m, Ok entry) outs -> In entry (successes outs))
    /\ (forall m e,
           In (m, Throw e) outs ->
           In (VObj [("to", prop m "to"); ("error", VStr (errMessage e))]) (failures outs)).
Proof.
  intros World ext env reqBody messages w Hm Hobj outs.
  assert (B : nullish reqBody = false).
  { destruct (nullish reqBody) eqn:B; [|reflexivity].
    rewrite (prop_nullish _ "messages" B) in Hm. discriminate Hm. }
  split; [|split; [|split; [|split]]].
  - unfold responseOf, after, App.postSendBulkMessages, tryCatch.
    rewrite (bind_Ok _ _ _ _ _ (getProp_Ok reqBody "messages" (fresh w) B)).
    rewrite Hm.
    rewrite (bind_Ok _ _ _ _ _
               (eq_refl : iterate "messages" (VArr messages) (fresh w)
                          = (Ok messages, fresh w))).
    destruct (bulkLoop_spec ext env messages [] [] (fresh w) Hobj) as (st' & H1 & H2).
    rewrite (bind_Ok _ _ _ _ _ H1). cbn [fst snd app].
    unfold send. rewrite H2. reflexivity.
  - apply attempts_messages.
  - rewrite outcomes_split. unfold outs.
    now rewrite <- (length_map fst), attempts_messages.
  - intros m entry Hin. unfold successes. apply in_flat_map.
    exists (m, Ok entry). split; [exact Hin | now left].
  - intros m e Hin. unfold failures. apply in_flat_map.
    exists (m, Throw e). split; [exact Hin | now left].
Qed.

Lemma bulk_send_isolates_failures_example :
  responseOf (App.postSendBulkMessages Sample.ext Sample.env Sample.bulkRequest) tt
  = Some (mkResponse 200
            (VObj [("success", VBool true);
                   ("results",
                    VArr [VObj [("to", VStr "whatsapp:+15551234");
                                ("whatsappMessageId", VStr "wamid.1");
                                ("messageHistoryId", VNum 41)]]);
                   ("errors",
                    VArr [VObj [("to", VStr "+15550000");
                                ("error", VStr "Request failed with status code 400")]])]))
  /\ map (fun r => prop (data r) "to")
         (httpRequests
            (eventsOf (App.postSendBulkMessages Sample.ext Sample.env Sample.bulkRequest) tt))
     = [VStr "15550000"; VStr "15551234"].
Proof.
  split; [|reflexivity].
  refine (proj1 (bulk_send_isolates_failures unit Sample.ext Sample.env Sample.bulkRequest
                   _ tt eq_refl _)).
  repeat constructor.
Defined.

(** * Further properties of the sources *)

(** ** The classifier, completely *)

(** X1. The outcome of a text is decided by which keyword groups its
    lower-cased form mentions on word boundaries, in the order
    confirmed, declined, maybe; a text that mentions none is pending. *)
Theorem classifier_decision_table :
  forall text,
    let t := Str.toLowerCase text in
    (Classifier.rsvpStatus text = Confirmed <-> mentions Classifier.GConfirmed t)
    /\ (Classifier.rsvpStatus text = Declined <->
        ~ mentions Classifier.GConfirmed t /\ mentions Classifier.GDeclined t)
    /\ (Classifier.rsvpStatus text = Maybe <->
        ~ mentions Classifier.GConfirmed t /\ ~ mentions Classifier.GDeclined t
        /\ mentions Classifier.GMaybe t)
    /\ (Classifier.rsvpStatus text = Pending <->
        ~ mentions Classifier.GConfirmed t /\ ~ mentions Classifier.GDeclined t
        /\ ~ mentions Classifier.GMaybe t).
Proof.
  intros text t.
  pose proof (test_group Classifier.GConfirmed t) as HC.
  pose proof (test_group Classifier.GDeclined t) as HD.
  pose proof (test_group Classifier.GMaybe t) as HM.
  fold (mentions Classifier.GConfirmed t) in HC.
  fold (mentions Classifier.GDeclined t) in HD.
  fold (mentions Classifier.GMaybe t) in HM.
  cbn [Classifier.regexOf] in HC, HD, HM.
  unfold Classifier.rsvpStatus, Classifier.classifyLowered. fold t.
  rewrite <- HC, <- HD, <- HM.
  destruct (Regex.test Classifier.confirmedRegex t);
    destruct (Regex.test Classifier.declinedRegex t);
    destruct (Regex.test Classifier.maybeRegex t);
    intuition congruence.
Qed.

Lemma lastChar_app :
  forall a b,
    Str.lastChar (a ++ b)
    = match Str.lastChar b with Some c => Some c | None => Str.lastChar a end.
Proof.
  induction a as [|x a IH]; intros b; simpl.
  - now destruct (Str.lastChar b).
  - rewrite IH. destruct (Str.lastChar b); [reflexivity|].
    now destruct (Str.lastChar a).
Qed.

Lemma string_app_assoc :
  forall a b c : string, (a ++ b) ++ c = a ++ b ++ c.
Proof.
  induction a as [|x a IH]; intros b c; simpl; [reflexivity|]. now rewrite IH.
Qed.

(** X2. The declined keyword "not attending" never decides: a text
    that has it on word boundaries has "attending" on word boundaries
    too, and is classified confirmed. *)
Theorem not_attending_is_confirmed :
  forall text,
    Regex.onWordBoundaries "not attending" (Str.toLowerCase text) ->
    Classifier.rsvpStatus text = Confirmed.
Proof.
  intros text (pre & post & E & Hpre & Hpost).
  unfold Classifier.rsvpStatus, Classifier.classifyLowered.
  assert (T : Regex.test Classifier.confirmedRegex (Str.toLowerCase text) = true).
  { apply (test_group Classifier.GConfirmed). exists "attending". split.
    - simpl. auto.
    - exists (pre ++ "not "), post. split; [|split].
      + rewrite E, string_app_assoc. reflexivity.
      + rewrite lastChar_app. reflexivity.
      + exact Hpost. }
  now rewrite T.
Qed.

Lemma not_attending_is_confirmed_example :
  Regex.onWordBoundaries "not attending" (Str.toLowerCase "Sorry, NOT attending.")
  /\ Classifier.rsvpStatus "Sorry, NOT attending." = Confirmed.
Proof.
  assert (H : Regex.onWordBoundaries "not attending"
                (Str.toLowerCase "Sorry, NOT attending.")).
  { exists "sorry, ", ".". repeat split. }
  split; [exact H|]. exact (not_attending_is_confirmed _ H).
Defined.

(** ** [parseWebhookPayload], edge by edge *)

Section ParseFacts.
Context {World : Type}.

Let same (a b : State World) : Prop := b = a.

Lemma same_refl : forall st, same st st.
Proof. reflexivity. Qed.

Lemma same_trans : forall a b c, same a b -> same b c -> same a c.
Proof. unfold same. intros a b c H1 H2. now rewrite H2. Qed.

Ltac step := apply (respects_bind _ same_trans).
Ltac pure :=
  first [ apply respects_getProp | apply respects_getFirst | apply respects_ret ];
  apply same_refl.

(** The [try] block of [parseWebhookPayload] has no effect at all. *)
Lemma parse_try_pure :
  forall body,
    respects same
      (entries <- @getProp World body "entry" ;;
       let value := descend entries in
       if negb (truthy value) || negb (truthy (prop value "messages")) then ret None
       else
         messages <- getProp value "messages" ;;
         message <- getFirst messages ;;
         contacts <- getProp value "contacts" ;;
         let contact := optFirst contacts in
         id <- getProp message "id" ;;
         sender <- getProp message "from" ;;
         time <- getProp message "timestamp" ;;
         kind <- getProp message "type" ;;
         messageText <- getProp message "text" ;;
         ret (Some
                {| Lib.messageId := id;
                   Lib.from := sender;
                   Lib.timestamp := time;
                   Lib.type := kind;
                   Lib.text := orElse (optProp messageText "body") (VStr "");
                   Lib.contactName :=
                     orElse (optProp (optProp contact "profile") "name") (VStr "");
                   Lib.waId := orElse (optProp contact "wa_id") (prop message "from") |})).
Proof.
  intros body. step; [pure | intros entries _]. cbv zeta.
  destruct (negb (truthy (descend entries))
            || negb (truthy (prop (descend entries) "messages"))); [pure|].
  repeat (step; [pure | intros ? _]). pure.
Qed.

End ParseFacts.

(** X3. [parseWebhookPayload] never throws, whatever it is given, and
    has no effect but at most one [console.error]: either it returns with
    the state untouched, or it returns [null] having logged the error it
    caught. *)
Theorem parse_never_throws :
  forall (World : Type) (body : value) (st : State World),
    (exists r, Lib.parseWebhookPayload body st = (Ok r, st))
    \/ (exists e,
           Lib.parseWebhookPayload body st
           = (Ok None,
              mkState (world st)
                      (trace st ++ [ELog "error" [VStr "Error parsing webhook payload:";
                                                  errorValue e]])
                      (sent st))).
Proof.
  intros World body st. unfold Lib.parseWebhookPayload, tryCatch.
  pose proof (parse_try_pure body st) as H. unfold after in H.
  match goal with
  | |- context [match ?m st with _ => _ end] => destruct (m st) as [[r|e] st'] eqn:E
  end; cbn [snd] in H; subst st'.
  - left. now exists r.
  - right. now exists e.
Qed.

(** X4. A body that is there but lacks a link of
    [entry[0].changes[0].value] parses to [null] with no effect at all:
    nothing is logged. *)
Theorem parse_missing_link_is_null :
  forall (World : Type) (body : value) (st : State World),
    nullish body = false ->
    linkMissing body = true ->
    Lib.parseWebhookPayload body st = (Ok None, st).
Proof.
  intros World body st B H. rewrite linkMissing_webhookValue in H.
  unfold Lib.parseWebhookPayload, tryCatch.
  rewrite (bind_Ok _ _ _ _ _ (getProp_Ok body "entry" st B)).
  fold (webhookValue body). now rewrite (nullish_falsy _ H).
Qed.

Lemma parse_missing_link_is_null_example :
  Lib.parseWebhookPayload
    (VObj [("object", VStr "whatsapp_business_account"); ("entry", VArr [])]) (fresh tt)
  = (Ok None, fresh tt).
Proof.
  exact (parse_missing_link_is_null unit
           (VObj [("object", VStr "whatsapp_business_account"); ("entry", VArr [])])
           (fresh tt) eq_refl eq_refl).
Defined.

(** X5. A [messages] field that is there but has no first entry (an
    empty array) is not recognised as absent: [parseWebhookPayload] goes
    on to read [messages[0].id], catches the [TypeError], logs it, and
    returns [null]. *)
Theorem parse_empty_messages_is_null :
  forall (World : Type) (body : value) (st : State World),
    truthy (prop (webhookValue body) "messages") = true ->
    nullish (first (prop (webhookValue body) "messages")) = true ->
    Lib.parseWebhookPayload body st
    = (Ok None,
       mkState (world st)
               (trace st
                ++ [ELog "error"
                      [VStr "Error parsing webhook payload:";
                       errorValue
                         (cannotRead (first (prop (webhookValue body) "messages")) "id")]])
               (sent st)).
Proof.
  intros World body st Hm Hf.
  assert (N : nullish (webhookValue body) = false).
  { destruct (nullish (webhookValue body)) eqn:N; [|reflexivity].
    rewrite (prop_nullish _ "messages" N) in Hm. discriminate Hm. }
  destruct (webhookValue_object body N) as [ps ->].
  assert (V : truthy (webhookValue (VObj ps)) = true).
  { destruct (webhookValue (VObj ps)); try discriminate N; try reflexivity;
      simpl in Hm; discriminate Hm. }
  assert (M : nullish (prop (webhookValue (VObj ps)) "messages") = false).
  { destruct (prop (webhookValue (VObj ps)) "messages"); try discriminate Hm; reflexivity. }
  unfold Lib.parseWebhookPayload, tryCatch.
  rewrite (bind_Ok _ _ _ _ _ (getProp_Ok (VObj ps) "entry" st eq_refl)).
  fold (webhookValue (VObj ps)). rewrite V, Hm. cbn [negb orb].
  rewrite (bind_Ok _ _ _ _ _ (getProp_Ok _ "messages" st N)).
  rewrite (bind_Ok _ _ _ _ _ (getFirst_Ok _ st M)).
  rewrite (bind_Ok _ _ _ _ _ (getProp_Ok _ "contacts" st N)).
  rewrite (bind_Throw _ _ _ _ _ (getProp_Throw _ "id" st Hf)).
  reflexivity.
Qed.

Lemma parse_empty_messages_is_null_example :
  fst (Lib.parseWebhookPayload Sample2.emptyMessages (fresh tt)) = Ok None
  /\ List.length (trace (snd (Lib.parseWebhookPayload Sample2.emptyMessages (fresh tt)))) = 1.
Proof.
  rewrite (parse_empty_messages_is_null unit Sample2.emptyMessages (fresh tt)
             eq_refl eq_refl).
  split; reflexivity.
Defined.

(** X6. Only the first message of a payload is read, and the contact is
    optional: for a payload whose [messages] starts with an object and
    whose [contacts] has no first entry, the record has the message's
    [id], [from], [timestamp] and [type], an empty [contactName], and
    the sender's number as [waId]; the messages after the first do not
    matter. *)
Theorem parse_contact_fallback :
  forall (World : Type) (body : value) (st : State World)
         (message : list (string * value)) (rest : list value),
    prop (webhookValue body) "messages" = VArr (VObj message :: rest) ->
    nullish (first (prop (webhookValue body) "contacts")) = true ->
    Lib.parseWebhookPayload body st
    = (Ok (Some
             {| Lib.messageId := lookup "id" message;
                Lib.from := lookup "from" message;
                Lib.timestamp := lookup "timestamp" message;
                Lib.type := lookup "type" message;
                Lib.text := orElse (optProp (lookup "text" message) "body") (VStr "");
                Lib.contactName := VStr "";
                Lib.waId := lookup "from" message |}),
       st).
Proof.
  intros World body st message rest H C.
  assert (N : nullish (webhookValue body) = false).
  { destruct (nullish (webhookValue body)) eqn:N; [|reflexivity].
    rewrite (prop_nullish _ "messages" N) in H. discriminate H. }
  destruct (webhookValue_object body N) as [ps ->].
  assert (V : truthy (webhookValue (VObj ps)) = true).
  { destruct (webhookValue (VObj ps)); simpl in H; try discriminate H; reflexivity. }
  unfold Lib.parseWebhookPayload, tryCatch.
  rewrite (bind_Ok _ _ _ _ _ (getProp_Ok (VObj ps) "entry" st eq_refl)).
  fold (webhookValue (VObj ps)). rewrite V, H. cbn [truthy negb orb].
  rewrite (bind_Ok _ _ _ _ _ (getProp_Ok _ "messages" st N)). rewrite H.
  rewrite (bind_Ok _ _ _ _ _ (getFirst_Ok (VArr (VObj message :: rest)) st eq_refl)).
  rewrite (bind_Ok _ _ _ _ _ (getProp_Ok _ "contacts" st N)).
  cbn [first hd].
  rewrite (bind_Ok _ _ _ _ _ (getProp_Ok (VObj message) "id" st eq_refl)).
  rewrite (bind_Ok _ _ _ _ _ (getProp_Ok (VObj message) "from" st eq_refl)).
  rewrite (bind_Ok _ _ _ _ _ (getProp_Ok (VObj message) "timestamp" st eq_refl)).
  rewrite (bind_Ok _ _ _ _ _ (getProp_Ok (VObj message) "type" st eq_refl)).
  rewrite (bind_Ok _ _ _ _ _ (getProp_Ok (VObj message) "text" st eq_refl)).
  rewrite optFirst_first.
  unfold optProp at 2 3 4. rewrite C. cbn [prop orElse truthy optProp nullish].
  reflexivity.
Qed.

Lemma parse_contact_fallback_example :
  exists m,
    Lib.parseWebhookPayload Sample2.textMessageNoContact (fresh tt) = (Ok (Some m), fresh tt)
    /\ Lib.waId m = VStr "15551234" /\ Lib.contactName m = VStr "".
Proof.
  eexists. split.
  - exact (parse_contact_fallback unit Sample2.textMessageNoContact (fresh tt)
             _ _ eq_refl eq_refl).
  - split; reflexivity.
Defined.

(** ** Every route answers *)

Section Ensures.
Context {World : Type}.
Variable ext : Collaborators World.

Lemma ensures_bind :
  forall {A B} (m : M World A) (k : A -> M World B) Q,
    respects sameResponse m ->
    (forall a, ensures (k a) Q) ->
    ensures (bind m k) Q.
Proof.
  intros A B m k Q Hm Hk st Hs. unfold bind.
  specialize (Hm st). unfold sameResponse, after in Hm.
  destruct (m st) as [[a|e] st1]; cbn [snd] in Hm.
  - apply Hk. now rewrite Hm.
  - now rewrite Hm.
Qed.

Lemma ensures_send :
  forall c b,
    ensures (@send World c b) (fun _ st' => sent st' = Some (mkResponse c b)).
Proof. intros c b st Hs. unfold send. now rewrite Hs. Qed.

Lemma ensures_throw :
  forall {A} e (Q : A -> State World -> Prop), ensures (throw e) Q.
Proof. intros A e Q st Hs. exact Hs. Qed.

Lemma same_getProp : forall v k, respects sameResponse (@getProp World v k).
Proof. intros v k. apply respects_getProp, sameResponse_refl. Qed.

Lemma same_getFirst : forall v, respects sameResponse (@getFirst World v).
Proof. intros v. apply respects_getFirst, sameResponse_refl. Qed.

Lemma same_iterate : forall what v, respects sameResponse (@iterate World what v).
Proof. intros what v. apply respects_iterate, sameResponse_refl. Qed.

Lemma same_logStatus : forall s, respects sameResponse (@App.logStatus World s).
Proof.
  intros s. unfold App.logStatus, App.statusRecord.
  apply (respects_bind _ sameResponse_trans).
  - repeat (apply (respects_bind _ sameResponse_trans); [apply same_getProp | intros ? _]).
    apply respects_ret, sameResponse_refl.
  - intros r _. apply same_emit.
Qed.

(** The status branch either sends 200 and reports that it returned, or
    sends nothing. *)
Lemma statusBranch_ensures :
  forall v,
    ensures (@App.statusBranch World v)
      (fun returned st' =>
         if returned then sent st' = Some (mkResponse 200 (VStr "OK"))
         else sent st' = None).
Proof.
  intros v. unfold App.statusBranch.
  destruct (negb (truthy v) || negb (truthy (prop v "messages")));
    [|intros st Hs; exact Hs].
  destruct (truthy (optProp (optProp v "statuses") "length"));
    [|intros st Hs; exact Hs].
  apply ensures_bind; [apply same_iterate | intros statuses].
  apply ensures_bind.
  { apply respects_forEach;
      [apply sameResponse_refl | apply sameResponse_trans | apply same_logStatus]. }
  intros _ st Hs. unfold bind, send, ret. now rewrite Hs.
Qed.

Lemma same_updateInvitee :
  forall invitee rsvp text,
    respects sameResponse (App.updateInvitee ext invitee rsvp text).
Proof.
  intros invitee rsvp text.
  assert (G : respects sameResponse
                (info <- @getProp World invitee "additional_info" ;;
                 note <- (if truthy info then
                            info' <- getProp invitee "additional_info" ;;
                            iso <- newDate ext ;;
                            ret (display info' ++ newline ++ iso ++ ": " ++ text)
                          else
                            iso <- newDate ext ;;
                            ret (iso ++ ": " ++ text)) ;;
                 updatedAt <- newDate ext ;;
                 inviteeId <- getProp invitee "id" ;;
                 dbQuery ext
                   (DbUpdateEq "invitees"
                      (VObj [("rsvp_status", VStr (Classifier.outcomeName rsvp));
                             ("additional_info", VStr note);
                             ("updated_at", VStr updatedAt)])
                      "id" inviteeId) ;;;
                 ret tt)).
  { apply (respects_bind _ sameResponse_trans); [apply same_getProp | intros info _].
    apply (respects_bind _ sameResponse_trans).
    { destruct (truthy info).
      - apply (respects_bind _ sameResponse_trans); [apply same_getProp | intros ? _].
        apply (respects_bind _ sameResponse_trans); [apply same_newDate | intros ? _].
        apply respects_ret, sameResponse_refl.
      - apply (respects_bind _ sameResponse_trans); [apply same_newDate | intros ? _].
        apply respects_ret, sameResponse_refl. }
    intros note _.
    apply (respects_bind _ sameResponse_trans); [apply same_newDate | intros ? _].
    apply (respects_bind _ sameResponse_trans); [apply same_getProp | intros ? _].
    apply (respects_bind _ sameResponse_trans); [apply same_dbQuery | intros ? _].
    apply respects_ret, sameResponse_refl. }
  destruct rsvp; cbn [App.updateInvitee]; try exact G.
  apply respects_ret, sameResponse_refl.
Qed.

(** The message branch returns only after it has sent 200. *)
Lemma messageBranch_ensures :
  forall v,
    ensures (App.messageBranch ext v)
      (fun _ st' => sent st' = Some (mkResponse 200 (VStr "OK"))).
Proof.
  intros v. unfold App.messageBranch.
  apply ensures_bind; [apply same_getProp | intros messages].
  apply ensures_bind; [apply same_getFirst | intros message].
  apply ensures_bind; [apply same_getProp | intros contacts].
  apply ensures_bind; [apply same_getProp | intros text].
  apply ensures_bind; [apply same_getProp | intros sender].
  apply ensures_bind; [apply same_getProp | intros messageId].
  apply ensures_bind; [apply same_dbQuery | intros reply].
  apply ensures_bind; [|intros _; apply ensures_send].
  destruct (negb (truthy (replyError reply)) && truthy (optFirst (replyData reply)));
    [|apply respects_ret, sameResponse_refl].
  apply (respects_bind _ sameResponse_trans); [apply same_getFirst | intros invitee _].
  apply (respects_bind _ sameResponse_trans);
    [apply respects_strToLowerCase, sameResponse_refl | intros t _].
  apply (respects_bind _ sameResponse_trans); [apply same_updateInvitee | intros _ _].
  apply (respects_bind _ sameResponse_trans); [apply same_getProp | intros ? _].
  apply (respects_bind _ sameResponse_trans); [apply same_newDate | intros ? _].
  apply (respects_bind _ sameResponse_trans); [apply same_newDate | intros ? _].
  apply (respects_bind _ sameResponse_trans); [apply same_dbQuery | intros ? _].
  apply respects_ret, sameResponse_refl.
Qed.

(** Past the empty-body test, the route returns only after it has sent
    200, and throws only with nothing sent. *)
Lemma delivery_try_ensures :
  forall v,
    ensures
      (returned <- App.statusBranch v ;;
       if returned then ret tt else App.messageBranch ext v)
      (fun _ st' => sent st' = Some (mkResponse 200 (VStr "OK"))).
Proof.
  intros v st Hs. unfold bind.
  pose proof (statusBranch_ensures v st Hs) as S.
  destruct (App.statusBranch v st) as [[[|]|e] st2].
  - exact S.
  - exact (messageBranch_ensures v st2 S).
  - exact S.
Qed.

End Ensures.

(** X7. The delivery route always completes and always answers, with
    one of three fixed responses: 400 "Bad Request: Empty body" exactly
    when the body is falsy, and otherwise 200 "OK" or 500 "Error
    processing webhook", whatever the body holds and whatever the
    datastore does. *)
Theorem delivery_always_answers :
  forall (World : Type) (ext : Collaborators World) (body : value) (w : World),
    fst (App.postWebhookResponse ext body (fresh w)) = Ok tt
    /\ exists r,
        responseOf (App.postWebhookResponse ext body) w = Some r
        /\ (truthy body = false -> r = mkResponse 400 (VStr "Bad Request: Empty body"))
        /\ (truthy body = true ->
            r = mkResponse 200 (VStr "OK")
            \/ r = mkResponse 500 (VStr "Error processing webhook")).
Proof.
  intros World ext body w. unfold responseOf, after.
  rewrite postWebhookResponse_start. unfold tryCatch.
  destruct (truthy body) eqn:B; cbn [negb].
  - pose proof (delivery_try_ensures ext (webhookValue body)
                  (mkState (snd (clock ext w)) (requestLogs ext body w) None) eq_refl) as I.
    match goal with
    | |- context [match ?m ?s with _ => _ end] => destruct (m s) as [[[]|e] st2]
    end.
    + cbn. split; [reflexivity|]. eexists. split; [exact I|].
      split; [discriminate | intros _; now left].
    + unfold bind, headersSent, send. cbn. rewrite I. cbn. rewrite I. cbn.
      split; [reflexivity|]. eexists. split; [reflexivity|].
      split; [discriminate | intros _; now right].
  - cbn. split; [reflexivity|]. eexists. split; [reflexivity|].
    split; [reflexivity | discriminate].
Qed.

(** ** The delivery route on a message *)

Section MessageFacts.
Context {World : Type}.
Variable ext : Collaborators World.

Lemma dbQuery_Ok :
  forall q reply (st : State World),
    fst (supabase ext q (world st)) = Ok reply ->
    dbQuery ext q st
    = (Ok reply,
       mkState (snd (supabase ext q (world st))) (trace st ++ [EDb q]) (sent st)).
Proof. intros q reply st H. rewrite dbQuery_run. now rewrite H. Qed.

Lemma statusBranch_message :
  forall v (st : State World),
    truthy v = true ->
    truthy (prop v "messages") = true ->
    App.statusBranch v st = (Ok false, st).
Proof. intros v st Hv Hm. unfold App.statusBranch. now rewrite Hv, Hm. Qed.

(** The message branch up to the answer of the invitee lookup. *)
Lemma messageBranch_lookup :
  forall v message rest reply (st : State World),
    prop v "messages" = VArr (VObj message :: rest) ->
    fst (supabase ext
           (DbSelectEq "invitees" "*" "phone_number" (lookup "from" message) 1)
           (world st)) = Ok reply ->
    App.messageBranch ext v st
    = bind
           (if negb (truthy (replyError reply)) && truthy (optFirst (replyData reply))
            then
              invitee <- getFirst (replyData reply) ;;
              t <- strToLowerCase "messageText"
                     (orElse (optProp (lookup "text" message) "body") (VStr "")) ;;
              App.updateInvitee ext invitee (Classifier.classifyLowered t)
                (display (orElse (optProp (lookup "text" message) "body") (VStr ""))) ;;;
              inviteeId <- getProp invitee "id" ;;
              sentAt <- newDate ext ;;
              receivedAt <- newDate ext ;;
              dbQuery ext
                (DbInsert "message_history"
                   [VObj [("invitee_id", inviteeId);
                          ("message_body",
                           orElse (optProp (lookup "text" message) "body") (VStr ""));
                          ("sent_at", VStr sentAt);
                          ("status", VStr "delivered");
                          ("response_received", VBool true);
                          ("response_text",
                           orElse (optProp (lookup "text" message) "body") (VStr ""));
                          ("response_received_at", VStr receivedAt);
                          ("whatsapp_message_id", lookup "id" message)]]
                   false) ;;;
              ret tt
            else ret tt)
        (fun _ => send 200 (VStr "OK"))
        (mkState
           (snd (supabase ext
                   (DbSelectEq "invitees" "*" "phone_number" (lookup "from" message) 1)
                   (world st)))
           (trace st
            ++ [EDb (DbSelectEq "invitees" "*" "phone_number" (lookup "from" message) 1)])
           (sent st)).
Proof.
  intros v message rest reply st H Hr.
  assert (N : nullish v = false).
  { destruct (nullish v) eqn:N; [|reflexivity].
    rewrite (prop_nullish _ "messages" N) in H. discriminate H. }
  unfold App.messageBranch.
  rewrite (bind_Ok _ _ _ _ _ (getProp_Ok v "messages" st N)). rewrite H.
  rewrite (bind_Ok _ _ _ _ _ (getFirst_Ok (VArr (VObj message :: rest)) st eq_refl)).
  rewrite (bind_Ok _ _ _ _ _ (getProp_Ok v "contacts" st N)).
  cbn [first hd].
  rewrite (bind_Ok _ _ _ _ _ (getProp_Ok (VObj message) "text" st eq_refl)).
  rewrite (bind_Ok _ _ _ _ _ (getProp_Ok (VObj message) "from" st eq_refl)).
  rewrite (bind_Ok _ _ _ _ _ (getProp_Ok (VObj message) "id" st eq_refl)).
  cbn [prop].
  rewrite (bind_Ok _ _ _ _ _ (dbQuery_Ok _ reply st Hr)).
  reflexivity.
Qed.

End MessageFacts.

(** X8. A message from a number the datastore does not know (the lookup
    answers with an error, or with no row) is answered 200 "OK" and
    leaves no record: the lookup is the only datastore call of the run. *)
Theorem unknown_sender_is_dropped :
  forall (World : Type) (ext : Collaborators World) (body : value)
         (message : list (string * value)) (rest : list value)
         (reply : DbReply) (w : World),
    prop (webhookValue body) "messages" = VArr (VObj message :: rest) ->
    fst (supabase ext
           (DbSelectEq "invitees" "*" "phone_number" (lookup "from" message) 1)
           (snd (clock ext w))) = Ok reply ->
    truthy (replyError reply) = true \/ truthy (optFirst (replyData reply)) = false ->
    responseOf (App.postWebhookResponse ext body) w = Some (mkResponse 200 (VStr "OK"))
    /\ dbQueries (eventsOf (App.postWebhookResponse ext body) w)
       = [DbSelectEq "invitees" "*" "phone_number" (lookup "from" message) 1].
Proof.
  intros World ext body message rest reply w H Hr Hc.
  assert (N : nullish (webhookValue body) = false).
  { destruct (nullish (webhookValue body)) eqn:N; [|reflexivity].
    rewrite (prop_nullish _ "messages" N) in H. discriminate H. }
  destruct (webhookValue_object body N) as [ps ->].
  assert (V : truthy (webhookValue (VObj ps)) = true).
  { destruct (webhookValue (VObj ps)); simpl in H; try discriminate H; reflexivity. }
  assert (M : truthy (prop (webhookValue (VObj ps)) "messages") = true).
  { now rewrite H. }
  assert (C : negb (truthy (replyError reply)) && truthy (optFirst (replyData reply))
              = false).
  { destruct Hc as [-> | ->]; [reflexivity | apply andb_false_r]. }
  unfold responseOf, eventsOf, after.
  rewrite postWebhookResponse_start. unfold tryCatch. cbn [truthy negb].
  rewrite (bind_Ok _ _ _ _ _ (statusBranch_message _ _ V M)).
  rewrite (messageBranch_lookup ext _ message rest reply
             (mkState (snd (clock ext w)) (requestLogs ext (VObj ps) w) None) H Hr).
  rewrite C. split; reflexivity.
Qed.

Lemma unknown_sender_is_dropped_example :
  responseOf (App.postWebhookResponse Sample2.extStrangers (Sample.textMessage "yes")) tt
  = Some (mkResponse 200 (VStr "OK"))
  /\ dbQueries (eventsOf (App.postWebhookResponse Sample2.extStrangers
                            (Sample.textMessage "yes")) tt)
     = [DbSelectEq "invitees" "*" "phone_number" (VStr "15551234") 1].
Proof.
  refine (unknown_sender_is_dropped unit Sample2.extStrangers (Sample.textMessage "yes")
            _ _ _ tt eq_refl eq_refl _).
  right. reflexivity.
Defined.

Section UpdateFacts.
Context {World : Type}.
Variable ext : Collaborators World.

Let any (e : Event) : Prop := True.

Ltac step := apply (respects_bind _ (extendsWith_trans any)).
Ltac pure :=
  first [ apply respects_getProp | apply respects_getFirst | apply respects_ret ];
  apply extendsWith_refl.





End UpdateFacts.




(** ** The bulk route, edge by edge *)

Lemma picked_none :
  forall (A : Type) (pick : Event -> option A) (evs : list Event),
    Forall (fun e => pick e = None) evs -> picked pick evs = [].
Proof.
  intros A pick evs F. induction F as [|e evs He _ IH]; [reflexivity|].
  unfold picked in *. cbn [flat_map]. now rewrite He, IH.
Qed.

Lemma picked_after_bind :
  forall {World A B C} (pick : Event -> option C)
         (m : M World A) (k : A -> M World B) st r st1,
    m st = (r, st1) ->
    (forall a, respects (extendsWith (fun e => pick e = None)) (k a)) ->
    picked pick (trace (after (bind m k) st)) = picked pick (trace st1).
Proof.
  intros World A B C pick m k st r st1 E Hk. unfold after, bind. rewrite E.
  destruct r as [a|e]; [|reflexivity].
  destruct (Hk a st1) as (evs & T & F). unfold after in T.
  now rewrite T, picked_app, (picked_none _ _ _ F), app_nil_r.
Qed.

Section BulkFacts.
Context {World : Type}.
Variable ext : Collaborators World.
Variable env : Env.

(** One turn of the loop on a message that is not [null] never throws:
    it leaves the state in which sending and recording ended. *)
Lemma bulk_turn :
  forall m results errors (st : State World),
    nullish m = false ->
    exists acc,
      tryCatch
        (entry <- App.sendAndRecord ext env m ;; ret ((results ++ [entry])%list, errors))
        (fun e => entry <- App.errorEntry m e ;; ret (results, (errors ++ [entry])%list))
        st
      = (Ok acc, snd (App.sendAndRecord ext env m st)).
Proof.
  intros m results errors st Hm. unfold tryCatch, bind at 1.
  destruct (App.sendAndRecord ext env m st) as [[entry|e] st1]; cbn [snd].
  - now eexists.
  - unfold App.errorEntry.
    rewrite (bind_Ok _ _ _ _ _ (bind_Ok _ _ _ _ _ (getProp_Ok m "to" st1 Hm))).
    now eexists.
Qed.

Lemma same_errorEntry :
  forall m e, respects sameResponse (@App.errorEntry World m e).
Proof.
  intros m e. unfold App.errorEntry.
  apply (respects_bind _ sameResponse_trans); [apply same_getProp | intros ? _].
  apply respects_ret, sameResponse_refl.
Qed.

(** The loop sends no response, whatever its items are. *)
Lemma bulkLoop_same :
  forall items results errors,
    respects sameResponse (App.bulkLoop ext env items results errors).
Proof.
  induction items as [|m items IH]; intros results errors; cbn [App.bulkLoop].
  - apply respects_ret, sameResponse_refl.
  - apply (respects_bind _ sameResponse_trans).
    + apply respects_tryCatch; [apply sameResponse_trans | |].
      * apply (respects_bind _ sameResponse_trans);
          [apply sendAndRecord_same | intros ? _; apply respects_ret, sameResponse_refl].
      * intros e. apply (respects_bind _ sameResponse_trans);
          [apply same_errorEntry | intros ? _; apply respects_ret, sameResponse_refl].
    + intros acc _. apply (respects_bind _ sameResponse_trans);
        [apply same_emit | intros _ _; apply IH].
Qed.

(** A [null] entry stops the loop where it stands. *)
Lemma bulkLoop_null :
  forall post pre results errors (st : State World),
    Forall (fun m => nullish m = false) pre ->
    exists acc st',
      App.bulkLoop ext env pre results errors st = (Ok acc, st')
      /\ App.bulkLoop ext env (pre ++ VNull :: post) results errors st
         = (Throw (cannotRead VNull "to"), st').
Proof.
  intros post. induction pre as [|m pre IH]; intros results errors st H.
  - exists (results, errors), st. split; reflexivity.
  - inversion H as [|? ? Hm Hpre]; subst.
    cbn [App.bulkLoop app].
    destruct (bulk_turn m results errors st Hm) as (acc1 & T).
    rewrite !(bind_Ok _ _ _ _ _ T). unfold sleep.
    rewrite !(bind_Ok _ _ _ _ _ (emit_run _ _)).
    apply IH. exact Hpre.
Qed.

Lemma sendAndRecord_unconfigured :
  forall m (st : State World),
    configured env = false ->
    nullish m = false ->
    App.sendAndRecord ext env m st = (Throw App.configMissing, st).
Proof.
  intros m st Hc Hm. unfold App.sendAndRecord.
  rewrite (bind_Ok _ _ _ _ _ (getProp_Ok m "to" st Hm)).
  rewrite (bind_Ok _ _ _ _ _ (getProp_Ok m "body" st Hm)).
  unfold bind, App.sendTextMessage.
  unfold configured in Hc. apply andb_false_iff in Hc.
  destruct Hc as [-> | ->]; cbn [negb orb]; [reflexivity|].
  now rewrite orb_true_r.
Qed.

Lemma bulkLoop_unconfigured :
  forall messages results errors (st : State World),
    configured env = false ->
    Forall (fun m => nullish m = false) messages ->
    App.bulkLoop ext env messages results errors st
    = (Ok (results, (errors ++ map unconfiguredEntry messages)%list),
       mkState (world st)
               (trace st ++ repeat (ESleep 1000) (List.length messages))
               (sent st)).
Proof.
  induction messages as [|m messages IH]; intros results errors st Hc H.
  - cbn [App.bulkLoop map List.length repeat]. rewrite !app_nil_r. now destruct st.
  - inversion H as [|? ? Hm Hrest]; subst. cbn [App.bulkLoop].
    assert (T : tryCatch
                  (entry <- App.sendAndRecord ext env m ;;
                   ret ((results ++ [entry])%list, errors))
                  (fun e => entry <- App.errorEntry m e ;;
                            ret (results, (errors ++ [entry])%list)) st
                = (Ok (results, (errors ++ [unconfiguredEntry m])%list), st)).
    { unfold tryCatch.
      rewrite (bind_Throw _ _ _ _ _ (sendAndRecord_unconfigured m st Hc Hm)).
      unfold App.errorEntry.
      now rewrite (bind_Ok _ _ _ _ _ (bind_Ok _ _ _ _ _ (getProp_Ok m "to" st Hm))). }
    rewrite (bind_Ok _ _ _ _ _ T). unfold sleep.
    rewrite (bind_Ok _ _ _ _ _ (emit_run _ _)). cbn [fst snd].
    rewrite (IH _ _ _ Hc Hrest). cbn [world trace sent map List.length repeat].
    now rewrite <- !app_assoc.
Qed.

End BulkFacts.

(** C7.  A failing entry is not always kept apart.  In a request with
    the messages [A, null, ...], [A] any message object: reading [to] of
    the [null] entry throws inside the loop's [try], the [catch] reads
    [msgData.to] again to build the entry for [errors] and throws as
    well, and the loop is left.  The route answers 500, not 200, with
    neither [results] nor [errors], and the run is the run of a request
    with [A] alone: nothing after the [null] entry is attempted. *)
Theorem bulk_null_entry_is_not_isolated :
  forall (World : Type) (ext : Collaborators World) (env : Env)
         (to text : value) (rest : list value) (w : World),
    let first := VObj [("to", to); ("body", text)] in
    responseOf (App.postSendBulkMessages ext env (bulkOf (first :: VNull :: rest))) w
    = Some (mkResponse 500
              (VObj [("success", VBool false);
                     ("error", VStr "Cannot read properties of null (reading 'to')")]))
    /\ eventsOf (App.postSendBulkMessages ext env (bulkOf (first :: VNull :: rest))) w
       = eventsOf (App.postSendBulkMessages ext env (bulkOf [first])) w.
Proof.
  intros World ext env to text rest w first.
  assert (H : Forall (fun m => nullish m = false) [first]) by (repeat constructor).
  destruct (bulkLoop_null ext env rest [first] [] [] (fresh w) H) as (acc & st' & E1 & E2).
  pose proof (bulkLoop_same ext env [first] [] [] (fresh w)) as S.
  unfold sameResponse, after in S. rewrite E1 in S. cbn [snd fresh sent] in S.
  cbn [app] in E2.
  unfold responseOf, eventsOf, after, App.postSendBulkMessages, tryCatch, bulkOf.
  rewrite !(bind_Ok _ _ _ _ _ (getProp_Ok (VObj _) "messages" (fresh w) eq_refl)).
  cbn [prop lookup String.eqb Ascii.eqb Bool.eqb].
  rewrite (bind_Ok _ _ _ _ _
             (eq_refl : iterate "messages" (VArr (first :: VNull :: rest)) (fresh w)
                        = (Ok (first :: VNull :: rest), fresh w))).
  rewrite (bind_Ok _ _ _ _ _
             (eq_refl : iterate "messages" (VArr [first]) (fresh w)
                        = (Ok [first], fresh w))).
  rewrite (bind_Throw _ _ _ _ _ E2), (bind_Ok _ _ _ _ _ E1).
  unfold send. rewrite S. repeat split.
Qed.

(** X10. A [null] entry in [messages] aborts a bulk request: the
    messages before it are handled as usual, nothing after it is
    attempted, and the answer is 500 with the [TypeError] that reading
    [to] of [null] raised inside the inner [catch]. *)
Theorem bulk_null_entry_aborts :
  forall (World : Type) (ext : Collaborators World) (env : Env)
         (pre post : list value) (w : World),
    Forall (fun m => nullish m = false) pre ->
    responseOf (App.postSendBulkMessages ext env (bulkOf (pre ++ VNull :: post))) w
    = Some (mkResponse 500
              (VObj [("success", VBool false);
                     ("error", VStr "Cannot read properties of null (reading 'to')")]))
    /\ eventsOf (App.postSendBulkMessages ext env (bulkOf (pre ++ VNull :: post))) w
       = eventsOf (App.postSendBulkMessages ext env (bulkOf pre)) w.
Proof.
  intros World ext env pre post w H.
  destruct (bulkLoop_null ext env post pre [] [] (fresh w) H) as (acc & st' & E1 & E2).
  pose proof (bulkLoop_same ext env pre [] [] (fresh w)) as S.
  unfold sameResponse, after in S. rewrite E1 in S. cbn [snd fresh sent] in S.
  unfold responseOf, eventsOf, after, App.postSendBulkMessages, tryCatch, bulkOf.
  rewrite !(bind_Ok _ _ _ _ _ (getProp_Ok (VObj _) "messages" (fresh w) eq_refl)).
  cbn [prop lookup String.eqb Ascii.eqb Bool.eqb].
  rewrite (bind_Ok _ _ _ _ _
             (eq_refl : iterate "messages" (VArr (pre ++ VNull :: post)) (fresh w)
                        = (Ok (pre ++ VNull :: post)%list, fresh w))).
  rewrite (bind_Ok _ _ _ _ _
             (eq_refl : iterate "messages" (VArr pre) (fresh w) = (Ok pre, fresh w))).
  rewrite (bind_Throw _ _ _ _ _ E2), (bind_Ok _ _ _ _ _ E1).
  unfold send. rewrite S. split; reflexivity.
Qed.

Lemma bulk_null_entry_aborts_example :
  responseOf
    (App.postSendBulkMessages Sample.ext Sample.env
       (bulkOf [VObj [("to", VStr "+15551234"); ("body", VStr "Hi A")];
                VNull;
                VObj [("to", VStr "+15552345"); ("body", VStr "Hi C")]])) tt
  = Some (mkResponse 500
            (VObj [("success", VBool false);
                   ("error", VStr "Cannot read properties of null (reading 'to')")]))
  /\ List.length
       (httpRequests
          (eventsOf
             (App.postSendBulkMessages Sample.ext Sample.env
                (bulkOf [VObj [("to", VStr "+15551234"); ("body", VStr "Hi A")];
                         VNull;
                         VObj [("to", VStr "+15552345"); ("body", VStr "Hi C")]])) tt))
     = 1.
Proof.
  split; [|reflexivity].
  refine (proj1 (bulk_null_entry_aborts unit Sample.ext Sample.env
                   [VObj [("to", VStr "+15551234"); ("body", VStr "Hi A")]]
                   [VObj [("to", VStr "+15552345"); ("body", VStr "Hi C")]] tt _)).
  repeat constructor.
Defined.

(** X11. Without credentials a bulk request is still answered 200:
    [results] is empty, every message has its entry in [errors] with the
    configuration error, and the run did nothing but wait one second per
    message: no HTTP request, no datastore call. *)
Theorem bulk_without_credentials :
  forall (World : Type) (ext : Collaborators World) (env : Env)
         (reqBody : value) (messages : list value) (w : World),
    configured env = false ->
    prop reqBody "messages" = VArr messages ->
    Forall (fun m => nullish m = false) messages ->
    responseOf (App.postSendBulkMessages ext env reqBody) w
    = Some (mkResponse 200
              (VObj [("success", VBool true);
                     ("results", VArr []);
                     ("errors", VArr (map unconfiguredEntry messages))]))
    /\ eventsOf (App.postSendBulkMessages ext env reqBody) w
       = repeat (ESleep 1000) (List.length messages).
Proof.
  intros World ext env reqBody messages w Hc Hm Hobj.
  assert (B : nullish reqBody = false).
  { destruct (nullish reqBody) eqn:B; [|reflexivity].
    rewrite (prop_nullish _ "messages" B) in Hm. discriminate Hm. }
  unfold responseOf, eventsOf, after, App.postSendBulkMessages, tryCatch.
  rewrite (bind_Ok _ _ _ _ _ (getProp_Ok reqBody "messages" (fresh w) B)).
  rewrite Hm.
  rewrite (bind_Ok _ _ _ _ _
             (eq_refl : iterate "messages" (VArr messages) (fresh w)
                        = (Ok messages, fresh w))).
  rewrite (bind_Ok _ _ _ _ _ (bulkLoop_unconfigured ext env messages [] [] _ Hc Hobj)).
  split; reflexivity.
Qed.

Lemma bulk_without_credentials_example :
  eventsOf (App.postSendBulkMessages Sample.ext Sample2.noCredentials Sample.bulkRequest) tt
  = [ESleep 1000; ESleep 1000].
Proof.
  refine (proj2 (bulk_without_credentials unit Sample.ext Sample2.noCredentials
                   Sample.bulkRequest _ tt eq_refl eq_refl _)).
  repeat constructor.
Defined.

Section Dispatch.
Context {World : Type}.
Variable ext : Collaborators World.
Variable env : Env.

Let silent (e : Event) : Prop := dispatchOf e = None.

Ltac step := apply (respects_bind _ (extendsWith_trans silent)).
Ltac pure :=
  first [ apply respects_getProp | apply respects_ret ]; apply extendsWith_refl.

(** With credentials and a string destination, [sendTextMessage] posts
    once, to the cleaned destination, before anything else happens. *)
Lemma sendTextMessage_posts :
  forall s message (st : State World),
    configured env = true ->
    exists r st1,
      App.sendTextMessage ext env (VStr s) message st = (r, st1)
      /\ dispatches (trace st1)
         = (dispatches (trace st)
            ++ [inl (VStr (Str.replace "+" "" (Str.replace "whatsapp:" "" s)))])%list.
Proof.
  intros s message st Hc. unfold configured in Hc.
  apply andb_true_iff in Hc. destruct Hc as [H1 H2].
  unfold App.sendTextMessage. rewrite H1, H2. cbn [negb orb].
  unfold bind, strReplace, ret. rewrite httpPost_run.
  do 2 eexists. split; [reflexivity|].
  cbn [trace]. unfold dispatches. now rewrite picked_app.
Qed.

(** Sending and recording one addressed message posts exactly once. *)
Lemma sendAndRecord_dispatch :
  forall m (st : State World),
    configured env = true ->
    addressed m ->
    dispatches (trace (snd (App.sendAndRecord ext env m st)))
    = (dispatches (trace st) ++ [inl (cleanedTo m)])%list.
Proof.
  intros m st Hc [s Hs].
  assert (Hm : nullish m = false).
  { destruct (nullish m) eqn:N; [|reflexivity].
    rewrite (prop_nullish _ "to" N) in Hs. discriminate Hs. }
  unfold cleanedTo. rewrite Hs.
  destruct (sendTextMessage_posts s (prop m "body") st Hc) as (r & st1 & E & D).
  rewrite <- D. unfold App.sendAndRecord.
  rewrite (bind_Ok _ _ _ _ _ (getProp_Ok m "to" st Hm)).
  rewrite (bind_Ok _ _ _ _ _ (getProp_Ok m "body" st Hm)).
  rewrite Hs.
  match goal with
  | |- dispatches (trace (snd (bind ?a ?k st))) = _ =>
      apply (picked_after_bind dispatchOf a k st r st1 E)
  end.
  intros whatsappResponse.
  step; [pure | intros ? _].
  step; [pure | intros ? _].
  step; [pure | intros ? _].
  step; [apply extends_newDate | intros ? _].
  step; [pure | intros ? _].
  step; [apply extends_dbQuery; reflexivity | intros reply _].
  step.
  { destruct (truthy (replyError reply)); [apply extends_emit; reflexivity | pure]. }
  intros _ _.
  step; [pure | intros ? _].
  step; [pure | intros ? _]. pure.
Qed.

Lemma bulkLoop_dispatch :
  forall messages results errors (st : State World),
    configured env = true ->
    Forall addressed messages ->
    dispatches (trace (snd (App.bulkLoop ext env messages results errors st)))
    = (dispatches (trace st)
       ++ flat_map (fun m => [inl (cleanedTo m); inr 1000%Z]) messages)%list.
Proof.
  induction messages as [|m messages IH]; intros results errors st Hc H.
  - cbn [App.bulkLoop flat_map]. now rewrite app_nil_r.
  - inversion H as [|? ? Hm Hrest]; subst. cbn [App.bulkLoop flat_map].
    assert (N : nullish m = false).
    { destruct Hm as [s Hs]. destruct (nullish m) eqn:N; [|reflexivity].
      rewrite (prop_nullish _ "to" N) in Hs. discriminate Hs. }
    destruct (bulk_turn ext env m results errors st N) as (acc & T).
    rewrite (bind_Ok _ _ _ _ _ T). unfold sleep.
    rewrite (bind_Ok _ _ _ _ _ (emit_run _ _)).
    rewrite (IH _ _ _ Hc Hrest). cbn [trace]. unfold dispatches at 1.
    rewrite picked_app. fold (dispatches (trace (snd (App.sendAndRecord ext env m st)))).
    rewrite (sendAndRecord_dispatch m st Hc Hm).
    cbn. now rewrite <- !app_assoc.
Qed.

End Dispatch.

(** X12. With credentials, a bulk request whose messages all have a
    string [to] is dispatched strictly in order: one HTTP request per
    message, to its cleaned destination, each followed by a pause of
    1000 ms (the last one too), whether the sends succeed or fail. *)
Theorem bulk_dispatch_in_order :
  forall (World : Type) (ext : Collaborators World) (env : Env)
         (reqBody : value) (messages : list value) (w : World),
    configured env = true ->
    prop reqBody "messages" = VArr messages ->
    Forall addressed messages ->
    dispatches (eventsOf (App.postSendBulkMessages ext env reqBody) w)
    = flat_map (fun m => [inl (cleanedTo m); inr 1000%Z]) messages.
Proof.
  intros World ext env reqBody messages w Hc Hm Ha.
  assert (B : nullish reqBody = false).
  { destruct (nullish reqBody) eqn:B; [|reflexivity].
    rewrite (prop_nullish _ "messages" B) in Hm. discriminate Hm. }
  pose proof (bulkLoop_dispatch ext env messages [] [] (fresh w) Hc Ha) as D.
  pose proof (bulkLoop_same ext env messages [] [] (fresh w)) as S.
  unfold sameResponse, after in S.
  unfold eventsOf, after, App.postSendBulkMessages, tryCatch.
  rewrite (bind_Ok _ _ _ _ _ (getProp_Ok reqBody "messages" (fresh w) B)).
  rewrite Hm.
  rewrite (bind_Ok _ _ _ _ _
             (eq_refl : iterate "messages" (VArr messages) (fresh w)
                        = (Ok messages, fresh w))).
  unfold bind.
  destruct (App.bulkLoop ext env messages [] [] (fresh w)) as [[acc|e] st'];
    cbn [snd fresh sent trace] in *; unfold send; rewrite S; cbn [snd trace]; exact D.
Qed.

Lemma bulk_dispatch_in_order_example :
  dispatches (eventsOf (App.postSendBulkMessages Sample.ext Sample.env Sample.bulkRequest) tt)
  = [inl (VStr "15550000"); inr 1000%Z; inl (VStr "15551234"); inr 1000%Z].
Proof.
  refine (bulk_dispatch_in_order unit Sample.ext Sample.env Sample.bulkRequest
            _ tt eq_refl eq_refl _).
  repeat constructor; eexists; reflexivity.
Defined.

(** X13. A bulk request without [messages] (no body, no such key, or
    [null]) is answered 500 and nothing at all is done for it. *)
Theorem bulk_without_messages :
  forall (World : Type) (ext : Collaborators World) (env : Env)
         (reqBody : value) (w : World),
    nullish (prop reqBody "messages") = true ->
    eventsOf (App.postSendBulkMessages ext env reqBody) w = []
    /\ exists msg,
        responseOf (App.postSendBulkMessages ext env reqBody) w
        = Some (mkResponse 500 (VObj [("success", VBool false); ("error", VStr msg)])).
Proof.
  intros World ext env reqBody w H.
  unfold responseOf, eventsOf, after, App.postSendBulkMessages, tryCatch.
  destruct (nullish reqBody) eqn:B.
  - rewrite (bind_Throw _ _ _ _ _ (getProp_Throw reqBody "messages" (fresh w) B)).
    split; [reflexivity | eexists; reflexivity].
  - rewrite (bind_Ok _ _ _ _ _ (getProp_Ok reqBody "messages" (fresh w) B)).
    destruct (prop reqBody "messages"); try discriminate H;
      (split; [reflexivity | eexists; reflexivity]).
Qed.

Lemma bulk_without_messages_example :
  responseOf (App.postSendBulkMessages Sample.ext Sample.env (VObj [("message", VArr [])])) tt
  = Some (mkResponse 500
            (VObj [("success", VBool false); ("error", VStr "messages is not iterable")])).
Proof.
  destruct (bulk_without_messages unit Sample.ext Sample.env
              (VObj [("message", VArr [])]) tt eq_refl) as (_ & msg & E).
  rewrite E. vm_compute in E. inversion E. reflexivity.
Defined.

(** X14. The bulk route always completes and always answers: 200 with
    [success: true], or 500 with [success: false]. *)
Theorem bulk_always_answers :
  forall (World : Type) (ext : Collaborators World) (env : Env)
         (reqBody : value) (w : World),
    fst (App.postSendBulkMessages ext env reqBody (fresh w)) = Ok tt
    /\ exists r,
        responseOf (App.postSendBulkMessages ext env reqBody) w = Some r
        /\ ((status r = 200%Z /\ prop (body r) "success" = VBool true)
            \/ (status r = 500%Z /\ prop (body r) "success" = VBool false)).
Proof.
  intros World ext env reqBody w.
  assert (E : ensures
                (messages <- getProp reqBody "messages" ;;
                 items <- iterate "messages" messages ;;
                 acc <- App.bulkLoop ext env items [] [] ;;
                 send 200 (VObj [("success", VBool true);
                                 ("results", VArr (fst acc));
                                 ("errors", VArr (snd acc))]))
                (fun _ st' =>
                   exists r, sent st' = Some r /\ status r = 200%Z
                             /\ prop (body r) "success" = VBool true)).
  { apply ensures_bind; [apply same_getProp | intros messages].
    apply ensures_bind; [apply same_iterate | intros items].
    apply ensures_bind; [apply bulkLoop_same | intros acc].
    intros st Hs. unfold send. rewrite Hs. eexists. repeat split. }
  specialize (E (fresh w) eq_refl).
  unfold responseOf, after, App.postSendBulkMessages, tryCatch.
  match goal with
  | |- context [match ?m ?s with _ => _ end] => destruct (m s) as [[[]|e] st']
  end.
  - destruct E as (r & E1 & E2 & E3). split; [reflexivity|].
    exists r. cbn [snd]. split; [exact E1 | left; now split].
  - unfold send. rewrite E. cbn. split; [reflexivity|].
    eexists. split; [reflexivity | right; now split].
Qed.

(** ** The single-send route *)

Section SingleSend.
Context {World : Type}.
Variable ext : Collaborators World.
Variable env : Env.



(** The [try] block of the single-send route returns only after it has
    sent 200 with [success: true]. *)
Lemma postSendMessage_try :
  forall reqBody,
    ensures
      (to <- getProp reqBody "to" ;;
       text <- getProp reqBody "body" ;;
       whatsappResponse <- App.sendTextMessage ext env to text ;;
       inviteeId <- getProp reqBody "inviteeId" ;;
       templateId <- getProp reqBody "templateId" ;;
       sentAt <- newDate ext ;;
       messages <- getProp whatsappResponse "messages" ;;
       reply <- dbQuery ext
         (DbInsert "message_history"
            [VObj [("invitee_id", orElse inviteeId VNull);
                   ("template_id", orElse templateId VNull);
                   ("message_body", text);
                   ("sent_at", VStr sentAt);
                   ("status", VStr "delivered");
                   ("whatsapp_message_id",
                    orElse (optProp (optFirst messages) "id") VNull)]]
            true) ;;
       (if truthy (replyError reply)
        then consoleError [VStr "DB insert error:"; replyError reply]
        else ret tt) ;;;
       messages' <- getProp whatsappResponse "messages" ;;
       send 200
         (VObj [("success", VBool true);
                ("whatsappMessageId", optProp (optFirst messages') "id");
                ("messageHistoryId", optProp (optFirst (replyData reply)) "id");
                ("whatsappResponse", whatsappResponse)]))
      (fun _ st' =>
         exists r, sent st' = Some r /\ status r = 200%Z
                   /\ prop (body r) "success" = VBool true).
Proof.
  intros reqBody.
  apply ensures_bind; [apply same_getProp | intros to].
  apply ensures_bind; [apply same_getProp | intros text].
  apply ensures_bind; [apply sendTextMessage_same | intros whatsappResponse].
  apply ensures_bind; [apply same_getProp | intros inviteeId].
  apply ensures_bind; [apply same_getProp | intros templateId].
  apply ensures_bind; [apply same_newDate | intros sentAt].
  apply ensures_bind; [apply same_getProp | intros messages].
  apply ensures_bind; [apply same_dbQuery | intros reply].
  apply ensures_bind.
  { destruct (truthy (replyError reply));
      [apply same_emit | apply respects_ret, sameResponse_refl]. }
  intros _.
  apply ensures_bind; [apply same_getProp | intros messages'].
  intros st Hs. unfold send. rewrite Hs. eexists. repeat split.
Qed.

End SingleSend.



(** X16. A send that succeeded is reported as a success even when the
    datastore answers the insert with an error: the error is only
    logged.  After the send, the run is the insert and one
    [console.error] of the error, nothing more, and the route answers 200
    with [success: true], the provider's response and its message id. *)
Theorem single_send_survives_datastore_error :
  forall (World : Type) (ext : Collaborators World) (env : Env)
         (reqBody whatsappResponse : value) (st1 : State World)
         (reply : DbReply) (w : World),
    nullish reqBody = false ->
    App.sendTextMessage ext env (prop reqBody "to") (prop reqBody "body") (fresh w)
    = (Ok whatsappResponse, st1) ->
    nullish whatsappResponse = false ->
    let insert := recordInsert reqBody whatsappResponse (fst (clock ext (world st1))) in
    fst (supabase ext insert (snd (clock ext (world st1)))) = Ok reply ->
    truthy (replyError reply) = true ->
    eventsOf (Routes.postSendMessage ext env reqBody) w
    = (trace st1
       ++ [EDb insert; ELog "error" [VStr "DB insert error:"; replyError reply]])%list
    /\ responseOf (Routes.postSendMessage ext env reqBody) w
       = Some (mkResponse 200
                 (VObj [("success", VBool true);
                        ("whatsappMessageId",
                         optProp (optFirst (prop whatsappResponse "messages")) "id");
                        ("messageHistoryId", optProp (optFirst (replyData reply)) "id");
                        ("whatsappResponse", whatsappResponse)])).
Proof.
  intros World ext env reqBody wr st1 reply w B E Hw insert Hr He.
  pose proof (sendTextMessage_same ext env (prop reqBody "to") (prop reqBody "body")
                (fresh w)) as S.
  unfold sameResponse, after in S. rewrite E in S. cbn [snd fresh sent] in S.
  unfold responseOf, eventsOf, after, Routes.postSendMessage, tryCatch.
  rewrite (bind_Ok _ _ _ _ _ (getProp_Ok reqBody "to" (fresh w) B)).
  rewrite (bind_Ok _ _ _ _ _ (getProp_Ok reqBody "body" (fresh w) B)).
  rewrite (bind_Ok _ _ _ _ _ E).
  rewrite (bind_Ok _ _ _ _ _ (getProp_Ok reqBody "inviteeId" st1 B)).
  rewrite (bind_Ok _ _ _ _ _ (getProp_Ok reqBody "templateId" st1 B)).
  rewrite (bind_Ok _ _ _ _ _ (newDate_run ext st1)).
  rewrite (bind_Ok _ _ _ _ _ (getProp_Ok wr "messages" _ Hw)).
  fold (recordInsert reqBody wr (fst (clock ext (world st1)))). fold insert.
  rewrite (bind_Ok _ _ _ _ _
             (dbQuery_Ok ext insert reply
                (mkState (snd (clock ext (world st1))) (trace st1) (sent st1)) Hr)).
  rewrite He. unfold consoleError. rewrite (bind_Ok _ _ _ _ _ (emit_run _ _)).
  rewrite (bind_Ok _ _ _ _ _ (getProp_Ok wr "messages" _ Hw)).
  unfold send. cbn [sent world trace]. rewrite S. cbn [fst snd trace sent].
  rewrite <- app_assoc. split; reflexivity.
Qed.

Lemma single_send_survives_datastore_error_example :
  exists request insert,
    eventsOf (Routes.postSendMessage Sample2.extRefusing Sample.env
                (Sample2.sendRequest "+15551234")) tt
    = [EHttpPost request; EDb insert;
       ELog "error" [VStr "DB insert error:";
                     VObj [("message", VStr "permission denied")]]]
    /\ option_map status
         (responseOf (Routes.postSendMessage Sample2.extRefusing Sample.env
                        (Sample2.sendRequest "+15551234")) tt)
       = Some 200%Z.
Proof.
  destruct (single_send_survives_datastore_error unit Sample2.extRefusing Sample.env
              (Sample2.sendRequest "+15551234")
              (VObj [("messages", VArr [VObj [("id", VStr "wamid.1")]])])
              (snd (App.sendTextMessage Sample2.extRefusing Sample.env
                      (VStr "+15551234") (VStr "See you there") (fresh tt)))
              (mkReply VNull (VObj [("message", VStr "permission denied")]))
              tt eq_refl eq_refl eq_refl eq_refl eq_refl) as [E R].
  rewrite E, R. eexists. eexists. split; reflexivity.
Defined.

(** X17. The single-send route always completes and always answers:
    200 with [success: true], or 500 with [success: false]. *)
Theorem single_send_always_answers :
  forall (World : Type) (ext : Collaborators World) (env : Env)
         (reqBody : value) (w : World),
    fst (Routes.postSendMessage ext env reqBody (fresh w)) = Ok tt
    /\ exists r,
        responseOf (Routes.postSendMessage ext env reqBody) w = Some r
        /\ ((status r = 200%Z /\ prop (body r) "success" = VBool true)
            \/ (status r = 500%Z /\ prop (body r) "success" = VBool false)).
Proof.
  intros World ext env reqBody w.
  pose proof (postSendMessage_try ext env reqBody (fresh w) eq_refl) as E.
  unfold responseOf, after, Routes.postSendMessage, tryCatch.
  match goal with
  | |- context [match ?m ?s with _ => _ end] => destruct (m s) as [[[]|e] st']
  end.
  - destruct E as (r & E1 & E2 & E3). split; [reflexivity|].
    exists r. cbn [snd]. split; [exact E1 | left; now split].
  - unfold send. rewrite E. cbn. split; [reflexivity|].
    eexists. split; [reflexivity | right; now split].
Qed.

(** ** The schedule route *)

Section Schedule.
Context {World : Type}.
Variable ext : Collaborators World.

(** The schedule route up to the answer of its insert. *)
Lemma postScheduleMessage_start :
  forall reqBody (w : World),
    nullish reqBody = false ->
    Routes.postScheduleMessage ext reqBody (fresh w)
    = tryCatch
        (reply <- dbQuery ext (scheduleInsert reqBody (fst (clock ext w))) ;;
         if truthy (replyError reply)
         then throw (Routes.datastoreError (replyError reply))
         else
           row <- getFirst (replyData reply) ;;
           id <- getProp row "id" ;;
           send 200 (VObj [("success", VBool true); ("scheduledMessageId", id)]))
        (fun e =>
           send 500 (VObj [("success", VBool false); ("error", VStr (errMessage e))]))
        (mkState (snd (clock ext w)) [] None).
Proof.
  intros reqBody w B. unfold Routes.postScheduleMessage, tryCatch.
  rewrite (bind_Ok _ _ _ _ _ (getProp_Ok reqBody "to" (fresh w) B)).
  rewrite (bind_Ok _ _ _ _ _ (getProp_Ok reqBody "body" (fresh w) B)).
  rewrite (bind_Ok _ _ _ _ _ (getProp_Ok reqBody "scheduledDate" (fresh w) B)).
  rewrite (bind_Ok _ _ _ _ _ (getProp_Ok reqBody "inviteeId" (fresh w) B)).
  rewrite (bind_Ok _ _ _ _ _ (getProp_Ok reqBody "templateId" (fresh w) B)).
  rewrite (bind_Ok _ _ _ _ _ (newDate_run ext (fresh w))).
  reflexivity.
Qed.

End Schedule.

(** X18. Scheduling only records: for a request with a body, the whole
    run is one insert into [scheduled_messages] of the row made from the
    request ([scheduled_date] is the request's [scheduledDate]); nothing
    is posted to the provider and nothing is logged. *)
Theorem schedule_only_records :
  forall (World : Type) (ext : Collaborators World) (reqBody : value) (w : World),
    nullish reqBody = false ->
    eventsOf (Routes.postScheduleMessage ext reqBody) w
    = [EDb (scheduleInsert reqBody (fst (clock ext w)))].
Proof.
  intros World ext reqBody w B. unfold eventsOf, after.
  rewrite (postScheduleMessage_start ext reqBody w B).
  unfold tryCatch, bind at 1. rewrite dbQuery_run. cbn [world trace sent fst snd app].
  destruct (fst (supabase ext _ _)) as [reply|e]; [|reflexivity].
  destruct (truthy (replyError reply)); [reflexivity|].
  unfold bind, getFirst, getProp.
  destruct (nullish (replyData reply)); [reflexivity|]. cbn.
  destruct (nullish (first (replyData reply))); reflexivity.
Qed.

Lemma schedule_only_records_example :
  eventsOf (Routes.postScheduleMessage Sample.ext Sample2.scheduleRequest) tt
  = [EDb (DbInsert "scheduled_messages"
            [VObj [("to", VStr "+15551234");
                   ("body", VStr "Reminder");
                   ("invitee_id", VNull);
                   ("template_id", VNull);
                   ("scheduled_date", VStr "2024-06-01T09:00:00Z");
                   ("created_at", VStr "2024-05-01T10:20:30.000Z")]]
            true)].
Proof.
  exact (schedule_only_records unit Sample.ext Sample2.scheduleRequest tt eq_refl).
Defined.

(** X19. The answer of the schedule route follows the datastore's
    reply to the insert: an error with a message gives 500 with that
    message; no error and a first row give 200 with the row's [id]; no
    error and no row give 500 as well. *)
Theorem schedule_answer_follows_reply :
  forall (World : Type) (ext : Collaborators World) (reqBody : value)
         (reply : DbReply) (w : World),
    nullish reqBody = false ->
    fst (supabase ext (scheduleInsert reqBody (fst (clock ext w))) (snd (clock ext w)))
    = Ok reply ->
    (forall msg,
        truthy (replyError reply) = true ->
        prop (replyError reply) "message" = VStr msg ->
        responseOf (Routes.postScheduleMessage ext reqBody) w
        = Some (mkResponse 500 (VObj [("success", VBool false); ("error", VStr msg)])))
    /\ (truthy (replyError reply) = false ->
        nullish (optFirst (replyData reply)) = false ->
        responseOf (Routes.postScheduleMessage ext reqBody) w
        = Some (mkResponse 200
                  (VObj [("success", VBool true);
                         ("scheduledMessageId", prop (first (replyData reply)) "id")])))
    /\ (truthy (replyError reply) = false ->
        nullish (optFirst (replyData reply)) = true ->
        exists msg,
          responseOf (Routes.postScheduleMessage ext reqBody) w
          = Some (mkResponse 500 (VObj [("success", VBool false); ("error", VStr msg)]))).
Proof.
  intros World ext reqBody reply w B Hr. unfold responseOf, after.
  rewrite (postScheduleMessage_start ext reqBody w B). unfold tryCatch.
  rewrite (bind_Ok _ _ _ _ _
             (dbQuery_Ok ext _ reply (mkState (snd (clock ext w)) [] None) Hr)).
  split; [|split].
  - intros msg He Hm. rewrite He. unfold Routes.datastoreError. rewrite Hm. reflexivity.
  - intros He Hf. rewrite He. unfold optFirst in Hf.
    destruct (nullish (replyData reply)) eqn:D; [discriminate Hf|].
    rewrite (bind_Ok _ _ _ _ _ (getFirst_Ok _ _ D)).
    rewrite (bind_Ok _ _ _ _ _ (getProp_Ok _ "id" _ Hf)). reflexivity.
  - intros He Hf. rewrite He. unfold optFirst in Hf.
    destruct (nullish (replyData reply)) eqn:D.
    + assert (G : forall st : State World,
                 getFirst (replyData reply) st
                 = (Throw (cannotRead (replyData reply) "0"), st)).
      { intros st. unfold getFirst. now rewrite D. }
      rewrite (bind_Throw _ _ _ _ _ (G _)).
      eexists. reflexivity.
    + rewrite (bind_Ok _ _ _ _ _ (getFirst_Ok _ _ D)).
      rewrite (bind_Throw _ _ _ _ _ (getProp_Throw _ "id" _ Hf)).
      eexists. reflexivity.
Qed.

Lemma schedule_answer_follows_reply_example :
  responseOf (Routes.postScheduleMessage Sample2.extRefusing Sample2.scheduleRequest) tt
  = Some (mkResponse 500
            (VObj [("success", VBool false); ("error", VStr "permission denied")]))
  /\ responseOf (Routes.postScheduleMessage Sample.ext Sample2.scheduleRequest) tt
     = Some (mkResponse 200
               (VObj [("success", VBool true); ("scheduledMessageId", VNum 41)])).
Proof.
  split.
  - exact (proj1 (schedule_answer_follows_reply unit Sample2.extRefusing
                    Sample2.scheduleRequest _ tt eq_refl eq_refl)
             "permission denied" eq_refl eq_refl).
  - exact (proj1 (proj2 (schedule_answer_follows_reply unit Sample.ext
                           Sample2.scheduleRequest _ tt eq_refl eq_refl))
             eq_refl eq_refl).
Defined.

(** ** The outbound helpers *)

Lemma replace_absent :
  forall c s,
    Str.contains c s = false -> Str.replace (String c "") "" s = s.
Proof.
  intros c s. induction s as [|d s IH]; intros H; [reflexivity|].
  cbn [Str.replace Str.stripPrefix]. simpl in H.
  apply orb_false_iff in H. destruct H as [H1 H2]. rewrite H1.
  now rewrite (IH H2).
Qed.

Section Outbound.
Context {World : Type}.
Variable ext : Collaborators World.
Variable env : Env.
Hypothesis credentials : configured env = true.

Lemma credentials_pass :
  negb (truthy (phoneNumberId (getWhatsAppConfig env)))
  || negb (truthy (accessToken (getWhatsAppConfig env))) = false.
Proof.
  unfold configured in credentials. apply andb_true_iff in credentials.
  destruct credentials as [-> ->]. reflexivity.
Qed.

(** The request of the entry point's [sendTextMessage]. *)
Lemma app_send_run :
  forall s message (st : State World),
    exists r,
      App.sendTextMessage ext env (VStr s) message st
      = (fst (axiosPost ext r (world st)),
         mkState (snd (axiosPost ext r (world st))) (trace st ++ [EHttpPost r]) (sent st))
      /\ data r
         = VObj [("messaging_product", VStr "whatsapp");
                 ("to", VStr (Str.replace "+" "" (Str.replace "whatsapp:" "" s)));
                 ("text", VObj [("body", message)])].
Proof.
  intros s message st. unfold App.sendTextMessage. rewrite credentials_pass.
  unfold bind, strReplace, ret. rewrite httpPost_run. eexists. split; reflexivity.
Qed.

(** The request of the shared module's [sendTextMessage], and its log
    when the provider refuses. *)
Lemma lib_send_run :
  forall s message (st : State World),
    exists r,
      data r
      = VObj [("messaging_product", VStr "whatsapp");
              ("to", VStr (Str.replace "whatsapp:" "" s));
              ("type", VStr "text");
              ("text", VObj [("body", message)])]
      /\ fst (Lib.sendTextMessage ext env (VStr s) message st)
         = fst (axiosPost ext r (world st))
      /\ world (snd (Lib.sendTextMessage ext env (VStr s) message st))
         = snd (axiosPost ext r (world st))
      /\ trace (snd (Lib.sendTextMessage ext env (VStr s) message st))
         = (trace st
            ++ [ELog "log" [VStr "Sending WhatsApp message:"; data r]; EHttpPost r]
            ++ match fst (axiosPost ext r (world st)) with
               | Ok _ => []
               | Throw e =>
                   [ELog "error" [VStr "WhatsApp API Error:";
                                  orElse (errResponseData e) (VStr (errMessage e))]]
               end)%list.
Proof.
  intros s message st. unfold Lib.sendTextMessage. rewrite credentials_pass.
  unfold bind, strReplace, ret, consoleLog, consoleError, emit, tryCatch, throw.
  cbn [world trace sent]. rewrite httpPost_run. cbn [world trace sent fst snd].
  exists (mkRequest
            (Lib.WHATSAPP_API_URL ++ "/" ++ display (phoneNumberId (getWhatsAppConfig env))
             ++ "/messages")
            (VObj [("messaging_product", VStr "whatsapp");
                   ("to", VStr (Str.replace "whatsapp:" "" s));
                   ("type", VStr "text");
                   ("text", VObj [("body", message)])])
            [("Authorization", "Bearer " ++ display (accessToken (getWhatsAppConfig env)));
             ("Content-Type", "application/json")]).
  split; [reflexivity|].
  destruct (fst (axiosPost ext _ (world st))); cbn [fst snd world trace];
    rewrite <- ?app_assoc; repeat split; reflexivity.
Qed.

End Outbound.

(** X20. Both copies of [sendTextMessage] make one attempt and pass its
    outcome on: with credentials and a string destination, the call
    issues exactly one HTTP request and returns what the provider
    returned, or throws the very error the provider threw; the shared
    module logs that error once before rethrowing it. *)
Theorem send_outcome_is_provider_outcome :
  forall (World : Type) (ext : Collaborators World) (env : Env)
         (to : string) (message : value) (w : World),
    configured env = true ->
    exists r1 r2,
      httpRequests (eventsOf (App.sendTextMessage ext env (VStr to) message) w) = [r1]
      /\ fst (App.sendTextMessage ext env (VStr to) message (fresh w))
         = fst (axiosPost ext r1 w)
      /\ httpRequests (eventsOf (Lib.sendTextMessage ext env (VStr to) message) w) = [r2]
      /\ fst (Lib.sendTextMessage ext env (VStr to) message (fresh w))
         = fst (axiosPost ext r2 w)
      /\ (forall e,
             fst (axiosPost ext r2 w) = Throw e ->
             eventsOf (Lib.sendTextMessage ext env (VStr to) message) w
             = [ELog "log" [VStr "Sending WhatsApp message:"; data r2];
                EHttpPost r2;
                ELog "error" [VStr "WhatsApp API Error:";
                              orElse (errResponseData e) (VStr (errMessage e))]]).
Proof.
  intros World ext env to message w Hc.
  destruct (app_send_run ext env Hc to message (fresh w)) as (r1 & E1 & _).
  destruct (lib_send_run ext env Hc to message (fresh w)) as (r2 & _ & F2 & _ & T2).
  exists r1, r2. unfold eventsOf, after. rewrite E1, T2.
  cbn [fresh world trace fst snd app] in *.
  split; [reflexivity|]. split; [reflexivity|]. split.
  - destruct (fst (axiosPost ext r2 w)); reflexivity.
  - split; [exact F2|]. intros e He. now rewrite He.
Qed.

Lemma send_outcome_is_provider_outcome_example :
  fst (App.sendTextMessage Sample.ext Sample.env (VStr "+15550000") (VStr "hi") (fresh tt))
  = Throw (mkError "AxiosError" "Request failed with status code 400"
             (VObj [("error", VObj [("code", VNum 131026)])]))
  /\ fst (Lib.sendTextMessage Sample.ext Sample.env (VStr "+15550000") (VStr "hi") (fresh tt))
     = Ok (VObj [("messages", VArr [VObj [("id", VStr "wamid.1")]])]).
Proof.
  destruct (send_outcome_is_provider_outcome unit Sample.ext Sample.env
              "+15550000" (VStr "hi") tt eq_refl)
    as (r1 & r2 & H1 & H2 & H3 & H4 & _).
  split.
  - rewrite H2. vm_compute in H1. inversion H1. reflexivity.
  - rewrite H4. vm_compute in H3. inversion H3. reflexivity.
Defined.

(** X21. The two copies of [sendTextMessage] post to the same
    destination exactly when the given one has no [+]. *)
Theorem send_copies_agree_iff_no_plus :
  forall (World : Type) (ext : Collaborators World) (env : Env)
         (to : string) (message : value) (w : World),
    configured env = true ->
    exists r1 r2,
      httpRequests (eventsOf (App.sendTextMessage ext env (VStr to) message) w) = [r1]
      /\ httpRequests (eventsOf (Lib.sendTextMessage ext env (VStr to) message) w) = [r2]
      /\ (prop (data r1) "to" = prop (data r2) "to" <-> Str.contains "+" to = false).
Proof.
  intros World ext env to message w Hc.
  destruct (app_send_run ext env Hc to message (fresh w)) as (r1 & E1 & D1).
  destruct (lib_send_run ext env Hc to message (fresh w)) as (r2 & D2 & _ & _ & T2).
  exists r1, r2. unfold eventsOf, after. rewrite E1, T2, D1, D2.
  cbn [fresh world trace fst snd app prop lookup String.eqb Ascii.eqb Bool.eqb].
  split; [reflexivity|]. split.
  - destruct (fst (axiosPost ext r2 w)); reflexivity.
  - split.
    + intros E. inversion E as [E']. destruct (Str.contains "+" to) eqn:C; [|reflexivity].
      exfalso. exact (cleaned_numbers_differ to C E').
    + intros C. f_equal. apply replace_absent.
      rewrite contains_remove; [exact C | reflexivity].
Qed.

Lemma send_copies_agree_iff_no_plus_example :
  exists r1 r2,
    httpRequests (eventsOf (App.sendTextMessage Sample.ext Sample.env
                              (VStr "whatsapp:15551234") (VStr "hi")) tt) = [r1]
    /\ httpRequests (eventsOf (Lib.sendTextMessage Sample.ext Sample.env
                                 (VStr "whatsapp:15551234") (VStr "hi")) tt) = [r2]
    /\ prop (data r1) "to" = prop (data r2) "to".
Proof.
  destruct (send_copies_agree_iff_no_plus unit Sample.ext Sample.env
              "whatsapp:15551234" (VStr "hi") tt eq_refl)
    as (r1 & r2 & H1 & H2 & H3).
  exists r1, r2. split; [exact H1|]. split; [exact H2|]. apply H3. reflexivity.
Defined.

(** X22. For an address of the form [whatsapp:+N] the entry point
    posts to [N] and the shared module to [+N], whatever [N] is. *)
Theorem whatsapp_plus_address :
  forall (World : Type) (ext : Collaborators World) (env : Env)
         (number : string) (message : value) (w : World),
    configured env = true ->
    exists r1 r2,
      httpRequests
        (eventsOf (App.sendTextMessage ext env (VStr ("whatsapp:+" ++ number)) message) w)
      = [r1]
      /\ httpRequests
           (eventsOf (Lib.sendTextMessage ext env (VStr ("whatsapp:+" ++ number)) message) w)
         = [r2]
      /\ prop (data r1) "to" = VStr number
      /\ prop (data r2) "to" = VStr ("+" ++ number).
Proof.
  intros World ext env number message w Hc.
  destruct (app_send_run ext env Hc ("whatsapp:+" ++ number) message (fresh w))
    as (r1 & E1 & D1).
  destruct (lib_send_run ext env Hc ("whatsapp:+" ++ number) message (fresh w))
    as (r2 & D2 & _ & _ & T2).
  exists r1, r2. unfold eventsOf, after. rewrite E1, T2, D1, D2.
  cbn [fresh world trace fst snd app].
  split; [reflexivity|]. split.
  - destruct (fst (axiosPost ext r2 w)); reflexivity.
  - split; reflexivity.
Qed.

Lemma whatsapp_plus_address_example :
  exists r1 r2,
    httpRequests (eventsOf (App.sendTextMessage Sample.ext Sample.env
                              (VStr "whatsapp:+15551234") (VStr "hi")) tt) = [r1]
    /\ httpRequests (eventsOf (Lib.sendTextMessage Sample.ext Sample.env
                                 (VStr "whatsapp:+15551234") (VStr "hi")) tt) = [r2]
    /\ prop (data r1) "to" = VStr "15551234"
    /\ prop (data r2) "to" = VStr "+15551234".
Proof.
  exact (whatsapp_plus_address unit Sample.ext Sample.env "15551234" (VStr "hi") tt eq_refl).
Defined.

(** X23. A destination that is not a string (a missing [to], say) is
    refused before anything happens: with credentials, both copies of
    [sendTextMessage] and [sendTemplateMessage] throw a [TypeError] and
    leave the state as it was; no request is made. *)
Theorem send_refuses_non_string_destination :
  forall (World : Type) (ext : Collaborators World) (env : Env)
         (to message : value) (params : option (list value)) (st : State World),
    configured env = true ->
    (forall s, to <> VStr s) ->
    exists e,
      errName e = "TypeError"
      /\ App.sendTextMessage ext env to message st = (Throw e, st)
      /\ Lib.sendTextMessage ext env to message st = (Throw e, st)
      /\ Templates.sendTemplateMessage ext env to message params st = (Throw e, st).
Proof.
  intros World ext env to message params st Hc Hs.
  unfold App.sendTextMessage, Lib.sendTextMessage, Templates.sendTemplateMessage.
  rewrite (credentials_pass env Hc). unfold bind, strReplace.
  destruct to; try (eexists; repeat split; reflexivity).
  exfalso. exact (Hs s eq_refl).
Qed.

Lemma send_refuses_non_string_destination_example :
  exists e,
    errMessage e = "Cannot read properties of undefined (reading 'replace')"
    /\ App.sendTextMessage Sample.ext Sample.env VUndefined (VStr "hi") (fresh tt)
       = (Throw e, fresh tt).
Proof.
  destruct (send_refuses_non_string_destination unit Sample.ext Sample.env
              VUndefined (VStr "hi") None (fresh tt) eq_refl)
    as (e & _ & H & _).
  - intros s. discriminate.
  - exists e. split; [|exact H]. vm_compute in H. inversion H. reflexivity.
Defined.

(** ** Template messages *)

(** X24. [sendTemplateMessage] with credentials and a string
    destination posts one request, to the v22.0 URL, for the destination
    without its [whatsapp:] prefix; the template's language is en_US; the
    parameters become the text parameters of one body component, in
    order and one for one, and no parameters (or none given) means no
    component at all.  The call returns or throws what the provider did. *)
Theorem template_request :
  forall (World : Type) (ext : Collaborators World) (env : Env)
         (to : string) (templateName : value) (params : option (list value)) (w : World),
    configured env = true ->
    exists r,
      httpRequests (eventsOf (Templates.sendTemplateMessage ext env (VStr to)
                                templateName params) w) = [r]
      /\ fst (Templates.sendTemplateMessage ext env (VStr to) templateName params (fresh w))
         = fst (axiosPost ext r w)
      /\ url r
         = "https://graph.facebook.com/v22.0/"
           ++ display (phoneNumberId (getWhatsAppConfig env)) ++ "/messages"
      /\ prop (data r) "to" = VStr (Str.replace "whatsapp:" "" to)
      /\ prop (prop (data r) "template") "name" = templateName
      /\ prop (prop (prop (data r) "template") "language") "code" = VStr "en_US"
      /\ prop (prop (data r) "template") "components"
         = match params with
           | None | Some [] => VArr []
           | Some ps =>
               VArr [VObj [("type", VStr "body");
                           ("parameters", VArr (map Templates.textParameter ps))]]
           end.
Proof.
  intros World ext env to templateName params w Hc.
  unfold eventsOf, after, Templates.sendTemplateMessage.
  rewrite (credentials_pass env Hc).
  unfold bind, strReplace, ret, tryCatch, consoleError, emit, throw.
  rewrite httpPost_run. cbn [fresh world trace sent fst snd app].
  eexists. split; [|split; [|split; [|split; [|split; [|split]]]]].
  - destruct (fst (axiosPost ext _ w)); reflexivity.
  - destruct (fst (axiosPost ext _ w)); reflexivity.
  - reflexivity.
  - reflexivity.
  - reflexivity.
  - reflexivity.
  - destruct params as [[|p ps]|]; reflexivity.
Qed.

Lemma template_request_example :
  exists r,
    httpRequests (eventsOf (Templates.sendTemplateMessage Sample.ext Sample.env
                              (VStr "whatsapp:+15551234") (VStr "rsvp")
                              (Some [VStr "Dana"; VStr "Saturday"])) tt) = [r]
    /\ prop (data r) "to" = VStr "+15551234"
    /\ prop (prop (data r) "template") "components"
       = VArr [VObj [("type", VStr "body");
                     ("parameters",
                      VArr [VObj [("type", VStr "text"); ("text", VStr "Dana")];
                            VObj [("type", VStr "text"); ("text", VStr "Saturday")]])]].
Proof.
  destruct (template_request unit Sample.ext Sample.env "whatsapp:+15551234"
              (VStr "rsvp") (Some [VStr "Dana"; VStr "Saturday"]) tt eq_refl)
    as (r & H1 & _ & _ & H4 & _ & _ & H7).
  exists r. split; [exact H1|]. split; [exact H4 | exact H7].
Defined.

(** X25. Without credentials [sendTemplateMessage] fails at once with
    the configuration error, like [sendTextMessage]: nothing is posted
    and nothing is logged. *)
Theorem template_fails_fast_without_config :
  forall (World : Type) (ext : Collaborators World) (env : Env)
         (to templateName : value) (params : option (list value)) (st : State World),
    configured env = false ->
    Templates.sendTemplateMessage ext env to templateName params st
    = (Throw Lib.configMissing, st).
Proof.
  intros World ext env to templateName params st Hc.
  unfold Templates.sendTemplateMessage.
  unfold configured in Hc. apply andb_false_iff in Hc.
  destruct Hc as [-> | ->]; cbn [negb orb]; [reflexivity|].
  now rewrite orb_true_r.
Qed.

Lemma template_fails_fast_without_config_example :
  Templates.sendTemplateMessage Sample.ext Sample2.noCredentials
    (VStr "+15551234") (VStr "rsvp") None (fresh tt)
  = (Throw Lib.configMissing, fresh tt).
Proof.
  exact (template_fails_fast_without_config unit Sample.ext Sample2.noCredentials
           (VStr "+15551234") (VStr "rsvp") None (fresh tt) eq_refl).
Defined.

(** ** The CORS helper *)

Lemma findHeader_filter_other :
  forall key name hs,
    key <> name ->
    Utils.findHeader key (filter (fun h => negb (String.eqb name (fst h))) hs)
    = Utils.findHeader key hs.
Proof.
  intros key name hs Hne. induction hs as [|[k v] hs IH]; [reflexivity|].
  cbn [filter fst Utils.findHeader].
  destruct (String.eqb_spec name k) as [<- | Hk]; cbn [negb].
  - destruct (String.eqb_spec key name); [contradiction | exact IH].
  - cbn [Utils.findHeader]. now rewrite IH.
Qed.

(** Setting a header makes it readable, and keeps every other header. *)
Lemma setHeader_get :
  forall name value res,
    Utils.resSent res = None ->
    exists res',
      Utils.setHeader name value res = (Ok tt, res')
      /\ Utils.resSent res' = None
      /\ Utils.findHeader (Str.toLowerCase name) (Utils.resHeaders res') = Some value
      /\ (forall key, key <> Str.toLowerCase name ->
                      Utils.findHeader key (Utils.resHeaders res')
                      = Utils.findHeader key (Utils.resHeaders res)).
Proof.
  intros name value res Hs. unfold Utils.setHeader. rewrite Hs.
  eexists. split; [reflexivity|]. cbn [Utils.resSent Utils.resHeaders Utils.findHeader].
  split; [reflexivity|]. split.
  - now rewrite String.eqb_refl.
  - intros key Hk. destruct (String.eqb_spec key (Str.toLowerCase name)); [contradiction|].
    now apply findHeader_filter_other.
Qed.

(** X26. A preflight request is answered on the spot and without the
    CORS headers: for the method OPTIONS, on a response not yet sent,
    [handleCors] sends 200 with an empty object and reports that it has
    handled the request, and it sets none of the CORS headers; with a
    framework that adds none of them either, each reads after the call as
    it did before. *)
Theorem preflight_is_answered_bare :
  forall (framing : list (string * string) -> list (string * string)) (res : Utils.Res),
    Utils.keepsCors framing ->
    Utils.resSent res = None ->
    exists res',
      Utils.handleCors framing (VStr "OPTIONS") res = (Ok true, res')
      /\ Utils.resSent res' = Some (mkResponse 200 (VObj []))
      /\ forall name value spelling,
          In (name, value) Utils.corsHeaders ->
          Str.toLowerCase spelling = Str.toLowerCase name ->
          Utils.getHeader spelling res' = Utils.getHeader spelling res.
Proof.
  intros framing res Hf Hs. unfold Utils.handleCors, Utils.json.
  cbn [strictEq String.eqb Ascii.eqb Bool.eqb].
  rewrite Hs. eexists. split; [reflexivity|]. split; [reflexivity|].
  intros name value spelling Hin Hsp. unfold Utils.getHeader.
  cbn [Utils.resHeaders]. apply Hf. rewrite Hsp.
  unfold Utils.corsNames.
  exact (in_map (fun h => Str.toLowerCase (fst h)) _ _ Hin).
Qed.

Lemma jsonFraming_keepsCors : Utils.keepsCors Sample2.jsonFraming.
Proof.
  intros hs key Hin. unfold Sample2.jsonFraming. cbn [Utils.findHeader].
  destruct (String.eqb_spec key "content-type") as [-> | _]; [|reflexivity].
  exfalso. vm_compute in Hin. destruct Hin as [C | [C | [C | []]]]; discriminate C.
Qed.

Lemma preflight_is_answered_bare_example :
  exists res',
    Utils.handleCors Sample2.jsonFraming (VStr "OPTIONS") (Utils.mkRes [] None)
    = (Ok true, res')
    /\ Utils.getHeader "Access-Control-Allow-Origin" res' = None.
Proof.
  destruct (preflight_is_answered_bare Sample2.jsonFraming (Utils.mkRes [] None)
              jsonFraming_keepsCors eq_refl) as (res' & H1 & _ & H3).
  exists res'. split; [exact H1|].
  rewrite (H3 "Access-Control-Allow-Origin" "*" "Access-Control-Allow-Origin");
    [reflexivity | simpl; auto | reflexivity].
Defined.

(** X27. For every other method, on a response not yet sent,
    [handleCors] answers nothing and reports [false], and afterwards the
    three CORS headers read as configured, under any spelling of their
    names' case and whatever they were before, while every other header
    is as it was. *)
Theorem cors_headers_are_set :
  forall (framing : list (string * string) -> list (string * string))
         (method : value) (res : Utils.Res),
    method <> VStr "OPTIONS" ->
    Utils.resSent res = None ->
    exists res',
      Utils.handleCors framing method res = (Ok false, res')
      /\ Utils.resSent res' = None
      /\ (forall name value,
             In (name, value) Utils.corsHeaders ->
             forall spelling,
               Str.toLowerCase spelling = Str.toLowerCase name ->
               Utils.getHeader spelling res' = Some value)
      /\ (forall name,
             ~ In (Str.toLowerCase name) Utils.corsNames ->
             Utils.getHeader name res' = Utils.getHeader name res).
Proof.
  intros framing method res Hm Hs. unfold Utils.handleCors.
  assert (E : strictEq method (VStr "OPTIONS") = false).
  { destruct (strictEq method (VStr "OPTIONS")) eqn:E; [|reflexivity].
    apply strictEq_VStr in E. contradiction. }
  rewrite E. unfold Utils.corsHeaders. cbn [Utils.setHeaders].
  destruct (setHeader_get "Access-Control-Allow-Origin" "*" res Hs)
    as (r1 & E1 & S1 & G1 & K1).
  rewrite E1.
  destruct (setHeader_get "Access-Control-Allow-Methods"
              "GET, POST, PUT, DELETE, OPTIONS" r1 S1) as (r2 & E2 & S2 & G2 & K2).
  rewrite E2.
  destruct (setHeader_get "Access-Control-Allow-Headers"
              "Content-Type, Authorization" r2 S2) as (r3 & E3 & S3 & G3 & K3).
  rewrite E3.
  exists r3. split; [reflexivity|]. split; [exact S3|]. split.
  - intros name value Hin spelling Hsp. unfold Utils.getHeader. rewrite Hsp.
    cbn [In] in Hin.
    destruct Hin as [Hin | [Hin | [Hin | []]]]; inversion Hin; subst; clear Hin.
    + rewrite K3, K2; [exact G1 | discriminate | discriminate].
    + rewrite K3; [exact G2 | discriminate].
    + exact G3.
  - intros name Hn. unfold Utils.getHeader.
    unfold Utils.corsNames, Utils.corsHeaders in Hn. cbn [map fst In] in Hn.
    rewrite K3, K2, K1; [reflexivity | | |]; intros C; apply Hn; rewrite C;
      vm_compute; auto.
Qed.

Lemma cors_headers_are_set_example :
  exists res',
    Utils.handleCors Sample2.jsonFraming (VStr "POST")
      (Utils.mkRes [("access-control-allow-origin", "https://old.example");
                    ("x-request-id", "42")] None)
    = (Ok false, res')
    /\ Utils.getHeader "access-control-allow-origin" res' = Some "*"
    /\ Utils.getHeader "X-Request-Id" res' = Some "42".
Proof.
  destruct (cors_headers_are_set Sample2.jsonFraming (VStr "POST")
              (Utils.mkRes [("access-control-allow-origin", "https://old.example");
                            ("x-request-id", "42")] None))
    as (res' & H1 & _ & H3 & H4).
  - discriminate.
  - reflexivity.
  - exists res'. split; [exact H1|]. split.
    + apply (H3 "Access-Control-Allow-Origin" "*"); [simpl; auto | reflexivity].
    + rewrite (H4 "X-Request-Id"); [reflexivity|].
      vm_compute. intros [C | [C | [C | []]]]; discriminate C.
Defined.
